(** * Sales-prospecting backend: cache layer, source adapters, aggregator
      and lead score

    A shallow embedding of the data pipeline of the backend
    ([app/services/cache_service.py], [enrichers/hunter_service.py],
    [enrichers/clearbit_service.py], [scrapers/linkedin_scraper.py] and
    [data_collector.py]) together with the properties its specification
    states about it.

    Python values are a small inductive type, dictionaries are association
    lists in insertion order, exceptions are an explicit result type, and
    the external world (Redis, HTTP, the clock) is threaded through a state
    monad that also records every external call. *)

From Stdlib Require Import ZArith List String Ascii Bool Lia.
From Stdlib Require Import Floats.PrimFloat.
From Stdlib Require Import Numbers.Cyclic.Int63.Uint63.
From Stdlib Require Import Numbers.DecimalString.
Import ListNotations.
Local Open Scope string_scope.
Local Open Scope Z_scope.
Set Warnings "-register-all".

(* ================================================================== *)
(** ** Python values and the builtins the code relies on *)
(* ================================================================== *)

Module Py.

(** Python values.  A [VDict] keeps its items in insertion order, as a
    Python [dict] does; keys are strings.  A [VTuple] is a value a
    caller can hand to the cache, though no JSON text decodes to one. *)
Inductive pyval : Type :=
| VNone
| VBool (b : bool)
| VInt (n : Z)
| VFloat (x : float)
| VStr (s : string)
| VList (l : list pyval)
| VDict (d : list (string * pyval))
| VTuple (l : list pyval).

Definition dict : Type := list (string * pyval).

(** The exceptions the modelled code can meet. *)
Inductive exn : Type :=
| ValueError (msg : string)
| TypeError
| AttributeError
| KeyError
| ConnectionError
| ResponseError
| JSONError
| TimeoutException
| OtherError.

Inductive result (A : Type) : Type :=
| Ok (a : A)
| Raise (e : exn).
Arguments Ok {A} a.
Arguments Raise {A} e.

Definition rbind {A B} (r : result A) (k : A -> result B) : result B :=
  match r with
  | Ok a => k a
  | Raise e => Raise e
  end.

(** [bool(v)]: Python truthiness. *)
Definition truthy (v : pyval) : bool :=
  match v with
  | VNone => false
  | VBool b => b
  | VInt n => negb (n =? 0)
  | VFloat x => negb (PrimFloat.eqb x 0%float)
  | VStr s => negb (String.eqb s "")
  | VList l => match l with [] => false | _ => true end
  | VDict d => match d with [] => false | _ => true end
  | VTuple l => match l with [] => false | _ => true end
  end.

(** [a or b]. *)
Definition py_or (a b : pyval) : pyval := if truthy a then a else b.

(** *** Dictionaries *)

Fixpoint lookup (d : dict) (k : string) : option pyval :=
  match d with
  | [] => None
  | (k', v) :: d' => if String.eqb k k' then Some v else lookup d' k
  end.

(** [d.get(k, default)]. *)
Definition get_default (d : dict) (k : string) (default : pyval) : pyval :=
  match lookup d k with
  | Some v => v
  | None => default
  end.

(** [d.get(k)]. *)
Definition get (d : dict) (k : string) : pyval := get_default d k VNone.

(** [d[k] = v]: an existing key keeps its position, a new one goes last. *)
Fixpoint setitem (d : dict) (k : string) (v : pyval) : dict :=
  match d with
  | [] => [(k, v)]
  | (k', v') :: d' =>
      if String.eqb k k' then (k', v) :: d' else (k', v') :: setitem d' k v
  end.

(** [d.update(items)]. *)
Definition update (d items : dict) : dict :=
  fold_left (fun acc kv => setitem acc (fst kv) (snd kv)) items d.

(** [v.get(k)] on an arbitrary value: only a dict has the method. *)
Definition val_get (v : pyval) (k : string) : result pyval :=
  match v with
  | VDict d => Ok (get d k)
  | _ => Raise AttributeError
  end.

(** [v.get(k, default)] on an arbitrary value. *)
Definition val_get_default (v : pyval) (k : string) (default : pyval)
  : result pyval :=
  match v with
  | VDict d => Ok (get_default d k default)
  | _ => Raise AttributeError
  end.

(** *** Strings

    A Python [str] is held as its UTF-8 text: one [ascii] per byte, a
    code point above 127 taking two to four bytes, of which the first
    is 192 or more and the others lie between 128 and 191.  Searching
    and replacing a text inside another gives the same result on the
    bytes as on the code points. *)

Definition lower_ascii (c : ascii) : ascii :=
  let n := nat_of_ascii c in
  if (Nat.leb 65 n && Nat.leb n 90)%bool then ascii_of_nat (n + 32) else c.

(** The letters A to Z made small, every other byte left alone. *)
Fixpoint ascii_lower (s : string) : string :=
  match s with
  | EmptyString => EmptyString
  | String c s' => String (lower_ascii c) (ascii_lower s')
  end.

(** No code point above 127. *)
Fixpoint is_ascii (s : string) : bool :=
  match s with
  | EmptyString => true
  | String c s' => (Nat.ltb (nat_of_ascii c) 128 && is_ascii s')%bool
  end.

(** [s.lower()].  On ASCII text it is the table above.  On any other
    text the case mapping is the one of the Unicode tables of the
    runtime, [mapping], which is given the whole text since the small
    form of a letter can depend on its neighbours; no capital of A to
    Z is left by it, which the table applied to its answer keeps. *)
Definition lower_by (mapping : string -> string) (s : string) : string :=
  if is_ascii s then ascii_lower s else ascii_lower (mapping s).

Definition text_of_bytes (bytes : list nat) : string :=
  string_of_list_ascii (map ascii_of_nat bytes).

(** The white space [str.strip()] removes: TAB, LF, VT, FF, CR, FS, GS,
    RS, US and the space, and above 127 the code points U+0085,
    U+00A0, U+1680, U+2000 to U+200A, U+2028, U+2029, U+202F, U+205F
    and U+3000, each as its UTF-8 text. *)
Definition white_space : list string :=
  map text_of_bytes
    [ [9]; [10]; [11]; [12]; [13]; [28]; [29]; [30]; [31]; [32];
      [194; 133]; [194; 160]; [225; 154; 128];
      [226; 128; 128]; [226; 128; 129]; [226; 128; 130]; [226; 128; 131];
      [226; 128; 132]; [226; 128; 133]; [226; 128; 134]; [226; 128; 135];
      [226; 128; 136]; [226; 128; 137]; [226; 128; 138];
      [226; 128; 168]; [226; 128; 169]; [226; 128; 175];
      [226; 129; 159]; [227; 128; 128] ]%nat.

(** [s.startswith(p)]. *)
Fixpoint startswith (p s : string) : bool :=
  match p, s with
  | EmptyString, _ => true
  | String a p', String b s' => (Ascii.eqb a b && startswith p' s')%bool
  | String _ _, EmptyString => false
  end.

(** The number of bytes of the one of [spaces] that [s] starts with, 0
    when it starts with none. *)
Definition space_at (spaces : list string) (s : string) : nat :=
  match find (fun sp => startswith sp s) spaces with
  | Some sp => String.length sp
  | None => O
  end.

(** Drops the [spaces] a text starts with; [skip] counts the bytes of
    the one being dropped. *)
Fixpoint lstrip_from (spaces : list string) (skip : nat) (s : string)
  : string :=
  match s with
  | EmptyString => EmptyString
  | String c s' =>
      match skip with
      | S k => lstrip_from spaces k s'
      | O =>
          match space_at spaces s with
          | O => s
          | S k => lstrip_from spaces k s'
          end
      end
  end.

Definition lstrip (s : string) : string := lstrip_from white_space O s.

(** The bytes in reverse order. *)
Definition reverse (s : string) : string :=
  string_of_list_ascii (rev (list_ascii_of_string s)).

(** Trailing white space is leading white space of the reversed
    text. *)
Definition rstrip (s : string) : string :=
  reverse (lstrip_from (map reverse white_space) O (reverse s)).

(** [s.strip()]. *)
Definition strip (s : string) : string := rstrip (lstrip s).

(** A byte that continues a code point. *)
Definition is_continuation (c : ascii) : bool :=
  (Nat.leb 128 (nat_of_ascii c) && Nat.ltb (nat_of_ascii c) 192)%bool.

(** The continuation bytes a text starts with. *)
Fixpoint continuation (s : string) : string :=
  match s with
  | EmptyString => EmptyString
  | String c s' =>
      if is_continuation c then String c (continuation s') else EmptyString
  end.

(** The code points of a text, each as a text of its own: what a loop
    over a [str] visits.  A byte followed by a continuation byte joins
    the item that byte belongs to; any other byte is the last of its
    code point. *)
Fixpoint code_points (s : string) : list string :=
  match s with
  | EmptyString => []
  | String c s' =>
      match s' with
      | EmptyString => [String c EmptyString]
      | String c' _ =>
          if is_continuation c' then
            match code_points s' with
            | [] => [String c EmptyString]
            | p :: ps => String c p :: ps
            end
          else String c EmptyString :: code_points s'
      end
  end.

(** [p in s] for strings. *)
Fixpoint contains (p s : string) : bool :=
  if startswith p s then true
  else match s with
       | EmptyString => false
       | String _ s' => contains p s'
       end.

(** The scan behind [replace]: [skip] counts the characters of a match
    still to be passed over. *)
Fixpoint replace_from (old new : string) (skip : nat) (s : string) : string :=
  match s with
  | EmptyString => EmptyString
  | String c s' =>
      match skip with
      | S k => replace_from old new k s'
      | O =>
          if startswith old s
          then new ++ replace_from old new (Nat.pred (String.length old)) s'
          else String c (replace_from old new O s')
      end
  end.

(** [s.replace(old, new)] for a non-empty [old] (every call in the code
    passes a literal): non-overlapping matches, left to right. *)
Definition replace (old new s : string) : string := replace_from old new O s.

(** [str(n)] for an integer. *)
Definition str_of_Z (n : Z) : string := NilZero.string_of_int (Z.to_int n).

(** [s[0]] when [s] is not empty: the first code point, that is the
    first byte and the continuation bytes after it. *)
Definition first_char (s : string) : string :=
  match s with
  | EmptyString => EmptyString
  | String c s' => String c (continuation s')
  end.

(** *** Sequences *)

(** [l[:n]]: a negative [n] counts from the end. *)
Definition slice_to {A} (l : list A) (n : Z) : list A :=
  if 0 <=? n then firstn (Z.to_nat n) l
  else firstn (List.length l - Z.to_nat (- n))%nat l.

(** [range(n)]. *)
Definition range (n : Z) : list Z := map Z.of_nat (seq 0 (Z.to_nat n)).

(** *** Numbers *)

Definition float_of_Z (n : Z) : float := PrimFloat.of_uint63 (Uint63.of_Z n).

(** [v > 0] for an arbitrary value; [bool] is a subclass of [int]. *)
Definition gt_zero (v : pyval) : result bool :=
  match v with
  | VInt n => Ok (0 <? n)
  | VBool b => Ok b
  | VFloat x => Ok (PrimFloat.ltb 0%float x)
  | _ => Raise TypeError
  end.

(** [len(v)]. *)
Definition len (v : pyval) : result Z :=
  match v with
  | VStr s => Ok (Z.of_nat (List.length (code_points s)))
  | VList l => Ok (Z.of_nat (List.length l))
  | VDict d => Ok (Z.of_nat (List.length d))
  | VTuple l => Ok (Z.of_nat (List.length l))
  | _ => Raise TypeError
  end.

(** [k in v]: key of a dict, element of a list or tuple, substring of a
    string. *)
Definition in_ (k : string) (v : pyval) : result bool :=
  match v with
  | VDict d => Ok (match lookup d k with Some _ => true | None => false end)
  | VList l | VTuple l =>
      Ok (existsb (fun x => match x with
                            | VStr s => String.eqb s k
                            | _ => false
                            end) l)
  | VStr s => Ok (contains k s)
  | _ => Raise TypeError
  end.

(** [v[k]] for a string [k]. *)
Definition getitem (v : pyval) (k : string) : result pyval :=
  match v with
  | VDict d =>
      match lookup d k with
      | Some x => Ok x
      | None => Raise KeyError
      end
  | _ => Raise TypeError
  end.

(** [v[:n]], as the list of the items a loop over it visits: the
    elements of a list or tuple, the code points of a string. *)
Definition slice_val (v : pyval) (n : Z) : result (list pyval) :=
  match v with
  | VList l | VTuple l => Ok (slice_to l n)
  | VStr s => Ok (map VStr (slice_to (code_points s) n))
  | _ => Raise TypeError
  end.

(** A comprehension whose body can raise. *)
Fixpoint map_result {A B} (f : A -> result B) (l : list A) : result (list B) :=
  match l with
  | [] => Ok []
  | a :: l' =>
      rbind (f a) (fun b => rbind (map_result f l') (fun bs => Ok (b :: bs)))
  end.

(** [min(a, b)] on floats: the second argument wins only when it is
    strictly smaller. *)
Definition min_float (a b : float) : float :=
  if PrimFloat.ltb b a then b else a.

End Py.

(* ================================================================== *)
(** ** The external world: Redis, HTTP, the clock *)
(* ================================================================== *)

Module Sys.
Import Py.

(** One entry per call that leaves the process. *)
Inductive event : Type :=
| EvRedis (cmd key : string)
| EvHttp (url : string) (params : dict)
| EvSleep.

(** What [httpx.Client.get] can do: time out, fail otherwise, or answer
    with a status code and a body that [response.json()] decodes (or
    fails to decode). *)
Inductive http_reply : Type :=
| HttpTimeout
| HttpFailure
| HttpResponse (status : Z) (json : result pyval).

(** Configuration and oracles.  [redis_fault n] tells whether the
    Redis command sent as external call number [n] fails for a reason
    the model does not decide: the server is unreachable or times out,
    or it refuses the command, as it does a [SETEX] whose expiry is
    beyond what it can hold.  [http_get n] is the network's answer at
    that call.  The JSON codec, the formatting of floats and
    containers, the case mapping of text that is not ASCII
    ([unicode_lower], see [Py.lower_by]) and the clock readings are
    the Python runtime's and are taken as given. *)
Record env : Type := {
  cache_ttl : Z;
  hunter_api_key : option string;
  clearbit_api_key : option string;
  redis_fault : nat -> bool;
  http_get : nat -> string -> dict -> http_reply;
  json_dumps : pyval -> result string;
  json_loads : string -> result pyval;
  py_repr : pyval -> string;
  unicode_lower : string -> string;
  time_time : Z -> float;
  utcnow_iso : Z -> string
}.

(** [s.lower()]. *)
Definition lower (E : env) (s : string) : string :=
  lower_by (unicode_lower E) s.

(** The mutable part: the clock (in seconds), the Redis database (a
    text and its expiry time per key) and the log of external calls,
    oldest first. *)
Record world : Type := {
  now : Z;
  db : list (string * (string * Z));
  events : list event
}.

Definition M (A : Type) : Type := world -> result A * world.

Definition ret {A} (a : A) : M A := fun w => (Ok a, w).

Definition raise {A} (e : exn) : M A := fun w => (Raise e, w).

Definition bind {A B} (m : M A) (k : A -> M B) : M B :=
  fun w =>
    match m w with
    | (Ok a, w') => k a w'
    | (Raise e, w') => (Raise e, w')
    end.

(** [try: m  except Exception as e: h e]: the effects of [m] stay. *)
Definition try_except {A} (m : M A) (h : exn -> M A) : M A :=
  fun w =>
    match m w with
    | (Ok a, w') => (Ok a, w')
    | (Raise e, w') => h e w'
    end.

Definition lift {A} (r : result A) : M A := fun w => (r, w).

Definition log (ev : event) (w : world) : world :=
  {| now := now w; db := db w; events := events w ++ [ev] |}.

Definition set_db (d : list (string * (string * Z))) (w : world) : world :=
  {| now := now w; db := d; events := events w |}.

(** Time passing between two calls. *)
Definition elapse (d : Z) (w : world) : world :=
  {| now := now w + d; db := db w; events := events w |}.

(** [bool(s)] for an optional string such as an API key or an argument
    that defaults to [None]. *)
Definition str_truthy (s : option string) : bool :=
  match s with
  | Some s => negb (String.eqb s "")
  | None => false
  end.

Definition val_of_opt (s : option string) : pyval :=
  match s with
  | Some s => VStr s
  | None => VNone
  end.

(** *** The Redis client *)

Fixpoint db_find (d : list (string * (string * Z))) (k : string)
  : option (string * Z) :=
  match d with
  | [] => None
  | (k', e) :: d' => if String.eqb k k' then Some e else db_find d' k
  end.

Definition db_remove (d : list (string * (string * Z))) (k : string)
  : list (string * (string * Z)) :=
  filter (fun ke => negb (String.eqb k (fst ke))) d.

(** The text stored under [k], unless it has expired. *)
Definition live (w : world) (k : string) : option string :=
  match db_find (db w) k with
  | Some (txt, expiry) => if now w <? expiry then Some txt else None
  | None => None
  end.

(** How many of the one key are there: what [DEL] and [EXISTS] answer. *)
Definition count_live (w : world) (k : string) : Z :=
  match live w k with
  | Some _ => 1
  | None => 0
  end.

Section Redis.
Variable E : env.

(** Every command is logged, and fails when [redis_fault] says so. *)
Definition command {A} (cmd key : string) (act : world -> result A * world)
  : M A :=
  fun w =>
    let w1 := log (EvRedis cmd key) w in
    if redis_fault E (List.length (events w))
    then (Raise ConnectionError, w1)
    else act w1.

Definition redis_get (key : string) : M (option string) :=
  command "GET" key (fun w => (Ok (live w key), w)).

(** [SETEX] refuses an expiry that is not positive.  Where it refuses
    one for being too large is the server's affair, and is among the
    failures [redis_fault] stands for. *)
Definition redis_setex (key : string) (ttl : Z) (txt : string) : M unit :=
  command "SETEX" key (fun w =>
    if ttl <=? 0 then (Raise ResponseError, w)
    else (Ok tt, set_db ((key, (txt, now w + ttl)) :: db_remove (db w) key) w)).

Definition redis_delete (key : string) : M Z :=
  command "DEL" key (fun w =>
    (Ok (count_live w key), set_db (db_remove (db w) key) w)).

Definition redis_exists (key : string) : M Z :=
  command "EXISTS" key (fun w => (Ok (count_live w key), w)).

(** [httpx.Client.get(url, params=params)]. *)
Definition http_request (url : string) (params : dict) : M http_reply :=
  fun w =>
    (Ok (http_get E (List.length (events w)) url params),
     log (EvHttp url params) w).

End Redis.

(** [asyncio.sleep]. *)
Definition sleep : M unit := fun w => (Ok tt, log EvSleep w).

End Sys.

Declare Scope py_scope.
Delimit Scope py_scope with py.
Notation "x <- m ;; k" := (Sys.bind m (fun x => k))
  (at level 61, m at next level, right associativity) : py_scope.
Notation "m ;;; k" := (Sys.bind m (fun _ => k))
  (at level 61, right associativity) : py_scope.
Local Open Scope py_scope.

(* ================================================================== *)
(** ** cache_service.py *)
(* ================================================================== *)

Module CacheService.
Import Py Sys.

Section Cache.
Variable E : env.

(** [self.default_ttl = settings.cache_ttl]. *)
Definition default_ttl : Z := cache_ttl E.

(** The key of an entry: [f"cache:{namespace}:{identifier}"]. *)
Definition _generate_key (namespace identifier : string) : string :=
  "cache:" ++ namespace ++ ":" ++ identifier.

(** The stored text, decoded; [None] when there is none, when it is
    empty and on any failure. *)
Definition get (namespace identifier : string) : M pyval :=
  try_except
    (let key := _generate_key namespace identifier in
     data <- redis_get E key ;;
     match data with
     | Some txt =>
         if negb (String.eqb txt "") then lift (json_loads E txt) else ret VNone
     | None => ret VNone
     end)
    (fun _ => ret VNone).

(** [ttl or self.default_ttl]. *)
Definition ttl_or_default (ttl : option Z) : Z :=
  match ttl with
  | Some t => if t =? 0 then default_ttl else t
  | None => default_ttl
  end.

(** Encodes, then stores with the expiry; [False] on any failure. *)
Definition set (namespace identifier : string) (data : pyval)
  (ttl : option Z) : M bool :=
  try_except
    (let key := _generate_key namespace identifier in
     json_data <- lift (json_dumps E data) ;;
     let ttl_seconds := ttl_or_default ttl in
     redis_setex E key ttl_seconds json_data ;;;
     ret true)
    (fun _ => ret false).

(** [True] when the command went through, whether or not the key was
    there. *)
Definition delete (namespace identifier : string) : M bool :=
  try_except
    (let key := _generate_key namespace identifier in
     redis_delete E key ;;;
     ret true)
    (fun _ => ret false).

(** [exists] in the source. *)
Definition exists_ (namespace identifier : string) : M bool :=
  try_except
    (let key := _generate_key namespace identifier in
     n <- redis_exists E key ;;
     ret (negb (n =? 0)))
    (fun _ => ret false).

(** [v is None]. *)
Definition is_none (v : pyval) : bool :=
  match v with
  | VNone => true
  | _ => false
  end.

(** Get from the cache, or fetch and store. *)
Definition get_or_set (namespace identifier : string) (fetch_func : M pyval)
  (ttl : option Z) : M pyval :=
  cached <- get namespace identifier ;;
  if negb (is_none cached) then ret cached
  else
    try_except
      (data <- fetch_func ;;
       (if negb (is_none data)
        then set namespace identifier data ttl ;;; ret tt
        else ret tt) ;;;
       ret data)
      (fun _ => ret VNone).

End Cache.
End CacheService.

(* ================================================================== *)
(** ** enrichers/hunter_service.py *)
(* ================================================================== *)

Module HunterService.
Import Py Sys.

Section Hunter.
Variable E : env.

Definition api_key : option string := hunter_api_key E.

Definition base_url : string := "https://api.hunter.io/v2".

Definition is_available : bool := str_truthy api_key.

Definition _make_request (endpoint : string) (params : dict) : M pyval :=
  if negb (str_truthy api_key) then ret VNone
  else
    try_except
      (let url := base_url ++ "/" ++ endpoint in
       let params := setitem params "api_key" (val_of_opt api_key) in
       response <- http_request E url params ;;
       match response with
       | HttpResponse status json =>
           if status =? 200 then lift json else ret VNone
       | HttpTimeout => raise TimeoutException
       | HttpFailure => raise OtherError
       end)
      (fun _ => ret VNone).

(** The part of [domain_search] after the cache lookup. *)
Definition domain_search_fetch (domain cache_key : string) (use_cache : bool)
  : M pyval :=
  response <- _make_request "domain-search" [("domain", VStr domain)] ;;
  if truthy response then
    has_data <- lift (in_ "data" response) ;;
    if has_data : bool then
      data <- lift (getitem response "data") ;;
      (if use_cache
       then CacheService.set E "hunter" cache_key data (Some (cache_ttl E)) ;;;
            ret tt
       else ret tt) ;;;
      ret data
    else ret VNone
  else ret VNone.

Definition domain_search (domain : string) (use_cache : bool) : M pyval :=
  let cache_key := "hunter_domain:" ++ domain in
  if use_cache then
    cached <- CacheService.get E "hunter" cache_key ;;
    if truthy cached then ret cached
    else domain_search_fetch domain cache_key use_cache
  else domain_search_fetch domain cache_key use_cache.

Definition get_email_pattern (domain : string) : M pyval :=
  data <- domain_search domain true ;;
  if truthy data then lift (val_get data "pattern") else ret VNone.

(** One entry of the list [get_contacts] builds. *)
Definition contact_of_email (email : pyval) : result dict :=
  match email with
  | VDict e =>
      Ok [ ("email", get e "value");
           ("first_name", get e "first_name");
           ("last_name", get e "last_name");
           ("position", get e "position");
           ("department", get e "department");
           ("seniority", get e "seniority");
           ("confidence", get e "confidence");
           ("linkedin", get e "linkedin");
           ("twitter", get e "twitter");
           ("phone_number", get e "phone_number") ]
  | _ => Raise AttributeError
  end.

Definition get_contacts (domain : string) (limit : Z) : M (list dict) :=
  data <- domain_search domain true ;;
  if truthy data then
    has_emails <- lift (in_ "emails" data) ;;
    if has_emails : bool then
      all <- lift (getitem data "emails") ;;
      emails <- lift (slice_val all limit) ;;
      lift (map_result contact_of_email emails)
    else ret []
  else ret [].

(** The substitution [generate_email] applies to a pattern it found:
    four replacements, one after the other. *)
Definition fill_pattern (pattern first_name last_name : string) : string :=
  let email := lower E pattern in
  let email := replace "{first}" (lower E first_name) email in
  let email := replace "{last}" (lower E last_name) email in
  let email := replace "{f}" (lower E (first_char first_name)) email in
  let email := replace "{l}" (lower E (first_char last_name)) email in
  email.

Definition generate_email (first_name last_name domain : string) : M pyval :=
  pattern <- get_email_pattern domain ;;
  if negb (truthy pattern) then ret VNone
  else
    match pattern with
    | VStr p => ret (VStr (fill_pattern p first_name last_name))
    | _ => raise AttributeError
    end.

End Hunter.
End HunterService.

(* ================================================================== *)
(** ** enrichers/clearbit_service.py *)
(* ================================================================== *)

Module ClearbitService.
Import Py Sys.

Section Clearbit.
Variable E : env.

Definition api_key : option string := clearbit_api_key E.

Definition base_url : string := "https://company.clearbit.com/v2".

Definition is_available : bool := str_truthy api_key.

Definition _make_request (endpoint : string) (params : dict) : M pyval :=
  if negb (str_truthy api_key) then ret VNone
  else
    try_except
      (let url := base_url ++ "/" ++ endpoint in
       response <- http_request E url params ;;
       match response with
       | HttpResponse status json =>
           if status =? 200 then lift json else ret VNone
       | HttpTimeout => raise TimeoutException
       | HttpFailure => raise OtherError
       end)
      (fun _ => ret VNone).

(** The part of [enrich_company] after the cache lookup. *)
Definition enrich_company_fetch (domain : string) (use_cache : bool)
  : M pyval :=
  data <- _make_request "companies/find" [("domain", VStr domain)] ;;
  (if (truthy data && use_cache)%bool
   then CacheService.set E "clearbit" domain data (Some (cache_ttl E)) ;;;
        ret tt
   else ret tt) ;;;
  ret data.

Definition enrich_company (domain : string) (use_cache : bool) : M pyval :=
  if use_cache then
    cached <- CacheService.get E "clearbit" domain ;;
    if truthy cached then ret cached
    else enrich_company_fetch domain use_cache
  else enrich_company_fetch domain use_cache.

End Clearbit.

(** [clearbit_data.get(outer, {}).get(inner)]. *)
Definition nested (clearbit_data : pyval) (outer inner : string)
  : result pyval :=
  rbind (val_get_default clearbit_data outer (VDict []))
        (fun o => val_get o inner).

Definition extract_company_info (clearbit_data : pyval) : result dict :=
  if negb (truthy clearbit_data) then Ok []
  else
    rbind (val_get clearbit_data "name") (fun name =>
    rbind (val_get clearbit_data "domain") (fun domain =>
    rbind (val_get clearbit_data "description") (fun description =>
    rbind (nested clearbit_data "category" "industry") (fun industry =>
    rbind (nested clearbit_data "category" "sector") (fun sector =>
    rbind (nested clearbit_data "metrics" "employees") (fun employee_count =>
    rbind (nested clearbit_data "metrics" "employeesRange") (fun employee_range =>
    rbind (val_get clearbit_data "foundedYear") (fun founded_year =>
    rbind (val_get clearbit_data "location") (fun location =>
    rbind (nested clearbit_data "geo" "city") (fun city =>
    rbind (nested clearbit_data "geo" "state") (fun state =>
    rbind (nested clearbit_data "geo" "country") (fun country =>
    rbind (val_get clearbit_data "logo") (fun logo_url =>
    rbind (val_get clearbit_data "url") (fun website =>
    rbind (nested clearbit_data "linkedin" "handle") (fun linkedin_url =>
    rbind (nested clearbit_data "twitter" "handle") (fun twitter_handle =>
    rbind (nested clearbit_data "facebook" "handle") (fun facebook_handle =>
    rbind (val_get_default clearbit_data "tech" (VList [])) (fun tech_stack =>
    rbind (val_get_default clearbit_data "tags" (VList [])) (fun tags =>
    rbind (val_get clearbit_data "type") (fun type =>
    rbind (val_get clearbit_data "phone") (fun phone =>
    rbind (val_get clearbit_data "emailProvider") (fun email_provider =>
    rbind (nested clearbit_data "metrics" "raised") (fun total =>
    rbind (nested clearbit_data "metrics" "annualRevenue") (fun annual_revenue =>
    Ok [ ("name", name);
         ("domain", domain);
         ("description", description);
         ("industry", industry);
         ("sector", sector);
         ("employee_count", employee_count);
         ("employee_range", employee_range);
         ("founded_year", founded_year);
         ("location", location);
         ("city", city);
         ("state", state);
         ("country", country);
         ("logo_url", logo_url);
         ("website", website);
         ("linkedin_url", linkedin_url);
         ("twitter_handle", twitter_handle);
         ("facebook_handle", facebook_handle);
         ("tech_stack", tech_stack);
         ("tags", tags);
         ("type", type);
         ("phone", phone);
         ("email_provider", email_provider);
         ("funding", VDict [ ("total", total);
                             ("annual_revenue", annual_revenue) ])
       ])))))))))))))))))))))))).

End ClearbitService.

(* ================================================================== *)
(** ** scrapers/linkedin_scraper.py: the scraper interface and its mock *)
(* ================================================================== *)

Module LinkedIn.
Import Py Sys.

(** The two methods the collector calls on [self.linkedin]. *)
Record Scraper : Type := {
  search_company : string -> bool -> M pyval;
  scrape_company_employees : string -> Z -> bool -> M (list dict)
}.

Section Mock.
Variable E : env.

(** [time.time()]. *)
Definition time_now : M float := fun w => (Ok (time_time E (now w)), w).

Definition mock_search_company (company_name : string) (use_cache : bool)
  : M pyval :=
  sleep ;;;
  scraped_at <- time_now ;;
  ret (VDict
    [ ("name", VStr company_name);
      ("linkedin_url",
       VStr ("https://www.linkedin.com/company/"
             ++ replace " " "-" (lower E company_name) ++ "/"));
      ("description",
       VStr (company_name ++ " is a leading company in its industry."));
      ("industry", VStr "Technology");
      ("company_size", VStr "50-200 employees");
      ("headquarters", VStr "San Francisco, CA");
      ("founded", VStr "2020");
      ("website",
       VStr ("https://www." ++ replace " " "" (lower E company_name)
             ++ ".com"));
      ("employee_count", VInt 150);
      ("scraped_at", VFloat scraped_at) ]).

Definition titles : list string :=
  [ "Chief Executive Officer";
    "Chief Technology Officer";
    "VP of Engineering";
    "VP of Sales";
    "Head of Marketing";
    "Engineering Manager";
    "Senior Software Engineer";
    "Product Manager";
    "Sales Director";
    "Customer Success Manager" ].

(** The record appended for index [i]. *)
Definition mock_employee (company_name : string) (i : Z) : M dict :=
  scraped_at <- time_now ;;
  ret [ ("name", VStr ("Person " ++ str_of_Z (i + 1)));
        ("title", VStr (nth (Z.to_nat i) titles ""));
        ("location", VStr "San Francisco Bay Area");
        ("profile_url",
         VStr ("https://www.linkedin.com/in/person-" ++ str_of_Z (i + 1) ++ "/"));
        ("company", VStr company_name);
        ("is_decision_maker", VBool (i <? 5));
        ("seniority_level",
         VStr (if i <? 2 then "C-Level" else if i <? 5 then "VP" else "Manager"));
        ("scraped_at", VFloat scraped_at) ].

(** A [for] loop that appends one item per element. *)
Fixpoint for_each {A B} (f : A -> M B) (l : list A) : M (list B) :=
  match l with
  | [] => ret []
  | a :: l' => b <- f a ;; bs <- for_each f l' ;; ret (b :: bs)
  end.

Definition mock_scrape_company_employees (company_name : string) (limit : Z)
  (use_cache : bool) : M (list dict) :=
  sleep ;;;
  for_each (mock_employee company_name)
           (range (Z.min limit (Z.of_nat (List.length titles)))).

Definition mock_linkedin_scraper : Scraper :=
  {| search_company := mock_search_company;
     scrape_company_employees := mock_scrape_company_employees |}.

End Mock.
End LinkedIn.

(* ================================================================== *)
(** ** data_collector.py *)
(* ================================================================== *)

Module DataCollector.
Import Py Sys.

(** [f"{v}"]: the text an f-string puts in for a value.  Floats and
    containers are formatted by the runtime. *)
Definition format (E : env) (v : pyval) : string :=
  match v with
  | VNone => "None"
  | VBool true => "True"
  | VBool false => "False"
  | VInt n => str_of_Z n
  | VStr s => s
  | _ => py_repr E v
  end.

(** [v.lower()]: only a string has the method. *)
Definition val_lower (E : env) (v : pyval) : result string :=
  match v with
  | VStr s => Ok (lower E s)
  | _ => Raise AttributeError
  end.

(** A Python [set] of strings, as the list of its members. *)
Definition mem (s : string) (seen : list string) : bool :=
  existsb (String.eqb s) seen.

Section Dedup.
Variable E : env.

(** [contact.get("email", "").lower()]. *)
Definition email_key (contact : dict) : result string :=
  val_lower E (get_default contact "email" (VStr "")).

(** The f-string of first and last name, lower-cased and stripped. *)
Definition name_key (contact : dict) : string :=
  strip (lower E (format E (get_default contact "first_name" (VStr ""))
                ++ " "
                ++ format E (get_default contact "last_name" (VStr "")))).

(** The loop of [_deduplicate_contacts], with its three variables. *)
Fixpoint dedup_loop (contacts : list dict)
  (seen_emails seen_names : list string) (unique_contacts : list dict)
  : result (list dict) :=
  match contacts with
  | [] => Ok unique_contacts
  | contact :: rest =>
      rbind (email_key contact) (fun email =>
        let name := name_key contact in
        if (negb (String.eqb email "") && negb (mem email seen_emails))%bool
        then dedup_loop rest (email :: seen_emails) seen_names
                        (unique_contacts ++ [contact])%list
        else if (String.eqb email "" && negb (String.eqb name "")
                 && negb (mem name seen_names))%bool
        then dedup_loop rest seen_emails (name :: seen_names)
                        (unique_contacts ++ [contact])%list
        else dedup_loop rest seen_emails seen_names unique_contacts)
  end.

Definition _deduplicate_contacts (contacts : list dict) : result (list dict) :=
  dedup_loop contacts [] [] [].

End Dedup.

(** *** The lead score *)

Definition required_fields : list string :=
  ["name"; "domain"; "industry"; "employee_count"; "description"].

(** Data completeness: [(complete_fields / len(required_fields)) * 30]. *)
Definition add_completeness (company_data : dict) (score : float) : float :=
  let complete_fields :=
    List.length (filter (fun field => truthy (get company_data field))
                        required_fields) in
  (score
   + (float_of_Z (Z.of_nat complete_fields)
      / float_of_Z (Z.of_nat (List.length required_fields))) * 30)%float.

(** [lo <= v <= hi] with integer bounds, for a number. *)
Definition between (lo hi : Z) (v : pyval) : result bool :=
  match v with
  | VInt n => Ok ((lo <=? n) && (n <=? hi))%bool
  | VBool b => Ok ((lo <=? Z.b2z b) && (Z.b2z b <=? hi))%bool
  | VFloat x =>
      Ok (PrimFloat.leb (float_of_Z lo) x && PrimFloat.leb x (float_of_Z hi))%bool
  | _ => Raise TypeError
  end.

(** [v < bound] with an integer bound, for a number. *)
Definition less_than (bound : Z) (v : pyval) : result bool :=
  match v with
  | VInt n => Ok (n <? bound)
  | VBool b => Ok (Z.b2z b <? bound)
  | VFloat x => Ok (PrimFloat.ltb x (float_of_Z bound))
  | _ => Raise TypeError
  end.

(** Company size. *)
Definition add_size (company_data : dict) (score : float) : result float :=
  let employee_count := get company_data "employee_count" in
  if truthy employee_count then
    rbind (between 50 500 employee_count) (fun sweet =>
      if sweet : bool then Ok (score + 20)%float
      else
        rbind (between 500 1000 employee_count) (fun large =>
          if large : bool then Ok (score + 15)%float
          else
            rbind (less_than 50 employee_count) (fun small =>
              if small : bool then Ok (score + 10)%float
              else Ok (score + 5)%float)))
  else Ok score.

(** Funding and revenue. *)
Definition add_funding (company_data : dict) (score : float) : result float :=
  let funding := get_default company_data "funding" (VDict []) in
  rbind (val_get funding "total") (fun total =>
    if truthy total then Ok (score + 20)%float
    else
      rbind (val_get funding "annual_revenue") (fun annual_revenue =>
        if truthy annual_revenue then Ok (score + 15)%float else Ok score)).

(** Technology stack. *)
Definition add_tech (company_data : dict) (score : float) : result float :=
  let tech_stack := get_default company_data "tech_stack" (VList []) in
  rbind (len tech_stack) (fun n =>
    if 0 <? n then Ok (score + float_of_Z (Z.min (n * 3) 15))%float
    else Ok score).

(** Contact availability. *)
Definition add_contacts (company_data : dict) (score : float) : result float :=
  let score :=
    if truthy (get company_data "email_pattern") then (score + 10)%float
    else score in
  rbind (gt_zero (get_default company_data "total_emails_found" (VInt 0)))
        (fun found => if found : bool then Ok (score + 5)%float else Ok score).

Definition calculate_lead_score (company_data : dict) : result float :=
  let score := 0%float in
  let score := add_completeness company_data score in
  rbind (add_size company_data score) (fun score =>
  rbind (add_funding company_data score) (fun score =>
  rbind (add_tech company_data score) (fun score =>
  rbind (add_contacts company_data score) (fun score =>
  Ok (min_float score 100%float))))).

(** *** The collector *)

(** [merged.get(k) or linkedin.get(k)]: the right operand is evaluated
    only when the left one is falsy. *)
Definition or_get (merged : dict) (linkedin : pyval) (k : string)
  : result pyval :=
  if truthy (get merged k) then Ok (get merged k) else val_get linkedin k.

(** The list [sources_used] ends up with. *)
Definition sources_used (result : dict) : list pyval :=
  let sources : list pyval := [] in
  let sources :=
    if truthy (get result "linkedin_data")
    then (sources ++ [VStr "linkedin"])%list else sources in
  let sources :=
    if truthy (get result "clearbit_data")
    then (sources ++ [VStr "clearbit"])%list else sources in
  let sources :=
    if truthy (get result "hunter_data")
    then (sources ++ [VStr "hunter"])%list else sources in
  sources.

Definition _merge_company_data (result : dict) : Py.result dict :=
  match get_default result "aggregated_data" (VDict []) with
  | VDict merged =>
      rbind
        (if truthy (get result "linkedin_data") then
           let linkedin := get result "linkedin_data" in
           rbind (or_get merged linkedin "name") (fun name =>
           rbind (or_get merged linkedin "description") (fun description =>
           rbind (or_get merged linkedin "industry") (fun industry =>
           rbind (or_get merged linkedin "employee_count") (fun employee_count =>
           rbind (or_get merged linkedin "website") (fun website =>
           rbind (val_get linkedin "linkedin_url") (fun linkedin_url =>
           Ok (update merged
                 [ ("name", name);
                   ("description", description);
                   ("industry", industry);
                   ("employee_count", employee_count);
                   ("website", website);
                   ("linkedin_url", linkedin_url) ])))))))
         else Ok merged)
        (fun merged =>
           Ok (setitem merged "sources_used" (VList (sources_used result))))
  | _ =>
      (* a value with no [get] and no item assignment *)
      Raise (if truthy (get result "linkedin_data")
             then AttributeError else TypeError)
  end.

(** The dictionary under [aggregated_data]. *)
Definition aggregated (result : dict) : dict :=
  match get result "aggregated_data" with
  | VDict d => d
  | _ => []
  end.

Definition set_aggregated (result : dict) (d : dict) : dict :=
  setitem result "aggregated_data" (VDict d).

Section Collector.
Variable E : env.
Variable linkedin : LinkedIn.Scraper.

(** [datetime.utcnow().isoformat()]. *)
Definition utcnow_isoformat : M string :=
  fun w => (Ok (utcnow_iso E (now w)), w).

(** Collect from LinkedIn (if company name provided).  What the [try]
    block had assigned before an exception stays assigned. *)
Definition collect_linkedin (company_name : option string) (use_cache : bool)
  (result : dict) : M dict :=
  match company_name with
  | Some name =>
      if str_truthy company_name then
        try_except
          (linkedin_data <- LinkedIn.search_company linkedin name use_cache ;;
           ret (setitem result "linkedin_data" linkedin_data))
          (fun _ => ret result)
      else ret result
  | None => ret result
  end.

(** Collect from Clearbit (if domain provided). *)
Definition collect_clearbit (domain : option string) (use_cache : bool)
  (result : dict) : M dict :=
  match domain with
  | Some d =>
      if (str_truthy domain && ClearbitService.is_available E)%bool then
        try_except
          (clearbit_data <- ClearbitService.enrich_company E d use_cache ;;
           let result := setitem result "clearbit_data" clearbit_data in
           if truthy clearbit_data then
             try_except
               (info <- lift (ClearbitService.extract_company_info
                                clearbit_data) ;;
                ret (set_aggregated result (update (aggregated result) info)))
               (fun _ => ret result)
           else ret result)
          (fun _ => ret result)
      else ret result
  | None => ret result
  end.

(** Collect from Hunter.io (if domain provided). *)
Definition collect_hunter (domain : option string) (use_cache : bool)
  (result : dict) : M dict :=
  match domain with
  | Some d =>
      if (str_truthy domain && HunterService.is_available E)%bool then
        try_except
          (hunter_data <- HunterService.domain_search E d use_cache ;;
           let result := setitem result "hunter_data" hunter_data in
           if truthy hunter_data then
             try_except
               (pattern <- lift (val_get hunter_data "pattern") ;;
                let result :=
                  set_aggregated result
                    (setitem (aggregated result) "email_pattern" pattern) in
                try_except
                  (total <- lift (val_get_default hunter_data "total"
                                                  (VInt 0)) ;;
                   ret (set_aggregated result
                          (setitem (aggregated result)
                                   "total_emails_found" total)))
                  (fun _ => ret result))
               (fun _ => ret result)
           else ret result)
          (fun _ => ret result)
      else ret result
  | None => ret result
  end.

Definition collect_company_data (company_name domain : option string)
  (use_cache : bool) : M dict :=
  if (negb (str_truthy company_name) && negb (str_truthy domain))%bool
  then raise (ValueError "Either company_name or domain must be provided")
  else
    collected_at <- utcnow_isoformat ;;
    let result :=
      [ ("collected_at", VStr collected_at);
        ("company_name", val_of_opt company_name);
        ("domain", val_of_opt domain);
        ("linkedin_data", VNone);
        ("clearbit_data", VNone);
        ("hunter_data", VNone);
        ("aggregated_data", VDict []) ] in
    result <- collect_linkedin company_name use_cache result ;;
    result <- collect_clearbit domain use_cache result ;;
    result <- collect_hunter domain use_cache result ;;
    merged <- lift (_merge_company_data result) ;;
    ret (set_aggregated result merged).

Definition collect_contacts (company_name domain : string) (limit : Z)
  (use_cache : bool) : M (list dict) :=
  let contacts : list dict := [] in
  contacts <-
    try_except
      (linkedin_contacts <-
         LinkedIn.scrape_company_employees linkedin company_name limit
                                           use_cache ;;
       ret (contacts ++ linkedin_contacts)%list)
      (fun _ => ret contacts) ;;
  contacts <-
    (if HunterService.is_available E then
       try_except
         (hunter_contacts <- HunterService.get_contacts E domain limit ;;
          ret (contacts ++ hunter_contacts)%list)
         (fun _ => ret contacts)
     else ret contacts) ;;
  contacts <- lift (_deduplicate_contacts E contacts) ;;
  ret (slice_to contacts limit).

End Collector.

(** The collector as the module builds it: [self.linkedin] is the mock
    scraper. *)
Definition data_collector_contacts (E : env) :=
  collect_contacts E (LinkedIn.mock_linkedin_scraper E).

Definition data_collector_company_data (E : env) :=
  collect_company_data E (LinkedIn.mock_linkedin_scraper E).

End DataCollector.

(* ================================================================== *)
(** ** The deduplication rule, in the specification's words *)
(* ================================================================== *)

Module DedupSpec.
Import Py Sys.

(** The contact's [email] is absent or a string: the shape under which
    [lower()] is defined. *)
Definition email_is_str (contact : dict) : bool :=
  match lookup contact "email" with
  | None => true
  | Some (VStr _) => true
  | Some _ => false
  end.

Section Rule.
Variable E : env.

(** The case-folded email of a contact: the text of its [email] in
    lower case, empty when the contact has none. *)
Definition folded_email (contact : dict) : string :=
  match lookup contact "email" with
  | Some (VStr s) => lower E s
  | _ => ""
  end.

(** The text of a name: a string as it stands and, for a value of
    another kind, the text Python shows for it. *)
Definition shown (v : pyval) : string :=
  match v with
  | VStr s => s
  | VNone => "None"
  | VBool b => if b then "True" else "False"
  | VInt n => str_of_Z n
  | VFloat _ | VList _ | VDict _ | VTuple _ => py_repr E v
  end.

(** The first or the last name of a contact, empty when it has none. *)
Definition name_part (contact : dict) (field : string) : string :=
  match lookup contact field with
  | Some v => shown v
  | None => ""
  end.

(** The case-folded, trimmed name: first name, a space, last name. *)
Definition folded_name (contact : dict) : string :=
  strip (lower E (name_part contact "first_name" ++ " "
                  ++ name_part contact "last_name")).

(** An earlier contact carried this email. *)
Definition email_seen (before : list dict) (e : string) : bool :=
  existsb (fun b => String.eqb (folded_email b) e) before.

(** An earlier contact with no email carried this name. *)
Definition name_seen (before : list dict) (n : string) : bool :=
  existsb (fun b => (String.eqb (folded_email b) ""
                     && String.eqb (folded_name b) n)%bool)
          before.

(** A contact with an email is kept when the email was not seen before;
    a contact with no email is kept when it has a name and the name was
    not seen before. *)
Definition kept (before : list dict) (contact : dict) : bool :=
  if negb (String.eqb (folded_email contact) "")
  then negb (email_seen before (folded_email contact))
  else (negb (String.eqb (folded_name contact) "")
        && negb (name_seen before (folded_name contact)))%bool.

(** First seen wins: the kept contacts, in input order and as they
    came. *)
Fixpoint first_seen (before contacts : list dict) : list dict :=
  match contacts with
  | [] => []
  | c :: rest =>
      ((if kept before c then [c] else []) ++ first_seen (before ++ [c]) rest)%list
  end.

Definition dedup_spec (contacts : list dict) : list dict :=
  first_seen [] contacts.

(** The keys of a result: the emails that are not empty, and the names
    of the contacts that have no email. *)
Definition emails_of (out : list dict) : list string :=
  filter (fun e => negb (String.eqb e "")) (map folded_email out).

Definition names_of (out : list dict) : list string :=
  map folded_name (filter (fun c => String.eqb (folded_email c) "") out).

(** A contact the loop can only pass over: no email and no name. *)
Definition blank (contact : dict) : bool :=
  (match lookup contact "email" with
   | None => true
   | Some (VStr s) => String.eqb s ""
   | Some _ => false
   end
   && match lookup contact "first_name" with
      | None => true
      | Some (VStr s) => String.eqb s ""
      | Some _ => false
      end
   && match lookup contact "last_name" with
      | None => true
      | Some (VStr s) => String.eqb s ""
      | Some _ => false
      end)%bool.

End Rule.

(** What [collect_contacts] makes of the email-discovery contacts
    alone. *)
Definition email_discovery_contacts (E : env) (domain : string) (limit : Z)
  : M (list dict) :=
  contacts <-
    (if HunterService.is_available E then
       try_except (HunterService.get_contacts E domain limit)
                  (fun _ => ret [])
     else ret []) ;;
  contacts <- lift (DataCollector._deduplicate_contacts E contacts) ;;
  ret (slice_to contacts limit).

End DedupSpec.

(* ================================================================== *)
(** ** The substitution of the email generator, in the words of its
       description *)
(* ================================================================== *)

Module GeneratorSpec.
Import Py Sys.

Section Substitution.
Variable E : env.

(** The first letter of a name: its first code point, nothing for an
    empty name. *)
Definition initial (name : string) : string := hd "" (code_points name).

(** The placeholders of a pattern with the name fragment each stands
    for, in the order in which they are replaced. *)
Definition fragments (first_name last_name : string)
  : list (string * string) :=
  [ ("{first}", lower E first_name);
    ("{last}", lower E last_name);
    ("{f}", lower E (initial first_name));
    ("{l}", lower E (initial last_name)) ].

(** The pattern in lower case with every placeholder replaced by its
    fragment, one placeholder after the other. *)
Definition substituted (pattern first_name last_name : string) : string :=
  fold_left (fun text fragment => replace (fst fragment) (snd fragment) text)
            (fragments first_name last_name) (lower E pattern).

End Substitution.
End GeneratorSpec.

(* ================================================================== *)
(** ** The fields the properties speak of *)
(* ================================================================== *)

Module Fields.
Import Py Sys DataCollector.

(** The fields [_merge_company_data] fills with [or]. *)
Definition or_merged_fields : list string :=
  ["name"; "description"; "industry"; "employee_count"; "website"].

(** The keys of the record [extract_company_info] builds. *)
Definition clearbit_fields : list string :=
  [ "name"; "domain"; "description"; "industry"; "sector"; "employee_count";
    "employee_range"; "founded_year"; "location"; "city"; "state"; "country";
    "logo_url"; "website"; "linkedin_url"; "twitter_handle";
    "facebook_handle"; "tech_stack"; "tags"; "type"; "phone";
    "email_provider"; "funding" ].

(** The fields the score reads besides [employee_count]. *)
Definition other_scored_fields : list string :=
  [ "name"; "domain"; "industry"; "description"; "funding"; "tech_stack";
    "email_pattern"; "total_emails_found" ].

(** What the email-discovery step leaves alone: the two other raw
    payloads, and every merged field but its own two. *)
Definition frame (r r' : dict) : Prop :=
  get r' "linkedin_data" = get r "linkedin_data"
  /\ get r' "clearbit_data" = get r "clearbit_data"
  /\ (get r "aggregated_data" = VDict (aggregated r) ->
      get r' "aggregated_data" = VDict (aggregated r'))
  /\ forall k, k <> "email_pattern" -> k <> "total_emails_found" ->
               get (aggregated r') k = get (aggregated r) k.

End Fields.

(* ================================================================== *)
(** ** Sample environments and inputs *)
(* ================================================================== *)

Module Samples.
Import Py Sys.

(** The double quote, which a JSON text needs. *)
Definition dq : string := String (ascii_of_nat 34) EmptyString.

(** The JSON text of the dictionary with [a] bound to 1. *)
Definition a1_text : string := "{" ++ dq ++ "a" ++ dq ++ ": 1}".

Definition a1 : pyval := VDict [("a", VInt 1)].

(** The characters a JSON string holds as they are. *)
Definition plain_char (c : ascii) : bool :=
  let n := nat_of_ascii c in
  (Nat.leb 32 n && Nat.ltb n 127 && negb (Nat.eqb n 34)
   && negb (Nat.eqb n 92))%bool.

Fixpoint plain (s : string) : bool :=
  match s with
  | EmptyString => true
  | String c s' => (plain_char c && plain s')%bool
  end.

(** The JSON text of a value, as [json.dumps] writes it, for the values
    the samples use: no floats, and strings that need no escape.  A
    tuple is written as an array. *)
Fixpoint sample_dumps (v : pyval) : result string :=
  match v with
  | VNone => Ok "null"
  | VBool b => Ok (if b then "true" else "false")
  | VInt n => Ok (str_of_Z n)
  | VFloat _ => Raise TypeError
  | VStr s => if plain s then Ok (dq ++ s ++ dq) else Raise TypeError
  | VList l | VTuple l =>
      rbind
        ((fix items (l : list pyval) : result (list string) :=
            match l with
            | [] => Ok []
            | x :: l' =>
                rbind (sample_dumps x) (fun t =>
                rbind (items l') (fun ts => Ok (t :: ts)))
            end) l)
        (fun ts => Ok ("[" ++ String.concat ", " ts ++ "]"))
  | VDict d =>
      rbind
        ((fix items (d : list (string * pyval)) : result (list string) :=
            match d with
            | [] => Ok []
            | (k, x) :: d' =>
                if plain k then
                  rbind (sample_dumps x) (fun t =>
                  rbind (items d') (fun ts =>
                  Ok ((dq ++ k ++ dq ++ ": " ++ t) :: ts)))
                else Raise TypeError
            end) d)
        (fun ts => Ok ("{" ++ String.concat ", " ts ++ "}"))
  end.

(** A decoder for the three texts the samples read back: [null], the
    dictionary above, and the array of 3 and 4, which [json.loads]
    makes a list. *)
Definition sample_loads (s : string) : result pyval :=
  if String.eqb s "null" then Ok VNone
  else if String.eqb s a1_text then Ok a1
  else if String.eqb s "[3, 4]" then Ok (VList [VInt 3; VInt 4])
  else Raise JSONError.

(** No credentials, Redis always reachable, no network.  The texts of
    the samples are ASCII, so the case mapping of other text is never
    asked for; it is given as leaving a text as it is. *)
Definition offline : env :=
  {| cache_ttl := 604800;
     hunter_api_key := None;
     clearbit_api_key := None;
     redis_fault := fun _ => false;
     http_get := fun _ _ _ => HttpFailure;
     json_dumps := sample_dumps;
     json_loads := sample_loads;
     py_repr := fun _ => "<object>";
     unicode_lower := fun s => s;
     time_time := fun t => float_of_Z t;
     utcnow_iso := fun _ => "2024-01-01T00:00:00" |}.

Definition empty_world : world := {| now := 0; db := []; events := [] |}.

(** What the firmographic provider answers for the sample company. *)
Definition acme_clearbit : pyval :=
  VDict [ ("name", VStr "Acme Corp");
          ("domain", VStr "acme.com");
          ("category", VDict [("industry", VStr "Fintech")]);
          ("metrics", VDict [("employees", VInt 0)]);
          ("linkedin", VDict [("handle", VStr "company/acme")]) ].

(** What the email-discovery provider answers for it. *)
Definition acme_hunter : pyval :=
  VDict [ ("data",
           VDict [ ("pattern", VStr "{first}.{last}@acme.com");
                   ("total", VInt 2);
                   ("emails",
                    VList [ VDict [ ("value", VStr "ann@acme.com");
                                    ("first_name", VStr "Ann");
                                    ("last_name", VStr "Lee") ];
                            VDict [ ("first_name", VStr "Bob") ] ]) ]) ].

(** Both credentials configured, Redis reachable, and a network that
    answers by endpoint. *)
Definition online : env :=
  {| cache_ttl := 604800;
     hunter_api_key := Some "hunter-key";
     clearbit_api_key := Some "clearbit-key";
     redis_fault := fun _ => false;
     http_get := fun _ url _ =>
       if String.eqb url "https://company.clearbit.com/v2/companies/find"
       then HttpResponse 200 (Ok acme_clearbit)
       else if String.eqb url "https://api.hunter.io/v2/domain-search"
       then HttpResponse 200 (Ok acme_hunter)
       else HttpResponse 404 (Raise JSONError);
     json_dumps := sample_dumps;
     json_loads := sample_loads;
     py_repr := fun _ => "<object>";
     unicode_lower := fun s => s;
     time_time := fun t => float_of_Z t;
     utcnow_iso := fun _ => "2024-01-01T00:00:00" |}.

(** A scraper whose profile of the company says it is a bank. *)
Definition banking_profile : dict :=
  [ ("name", VStr "ACME");
    ("industry", VStr "Banking");
    ("employee_count", VInt 150);
    ("website", VStr "example.com");
    ("linkedin_url", VStr "https://www.linkedin.com/company/acme/") ].

Definition banking_scraper : LinkedIn.Scraper :=
  {| LinkedIn.search_company := fun _ _ => ret (VDict banking_profile);
     LinkedIn.scrape_company_employees := fun _ _ _ => ret [] |}.

(** The three contacts of the specification's example. *)
Definition contact_a : dict := [("email", VStr "a@x.com"); ("name", VStr "A")].
Definition contact_b : dict := [("email", VStr "b@x.com"); ("name", VStr "B")].

(** The first employee record of the mock scraper. *)
Definition person_1 : dict :=
  [ ("name", VStr "Person 1");
    ("title", VStr "Chief Executive Officer");
    ("location", VStr "San Francisco Bay Area");
    ("profile_url", VStr "https://www.linkedin.com/in/person-1/");
    ("company", VStr "Acme");
    ("is_decision_maker", VBool true);
    ("seniority_level", VStr "C-Level");
    ("scraped_at", VFloat 0%float) ].

(** The contact the email-discovery adapter builds from an entry that
    has a first name and no address. *)
Definition bob : dict :=
  [ ("email", VNone);
    ("first_name", VStr "Bob");
    ("last_name", VNone);
    ("position", VNone);
    ("department", VNone);
    ("seniority", VNone);
    ("confidence", VNone);
    ("linkedin", VNone);
    ("twitter", VNone);
    ("phone_number", VNone) ].

(** The normalized firmographic record of the sample company. *)
Definition acme_info : dict :=
  match ClearbitService.extract_company_info acme_clearbit with
  | Ok info => info
  | Raise _ => []
  end.

(** Whether the log holds a network request. *)
Definition is_http (ev : event) : bool :=
  match ev with
  | EvHttp _ _ => true
  | _ => false
  end.

(** A field of the merged record a collection produced. *)
Definition merged_field (r : result dict * world) (k : string) : pyval :=
  match fst r with
  | Ok res => get (DataCollector.aggregated res) k
  | Raise _ => VNone
  end.

End Samples.

(* ================================================================== *)
(** ** cache_service.py, continued *)
(* ================================================================== *)

Module CacheMore.
Import Py Sys CacheService.

Section Cache.
Variable E : env.

(** [TTL]: the seconds a key has left, and -2 for a key that is not
    there.  Every key of this store has an expiry. *)
Definition redis_ttl (key : string) : M Z :=
  command E "TTL" key (fun w =>
    (Ok (match db_find (db w) key with
         | Some (_, expiry) => if now w <? expiry then expiry - now w else -2
         | None => -2
         end), w)).

(** The remaining seconds, or [None]. *)
Definition get_ttl (namespace identifier : string) : M (option Z) :=
  try_except
    (let key := _generate_key namespace identifier in
     ttl <- redis_ttl key ;;
     ret (if 0 <? ttl then Some ttl else None))
    (fun _ => ret None).

(** [PING]. *)
Definition redis_ping : M bool :=
  command E "PING" "" (fun w => (Ok true, w)).

Definition health_check : M bool :=
  try_except redis_ping (fun _ => ret false).

End Cache.
End CacheMore.

(* ================================================================== *)
(** ** enrichers/hunter_service.py and clearbit_service.py, continued *)
(* ================================================================== *)

Module HunterMore.
Import Py Sys HunterService.

Section Hunter.
Variable E : env.

(** The request and the write-back the three lookups of the service
    share, word for word, after their cache lookup. *)
Definition lookup_fetch (endpoint : string) (params : dict)
  (cache_key : string) (use_cache : bool) : M pyval :=
  response <- _make_request E endpoint params ;;
  if truthy response then
    has_data <- lift (in_ "data" response) ;;
    if has_data : bool then
      data <- lift (getitem response "data") ;;
      (if use_cache
       then CacheService.set E "hunter" cache_key data (Some (cache_ttl E)) ;;;
            ret tt
       else ret tt) ;;;
      ret data
    else ret VNone
  else ret VNone.

(** The three lookups: the cache first, then the request. *)
Definition cached_lookup (endpoint : string) (params : dict)
  (cache_key : string) (use_cache : bool) : M pyval :=
  if use_cache then
    cached <- CacheService.get E "hunter" cache_key ;;
    if truthy cached then ret cached
    else lookup_fetch endpoint params cache_key use_cache
  else lookup_fetch endpoint params cache_key use_cache.

Definition email_finder (domain first_name last_name : string)
  (use_cache : bool) : M pyval :=
  let cache_key :=
    "hunter_email:" ++ domain ++ ":" ++ first_name ++ ":" ++ last_name in
  cached_lookup "email-finder"
                [ ("domain", VStr domain);
                  ("first_name", VStr first_name);
                  ("last_name", VStr last_name) ]
                cache_key use_cache.

Definition email_verifier (email : string) (use_cache : bool) : M pyval :=
  let cache_key := "hunter_verify:" ++ email in
  cached_lookup "email-verifier" [("email", VStr email)] cache_key use_cache.

End Hunter.
End HunterMore.

Module ClearbitMore.
Import Py Sys ClearbitService.

Definition get_tech_stack (E : env) (domain : string) : M pyval :=
  data <- enrich_company E domain true ;;
  if truthy data then lift (val_get_default data "tech" (VList []))
  else ret (VList []).

End ClearbitMore.

(* ================================================================== *)
(** ** data_collector.py, continued: the full profile *)
(* ================================================================== *)

Module Profile.
Import Py Sys DataCollector.

Section Collector.
Variable E : env.
Variable linkedin : LinkedIn.Scraper.

Definition collect_full_profile (company_name domain : string)
  (include_contacts use_cache : bool) : M dict :=
  company_data <-
    collect_company_data E linkedin (Some company_name) (Some domain)
                         use_cache ;;
  contacts <-
    (if include_contacts
     then collect_contacts E linkedin company_name domain 20 use_cache
     else ret []) ;;
  let data := get_default company_data "aggregated_data" (VDict []) in
  lead_score <-
    match data with
    | VDict d => lift (calculate_lead_score d)
    | _ => raise AttributeError
    end ;;
  ret [ ("company_name", VStr company_name);
        ("domain", VStr domain);
        ("lead_score", VFloat lead_score);
        ("data", data);
        ("contacts", VList (map VDict contacts));
        ("raw_data",
         VDict [ ("linkedin", get company_data "linkedin_data");
                 ("clearbit", get company_data "clearbit_data");
                 ("hunter", get company_data "hunter_data") ]);
        ("collected_at", get company_data "collected_at");
        ("sources_available",
         VDict [ ("linkedin", VBool true);
                 ("clearbit", VBool (ClearbitService.is_available E));
                 ("hunter", VBool (HunterService.is_available E)) ]) ].

End Collector.

(** The collector as the module builds it. *)
Definition data_collector_full_profile (E : env) :=
  collect_full_profile E (LinkedIn.mock_linkedin_scraper E).

End Profile.

(* ================================================================== *)
(** ** agents/discovery.py and agents/profiler.py: what they compute
       from the collector's output *)
(* ================================================================== *)

Module Agents.
Import Py Sys DataCollector.

(** [score >= bound] on floats. *)
Definition at_least (bound score : float) : bool := PrimFloat.leb bound score.

(** [DiscoveryAgent._get_score_rating]. *)
Definition _get_score_rating (score : float) : string :=
  if at_least 80 score then "Excellent"
  else if at_least 60 score then "Good"
  else if at_least 40 score then "Fair"
  else "Poor".

(** The titles [find_decision_makers] looks for. *)
Definition senior_titles : list string :=
  ["ceo"; "cto"; "cfo"; "vp"; "vice president"; "director"; "head"].

(** The filter of [find_decision_makers]: the flag, or a senior title
    inside the lower-cased [str] of the title. *)
Definition is_decision_maker (E : env) (c : dict) : bool :=
  (truthy (get c "is_decision_maker")
   || existsb (fun title =>
                 contains title
                          (lower E
                             (format E (get_default c "title" (VStr "")))))
              senior_titles)%bool.

Definition decision_makers (E : env) (contacts : list dict) : list dict :=
  filter (is_decision_maker E) contacts.

End Agents.

(* ================================================================== *)
(** ** Notions the further properties speak of *)
(* ================================================================== *)

Module Notions.
Import Py Sys.

(** The kinds of value the score's comparisons, [len] and [get]
    accept. *)
Definition numeric (v : pyval) : bool :=
  match v with
  | VInt _ | VBool _ | VFloat _ => true
  | _ => false
  end.

Definition sized (v : pyval) : bool :=
  match v with
  | VStr _ | VList _ | VDict _ | VTuple _ => true
  | _ => false
  end.

Definition is_dict (v : pyval) : bool :=
  match v with
  | VDict _ => true
  | _ => false
  end.

Definition is_redis (ev : event) : bool :=
  match ev with
  | EvRedis _ _ => true
  | _ => false
  end.

Definition is_request (ev : event) : bool :=
  match ev with
  | EvHttp _ _ => true
  | _ => false
  end.

(** The calls an action adds to the log. *)
Definition added {A} (m : M A) (w : world) : list event :=
  skipn (List.length (events w)) (events (snd (m w))).

(** Every call [m] adds to the log is of the kind [P]: the log is
    only extended, and by such calls. *)
Definition adds {A} (P : event -> bool) (m : M A) : Prop :=
  forall w, exists evs,
    events (snd (m w)) = (events w ++ evs)%list /\ forallb P evs = true.

Definition no_request (ev : event) : bool := negb (is_request ev).

Definition no_redis (ev : event) : bool := negb (is_redis ev).

Definition any_call (ev : event) : bool := true.

(** [m] returns in every world: no exception leaves it. *)
Definition never_raises {A} (m : M A) : Prop :=
  forall w, exists a w', m w = (Ok a, w').

(** The character [c] occurs in [s]. *)
Fixpoint has_char (c : ascii) (s : string) : bool :=
  match s with
  | EmptyString => false
  | String a s' => (Ascii.eqb a c || has_char c s')%bool
  end.

(** No upper-case ASCII letter in [s]. *)
Fixpoint no_upper (s : string) : bool :=
  match s with
  | EmptyString => true
  | String c s' =>
      (negb (Nat.leb 65 (nat_of_ascii c) && Nat.leb (nat_of_ascii c) 90)
       && no_upper s')%bool
  end.

(** [x] is one of the whole numbers 0, ..., [bound], as [==] compares
    floats. *)
Definition whole_upto (bound : Z) (x : float) : bool :=
  existsb (fun n => PrimFloat.eqb x (float_of_Z n)) (range (bound + 1)).

(** The records the score has the operations for: an [employee_count]
    that is falsy or a number, a [funding] with a [get], a [tech_stack]
    with a length and a [total_emails_found] that compares with 0. *)
Definition scorable (d : dict) : bool :=
  ((negb (truthy (get d "employee_count"))
    || numeric (get d "employee_count"))
   && is_dict (get_default d "funding" (VDict []))
   && sized (get_default d "tech_stack" (VList []))
   && numeric (get_default d "total_emails_found" (VInt 0)))%bool.

(** The members of a firmographic answer [extract_company_info] reads
    a second level of. *)
Definition nested_objects : list string :=
  ["category"; "metrics"; "geo"; "linkedin"; "twitter"; "facebook"].

(** Each of them is absent or a dictionary. *)
Definition nested_are_dicts (d : dict) : bool :=
  forallb (fun k => is_dict (get_default d k (VDict []))) nested_objects.

(** A scraper that answers a search with a dictionary or nothing, as
    both scrapers of the repository do. *)
Definition answers_with_dicts (scraper : LinkedIn.Scraper) : Prop :=
  forall name use_cache w v w',
    LinkedIn.search_company scraper name use_cache w = (Ok v, w') ->
    truthy v = true -> is_dict v = true.

(** The record keeps a dictionary under [aggregated_data]. *)
Definition has_aggregate (r : dict) : Prop :=
  get r "aggregated_data" = VDict (DataCollector.aggregated r).

(** The three sources by name, in the order the merged record lists
    them, each with the key of its raw payload in the record. *)
Definition source_payloads : list (string * string) :=
  [ ("linkedin", "linkedin_data");
    ("clearbit", "clearbit_data");
    ("hunter", "hunter_data") ].

(** The names of the sources whose raw payload in the record [r] is
    truthy. *)
Definition contributing (r : dict) : list string :=
  map fst (filter (fun source => truthy (get r (snd source))) source_payloads).

(** The scraped profile in the record is a dictionary or falsy. *)
Definition profile_is_dict (r : dict) : Prop :=
  truthy (get r "linkedin_data") = true ->
  is_dict (get r "linkedin_data") = true.

(** The first call [m] adds to the log is [ev]. *)
Definition sends_first {A} (ev : event) (m : M A) : Prop :=
  forall w, exists rest,
    events (snd (m w)) = (events w ++ ev :: rest)%list.

(** The ten fields of a contact the email-discovery adapter builds. *)
Definition hunter_contact_fields : list string :=
  [ "email"; "first_name"; "last_name"; "position"; "department";
    "seniority"; "confidence"; "linkedin"; "twitter"; "phone_number" ].

End Notions.

(* ================================================================== *)
(** ** Further sample environments and inputs *)
(* ================================================================== *)

Module MoreSamples.
Import Py Sys Samples.

(** An email-discovery key, Redis reachable, and a provider whose
    answer holds the sample dictionary as its data. *)
Definition caching : env :=
  {| cache_ttl := 604800;
     hunter_api_key := Some "hunter-key";
     clearbit_api_key := None;
     redis_fault := fun _ => false;
     http_get := fun _ _ _ => HttpResponse 200 (Ok (VDict [("data", a1)]));
     json_dumps := sample_dumps;
     json_loads := sample_loads;
     py_repr := fun _ => "<object>";
     unicode_lower := fun s => s;
     time_time := fun t => float_of_Z t;
     utcnow_iso := fun _ => "2024-01-01T00:00:00" |}.

(** The same with a provider that answers 429 to everything. *)
Definition rate_limited : env :=
  {| cache_ttl := 604800;
     hunter_api_key := Some "hunter-key";
     clearbit_api_key := Some "clearbit-key";
     redis_fault := fun _ => false;
     http_get := fun _ _ _ => HttpResponse 429 (Raise JSONError);
     json_dumps := sample_dumps;
     json_loads := sample_loads;
     py_repr := fun _ => "<object>";
     unicode_lower := fun s => s;
     time_time := fun t => float_of_Z t;
     utcnow_iso := fun _ => "2024-01-01T00:00:00" |}.

(** A firmographic key only, and a provider whose answer has a null
    where a nested object is expected. *)
Definition null_geo : env :=
  {| cache_ttl := 604800;
     hunter_api_key := None;
     clearbit_api_key := Some "clearbit-key";
     redis_fault := fun _ => false;
     http_get := fun _ _ _ =>
       HttpResponse 200 (Ok (VDict [("name", VStr "Acme"); ("geo", VNone)]));
     json_dumps := sample_dumps;
     json_loads := sample_loads;
     py_repr := fun _ => "<object>";
     unicode_lower := fun s => s;
     time_time := fun t => float_of_Z t;
     utcnow_iso := fun _ => "2024-01-01T00:00:00" |}.

(** A firmographic key only, and a provider that answers with the
    sample dictionary. *)
Definition firmographic : env :=
  {| cache_ttl := 604800;
     hunter_api_key := None;
     clearbit_api_key := Some "clearbit-key";
     redis_fault := fun _ => false;
     http_get := fun _ _ _ => HttpResponse 200 (Ok a1);
     json_dumps := sample_dumps;
     json_loads := sample_loads;
     py_repr := fun _ => "<object>";
     unicode_lower := fun s => s;
     time_time := fun t => float_of_Z t;
     utcnow_iso := fun _ => "2024-01-01T00:00:00" |}.

(** A world in which one call has been logged. *)
Definition later_world : world :=
  {| now := 0; db := []; events := [EvSleep] |}.

End MoreSamples.

(* ================================================================== *)
(** * Properties *)
(* ================================================================== *)

(** ** Dictionaries *)

Section DictFacts.
Import Py.

Lemma lookup_setitem (d : dict) (k k' : string) (v : pyval) :
  lookup (setitem d k v) k'
  = if String.eqb k' k then Some v else lookup d k'.
Proof.
  induction d as [|[k0 v0] d IH]; simpl.
  - reflexivity.
  - destruct (String.eqb k k0) eqn:Hk; simpl.
    + apply String.eqb_eq in Hk. subst k0.
      now destruct (String.eqb k' k).
    + rewrite IH. destruct (String.eqb k' k0) eqn:Hk0; [|reflexivity].
      apply String.eqb_eq in Hk0. subst k0.
      destruct (String.eqb k' k) eqn:Hk'; [|reflexivity].
      apply String.eqb_eq in Hk'. subst k'.
      now rewrite String.eqb_refl in Hk.
Qed.

Lemma get_setitem (d : dict) (k k' : string) (v : pyval) :
  get (setitem d k v) k' = if String.eqb k' k then v else get d k'.
Proof.
  unfold get, get_default. rewrite lookup_setitem.
  now destruct (String.eqb k' k).
Qed.

Lemma lookup_absent (d : dict) (k : string) :
  ~ In k (map fst d) -> lookup d k = None.
Proof.
  induction d as [|[k0 v0] d IH]; simpl; intros Hnot.
  - reflexivity.
  - destruct (String.eqb k k0) eqn:Hk.
    + apply String.eqb_eq in Hk. subst. tauto.
    + apply IH. tauto.
Qed.

(** Updating with items of distinct keys: the items win, the rest
    stays. *)
Lemma lookup_update (items : dict) :
  NoDup (map fst items) ->
  forall (d : dict) (k : string),
    lookup (update d items) k
    = match lookup items k with
      | Some v => Some v
      | None => lookup d k
      end.
Proof.
  unfold update.
  induction items as [|[k0 v0] items IH]; simpl; intros Hnd d k.
  - reflexivity.
  - inversion Hnd as [|? ? Hnot Hrest]; subst.
    rewrite IH by assumption. rewrite lookup_setitem.
    destruct (String.eqb k k0) eqn:Hk; [|reflexivity].
    apply String.eqb_eq in Hk. subst k0.
    now rewrite (lookup_absent items k Hnot).
Qed.

End DictFacts.

(** ** Deduplication of contacts *)

Section DedupFacts.
Import Py Sys DataCollector DedupSpec.
Variable E : env.

(** The keys the loop computes are the keys of the rule. *)
Lemma email_key_of_str (c : dict) :
  email_is_str c = true -> email_key E c = Ok (folded_email E c).
Proof.
  unfold email_is_str, folded_email, email_key, get_default.
  destruct (lookup c "email") as [[]|]; simpl;
    first [congruence | intros _; reflexivity].
Qed.

Lemma format_shown (v : pyval) : format E v = shown E v.
Proof. destruct v as [|[|]| | | | | |]; reflexivity. Qed.

Lemma name_key_folded (c : dict) : name_key E c = folded_name E c.
Proof.
  unfold name_key, folded_name, name_part, get_default.
  destruct (lookup c "first_name"), (lookup c "last_name");
    now rewrite ?format_shown.
Qed.

Lemma email_key_of_other (c : dict) :
  email_is_str c = false -> email_key E c = Raise AttributeError.
Proof.
  unfold email_is_str, email_key, get_default.
  destruct (lookup c "email") as [[]|]; simpl; congruence.
Qed.

Lemma mem_cons (s a : string) (seen : list string) :
  mem s (a :: seen) = (String.eqb s a || mem s seen)%bool.
Proof. reflexivity. Qed.

Lemma email_seen_snoc (before : list dict) (c : dict) (e : string) :
  email_seen E (before ++ [c]) e
  = (email_seen E before e || String.eqb (folded_email E c) e)%bool.
Proof.
  unfold email_seen. rewrite existsb_app. simpl. now rewrite orb_false_r.
Qed.

Lemma name_seen_snoc (before : list dict) (c : dict) (n : string) :
  name_seen E (before ++ [c]) n
  = (name_seen E before n
     || (String.eqb (folded_email E c) "" && String.eqb (folded_name E c) n))%bool.
Proof.
  unfold name_seen. rewrite existsb_app. simpl. now rewrite orb_false_r.
Qed.

(** A key that is not empty differs from the empty one. *)
Lemma eqb_empty_key (s : string) : s <> "" -> String.eqb "" s = false.
Proof. intros Hs. apply String.eqb_neq. congruence. Qed.

(** The two seen-sets after a contact that has an email. *)
Ltac seen_after_email Hempty He Hn :=
  match goal with
  | |- forall e, e <> "" -> mem e _ = email_seen E _ e =>
      let e := fresh "e" in let He' := fresh "He" in
      intros e He'; rewrite email_seen_snoc, ?mem_cons, He by assumption
  | |- forall n, n <> "" -> mem n _ = name_seen _ _ n =>
      let n := fresh "n" in let Hn' := fresh "Hn" in
      intros n Hn'; rewrite name_seen_snoc, ?mem_cons, Hn by assumption;
      rewrite Hempty; simpl; now rewrite ?orb_false_r
  end.

(** The loop computes the rule, whatever it has already passed over. *)
Lemma dedup_loop_refines :
  forall (cs before : list dict) (se sn : list string) (acc : list dict),
    Forall (fun c => email_is_str c = true) cs ->
    (forall e, e <> "" -> mem e se = email_seen E before e) ->
    (forall n, n <> "" -> mem n sn = name_seen E before n) ->
    dedup_loop E cs se sn acc = Ok (acc ++ first_seen E before cs)%list.
Proof.
  induction cs as [|c rest IH]; intros before se sn acc Hok He Hn; simpl.
  - now rewrite app_nil_r.
  - inversion Hok as [|? ? Hc Hrest]; subst.
    rewrite (email_key_of_str c Hc), (name_key_folded c). simpl.
    unfold kept.
    destruct (String.eqb (folded_email E c) "") eqn:Hempty; simpl.
    + (* no email: the name decides *)
      assert (Hemails : forall e, e <> "" ->
                mem e se = email_seen E (before ++ [c]) e).
      { intros e He'. rewrite email_seen_snoc, He by assumption.
        apply String.eqb_eq in Hempty. rewrite Hempty.
        now rewrite (eqb_empty_key e He'), orb_false_r. }
      destruct (String.eqb (folded_name E c) "") eqn:Hname; simpl.
      * apply IH; auto.
        intros n Hn'. rewrite name_seen_snoc, Hn, Hempty by assumption.
        apply String.eqb_eq in Hname. rewrite Hname.
        now rewrite (eqb_empty_key n Hn'), orb_false_r.
      * apply String.eqb_neq in Hname. rewrite (Hn _ Hname).
        destruct (name_seen E before (folded_name E c)) eqn:Hseen; simpl.
        -- apply IH; auto.
           intros n Hn'. rewrite name_seen_snoc, Hn, Hempty by assumption.
           simpl. destruct (String.eqb (folded_name E c) n) eqn:X.
           ++ apply String.eqb_eq in X. subst n. now rewrite Hseen.
           ++ now rewrite orb_false_r.
        -- rewrite IH with (before := (before ++ [c])%list);
             [now rewrite <- app_assoc | assumption | assumption |].
           intros n Hn'.
           rewrite name_seen_snoc, mem_cons, Hn, Hempty by assumption.
           simpl. rewrite (String.eqb_sym n). apply orb_comm.
    + (* an email: it decides *)
      assert (Hnames : forall n, n <> "" ->
                mem n sn = name_seen E (before ++ [c]) n)
        by seen_after_email Hempty He Hn.
      apply String.eqb_neq in Hempty. rewrite (He _ Hempty).
      destruct (email_seen E before (folded_email E c)) eqn:Hseen; simpl.
      * apply IH; auto.
        intros e He'. rewrite email_seen_snoc, He by assumption.
        destruct (String.eqb (folded_email E c) e) eqn:X.
        -- apply String.eqb_eq in X. subst e. now rewrite Hseen.
        -- now rewrite orb_false_r.
      * rewrite IH with (before := (before ++ [c])%list);
          [now rewrite <- app_assoc | assumption | | assumption].
        intros e He'. rewrite email_seen_snoc, mem_cons, He by assumption.
        rewrite (String.eqb_sym e). apply orb_comm.
Qed.

(** On contacts whose emails are strings the function is the rule. *)
Lemma dedup_refines (cs : list dict) :
  Forall (fun c => email_is_str c = true) cs ->
  _deduplicate_contacts E cs = Ok (dedup_spec E cs).
Proof.
  intros Hok. unfold _deduplicate_contacts, dedup_spec.
  now rewrite (dedup_loop_refines cs [] [] [] []).
Qed.

(** One email that is no string, anywhere in the list, and the loop
    raises. *)
Lemma dedup_loop_raises :
  forall (cs : list dict) (se sn : list string) (acc : list dict),
    Exists (fun c => email_is_str c = false) cs ->
    dedup_loop E cs se sn acc = Raise AttributeError.
Proof.
  induction cs as [|c rest IH]; intros se sn acc Hex.
  - inversion Hex.
  - simpl. destruct (email_is_str c) eqn:Hc.
    + assert (Hrest : Exists (fun c => email_is_str c = false) rest).
      { inversion Hex; subst; [congruence | assumption]. }
      rewrite (email_key_of_str c Hc). simpl.
      repeat match goal with
             | |- context [if ?b then _ else _] => destruct b
             end; now apply IH.
    + now rewrite (email_key_of_other c Hc).
Qed.

(** A result means every email was a string. *)
Lemma dedup_ok_emails (cs out : list dict) :
  _deduplicate_contacts E cs = Ok out ->
  Forall (fun c => email_is_str c = true) cs.
Proof.
  intros Hout. apply Forall_forall. intros c Hin.
  destruct (email_is_str c) eqn:Hc; [reflexivity|].
  unfold _deduplicate_contacts in Hout.
  rewrite dedup_loop_raises in Hout; [discriminate|].
  apply Exists_exists. now exists c.
Qed.

End DedupFacts.

Section DedupKeys.
Import Py Sys DataCollector DedupSpec.
Variable E : env.

Lemma emails_of_app (l1 l2 : list dict) :
  emails_of E (l1 ++ l2) = (emails_of E l1 ++ emails_of E l2)%list.
Proof. unfold emails_of. now rewrite map_app, filter_app. Qed.

Lemma names_of_app (l1 l2 : list dict) :
  names_of E (l1 ++ l2) = (names_of E l1 ++ names_of E l2)%list.
Proof. unfold names_of. now rewrite filter_app, map_app. Qed.

(** The emails of what the rule keeps are pairwise distinct, and none
    was carried by a contact passed over before. *)
Lemma first_seen_emails :
  forall cs before,
    NoDup (emails_of E (first_seen E before cs)) /\
    (forall e, In e (emails_of E (first_seen E before cs)) ->
               email_seen E before e = false).
Proof.
  induction cs as [|c rest IH]; intros before; simpl.
  - split; [constructor | intros e []].
  - destruct (IH (before ++ [c])%list) as [Hnd Hfresh].
    assert (Hold : forall e, In e (emails_of E (first_seen E (before ++ [c]) rest)) ->
                     email_seen E before e = false /\
                     String.eqb (folded_email E c) e = false).
    { intros e Hin. specialize (Hfresh e Hin).
      rewrite email_seen_snoc in Hfresh. now apply orb_false_elim in Hfresh. }
    rewrite emails_of_app. unfold kept.
    destruct (String.eqb (folded_email E c) "") eqn:Hempty; simpl.
    + (* no email: the contact adds no email *)
      assert (Hnone : forall b : bool, emails_of E (if b then [c] else []) = []).
      { intros []; unfold emails_of; simpl; [now rewrite Hempty | reflexivity]. }
      rewrite Hnone. simpl. split; [assumption|].
      intros e Hin. now apply Hold.
    + destruct (email_seen E before (folded_email E c)) eqn:Hseen; simpl.
      * split; [assumption|]. intros e Hin. now apply Hold.
      * unfold emails_of at 1 3. simpl. rewrite Hempty. simpl. split.
        -- constructor; [|assumption].
           intros Hin. destruct (Hold _ Hin) as [_ Hne].
           now rewrite String.eqb_refl in Hne.
        -- intros e [<-|Hin]; [assumption | now apply Hold].
Qed.

(** The same for the names of the kept contacts that have no email. *)
Lemma first_seen_names :
  forall cs before,
    NoDup (names_of E (first_seen E before cs)) /\
    (forall n, In n (names_of E (first_seen E before cs)) ->
               name_seen E before n = false).
Proof.
  induction cs as [|c rest IH]; intros before; simpl.
  - split; [constructor | intros n []].
  - destruct (IH (before ++ [c])%list) as [Hnd Hfresh].
    assert (Hold : forall n, In n (names_of E (first_seen E (before ++ [c]) rest)) ->
                     name_seen E before n = false /\
                     (String.eqb (folded_email E c) ""
                      && String.eqb (folded_name E c) n)%bool = false).
    { intros n Hin. specialize (Hfresh n Hin).
      rewrite name_seen_snoc in Hfresh. now apply orb_false_elim in Hfresh. }
    rewrite names_of_app. unfold kept.
    destruct (String.eqb (folded_email E c) "") eqn:Hempty; simpl.
    + destruct (negb (String.eqb (folded_name E c) "")
                && negb (name_seen E before (folded_name E c)))%bool eqn:Hkeep.
      * apply andb_prop in Hkeep. destruct Hkeep as [_ Hseen].
        apply negb_true_iff in Hseen.
        unfold names_of at 1 3. simpl. rewrite Hempty. simpl. split.
        -- constructor; [|assumption].
           intros Hin. destruct (Hold _ Hin) as [_ Hne].
           simpl in Hne. now rewrite String.eqb_refl in Hne.
        -- intros n [<-|Hin]; [assumption | now apply Hold].
      * simpl. split; [assumption|]. intros n Hin. now apply Hold.
    + (* an email: the contact adds no name *)
      assert (Hnone : forall b : bool, names_of E (if b then [c] else []) = []).
      { intros []; unfold names_of; simpl; [now rewrite Hempty | reflexivity]. }
      rewrite Hnone. simpl. split; [assumption|].
      intros n Hin. now apply Hold.
Qed.

(** A contact with no email and no name has both keys empty. *)
Lemma blank_keys (c : dict) :
  blank c = true -> email_key E c = Ok "" /\ name_key E c = "".
Proof.
  unfold blank, email_key, name_key, get_default. intros Hb.
  apply andb_prop in Hb. destruct Hb as [Hb Hlast].
  apply andb_prop in Hb. destruct Hb as [Hemail Hfirst].
  assert (Hkey : forall o : option pyval,
            match o with
            | None => true
            | Some (VStr s) => String.eqb s ""
            | Some _ => false
            end = true ->
            match o with Some v => v | None => VStr "" end = VStr "").
  { intros [[]|] H; try discriminate; [|reflexivity].
    apply String.eqb_eq in H. now subst. }
  rewrite (Hkey _ Hemail), (Hkey _ Hfirst), (Hkey _ Hlast).
  split; reflexivity.
Qed.

(** The loop passes over such a contact without a trace. *)
Lemma dedup_loop_blank (c : dict) (rest : list dict)
  (se sn : list string) (acc : list dict) :
  blank c = true ->
  dedup_loop E (c :: rest) se sn acc = dedup_loop E rest se sn acc.
Proof.
  intros Hb. destruct (blank_keys c Hb) as [He Hn].
  simpl. rewrite He, Hn. reflexivity.
Qed.

Lemma dedup_loop_drops (c : dict) (cs2 : list dict) :
  blank c = true ->
  forall (cs1 : list dict) (se sn : list string) (acc : list dict),
    dedup_loop E (cs1 ++ c :: cs2) se sn acc
    = dedup_loop E (cs1 ++ cs2) se sn acc.
Proof.
  intros Hb. induction cs1 as [|a cs1 IH]; intros se sn acc.
  - now apply dedup_loop_blank.
  - simpl. destruct (email_key E a) as [e|x]; simpl; [|reflexivity].
    repeat match goal with
           | |- context [if ?b then _ else _] => destruct b
           end; apply IH.
Qed.

Lemma dedup_loop_skips_blanks (cs : list dict) :
  forall (blanks : list dict) (se sn : list string) (acc : list dict),
    Forall (fun c => blank c = true) blanks ->
    dedup_loop E (blanks ++ cs) se sn acc = dedup_loop E cs se sn acc.
Proof.
  induction blanks as [|b blanks IH]; intros se sn acc Hall.
  - reflexivity.
  - inversion Hall; subst. rewrite <- app_comm_cons.
    rewrite dedup_loop_blank by assumption. now apply IH.
Qed.

End DedupKeys.

(** ** The mock scraper's employees *)

Section MockFacts.
Import Py Sys DataCollector DedupSpec LinkedIn.
Variable E : env.

(** An employee record of the mock has a combined name and nothing the
    deduplication reads. *)
Lemma mock_employee_blank (company_name : string) (i : Z) (w : world) :
  exists emp,
    mock_employee E company_name i w = (Ok emp, w) /\ blank emp = true.
Proof.
  unfold mock_employee, bind, time_now, ret. eexists. split; reflexivity.
Qed.

Lemma for_each_mock_employee (company_name : string) :
  forall (l : list Z) (w : world),
    exists emps,
      for_each (mock_employee E company_name) l w = (Ok emps, w) /\
      Forall (fun c => blank c = true) emps.
Proof.
  induction l as [|i l IH]; intros w; simpl.
  - exists []. split; [reflexivity | constructor].
  - destruct (mock_employee_blank company_name i w) as [emp [Hemp Hb]].
    destruct (IH w) as [emps [Hemps Hall]].
    exists (emp :: emps). unfold bind. rewrite Hemp, Hemps.
    split; [reflexivity | now constructor].
Qed.

Lemma mock_scrape_blank (company_name : string) (limit : Z)
  (use_cache : bool) (w : world) :
  exists emps,
    mock_scrape_company_employees E company_name limit use_cache w
    = (Ok emps, log EvSleep w) /\
    Forall (fun c => blank c = true) emps.
Proof.
  unfold mock_scrape_company_employees, bind, sleep.
  apply for_each_mock_employee.
Qed.

(** With the mock scraper the collector returns what the
    email-discovery contacts alone give. *)
Lemma mock_contacts_are_dropped (company_name domain : string) (limit : Z)
  (use_cache : bool) (w : world) :
  data_collector_contacts E company_name domain limit use_cache w
  = email_discovery_contacts E domain limit (log EvSleep w).
Proof.
  unfold data_collector_contacts, collect_contacts, email_discovery_contacts.
  destruct (mock_scrape_blank company_name limit use_cache w)
    as [emps [Hemps Hall]].
  unfold bind, try_except, ret, lift. simpl. rewrite Hemps. simpl.
  assert (Hdrop : forall hs,
            _deduplicate_contacts E (emps ++ hs) = _deduplicate_contacts E hs).
  { intros hs. unfold _deduplicate_contacts.
    now apply dedup_loop_skips_blanks. }
  destruct (HunterService.is_available E).
  - destruct (HunterService.get_contacts E domain limit (log EvSleep w))
      as [[hs|x] w']; simpl.
    + now rewrite Hdrop.
    + rewrite <- (app_nil_r emps) at 1. now rewrite Hdrop.
  - rewrite <- (app_nil_r emps) at 1. now rewrite Hdrop.
Qed.

End MockFacts.

(** ** The claims about deduplication *)

Section DedupClaims.
Import Py Sys DataCollector DedupSpec Samples.




(** C4.  A contact with no email (absent or empty) and no first and
    last name (absent or empty) is dropped wherever it stands: the
    result is the one of the list without it.  The employee records of
    the mock scraper are of this kind, so the collector built on it
    returns what the email-discovery contacts alone give. *)
Theorem blank_contact_is_dropped :
  forall (E : env) (c : dict) (cs1 cs2 : list dict),
    blank c = true ->
    _deduplicate_contacts E (cs1 ++ c :: cs2)
    = _deduplicate_contacts E (cs1 ++ cs2)
    /\ (forall company_name i w,
          exists emp,
            LinkedIn.mock_employee E company_name i w = (Ok emp, w)
            /\ blank emp = true)
    /\ (forall company_name domain limit use_cache w,
          data_collector_contacts E company_name domain limit use_cache w
          = email_discovery_contacts E domain limit (log EvSleep w)).
Proof.
  intros E c cs1 cs2 Hb. split; [|split].
  - unfold _deduplicate_contacts. now apply dedup_loop_drops.
  - intros. apply mock_employee_blank.
  - intros. apply mock_contacts_are_dropped.
Qed.

Lemma blank_contact_is_dropped_example :
  blank person_1 = true
  /\ LinkedIn.mock_employee offline "Acme" 0 empty_world
     = (Ok person_1, empty_world)
  /\ _deduplicate_contacts offline ([contact_a] ++ person_1 :: [contact_b])
     = _deduplicate_contacts offline ([contact_a] ++ [contact_b]).
Proof.
  split; [reflexivity | split; [reflexivity|]].
  exact (proj1 (blank_contact_is_dropped offline person_1
                  [contact_a] [contact_b] eq_refl)).
Defined.

End DedupClaims.

Section DedupInvariants.
Import Py Sys DataCollector DedupSpec Samples.



(** C9.  When every contact's email is absent or a string,
    [_deduplicate_contacts] returns a list, and only then.  A list that
    holds a contact whose email is [None] makes it raise
    [AttributeError], and the email-discovery adapter builds such a
    contact from every entry that has no [value]. *)
Theorem dedup_needs_string_emails :
  forall (E : env) (contacts : list dict),
    (Forall (fun c => email_is_str c = true) contacts ->
     exists out, _deduplicate_contacts E contacts = Ok out)
    /\ (forall out, _deduplicate_contacts E contacts = Ok out ->
                    Forall (fun c => email_is_str c = true) contacts)
    /\ (forall c, In c contacts -> lookup c "email" = Some VNone ->
                  _deduplicate_contacts E contacts = Raise AttributeError)
    /\ (forall entry, lookup entry "value" = None ->
          exists c, HunterService.contact_of_email (VDict entry) = Ok c
                    /\ lookup c "email" = Some VNone).
Proof.
  intros E contacts. split; [|split; [|split]].
  - intros Hok. exists (dedup_spec E contacts). now apply dedup_refines.
  - intros out Hout. now apply (dedup_ok_emails E contacts out).
  - intros c Hin Hnull. unfold _deduplicate_contacts.
    apply dedup_loop_raises. apply Exists_exists. exists c. split; [assumption|].
    unfold email_is_str. now rewrite Hnull.
  - intros entry Hnone. eexists. split; [reflexivity|].
    simpl. unfold get, get_default. now rewrite Hnone.
Qed.

Lemma dedup_needs_string_emails_example :
  HunterService.contact_of_email (VDict [("first_name", VStr "Bob")]) = Ok bob
  /\ _deduplicate_contacts offline [contact_a; bob] = Raise AttributeError.
Proof.
  split; [reflexivity|].
  exact (proj1 (proj2 (proj2 (dedup_needs_string_emails
                                offline [contact_a; bob])))
           bob (or_intror (or_introl eq_refl)) eq_refl).
Defined.

End DedupInvariants.

(** ** The lead score *)

Section ScoreFacts.
Import Py Sys DataCollector Fields Samples.

Lemma add_size_absent (d : dict) (score : float) :
  lookup d "employee_count" = None -> add_size d score = Ok score.
Proof.
  intros Habs. unfold add_size, get, get_default. now rewrite Habs.
Qed.

Lemma add_size_above_1000 (d : dict) (n : Z) (score : float) :
  lookup d "employee_count" = Some (VInt n) -> 1000 < n ->
  add_size d score = Ok (score + 5)%float.
Proof.
  intros Hn Hbig. unfold add_size, get, get_default. rewrite Hn. simpl.
  replace (n =? 0) with false by (symmetry; apply Z.eqb_neq; lia).
  replace (n <=? 500) with false by (symmetry; apply Z.leb_gt; lia).
  replace (n <=? 1000) with false by (symmetry; apply Z.leb_gt; lia).
  replace (n <? 50) with false by (symmetry; apply Z.ltb_ge; lia).
  simpl. now rewrite !andb_false_r.
Qed.

Lemma score_of_empty_record (d : dict) :
  lookup d "employee_count" = None ->
  (forall k, In k other_scored_fields -> lookup d k = None) ->
  calculate_lead_score d = Ok 0%float.
Proof.
  intros Hcount Hrest.
  assert (Hget : forall k, In k ("employee_count" :: other_scored_fields) ->
                           lookup d k = None).
  { intros k [<-|Hk]; [assumption | now apply Hrest]. }
  unfold calculate_lead_score, add_completeness, add_size, add_funding,
    add_tech, add_contacts, required_fields, get, get_default.
  simpl filter.
  rewrite !Hget by (simpl; tauto).
  reflexivity.
Qed.

(** C1, as the code has it.  A record with no [employee_count] gets no
    size points at all: the score is left as it was, where a count
    above 1000 adds 5.  A record with none of the scored fields scores
    exactly 0. *)
Theorem absent_employee_count_scores_nothing :
  forall (d : dict),
    lookup d "employee_count" = None ->
    (forall score, add_size d score = Ok score)
    /\ ((forall k, In k other_scored_fields -> lookup d k = None) ->
        calculate_lead_score d = Ok 0%float)
    /\ (forall n score, 1000 < n ->
          add_size (setitem d "employee_count" (VInt n)) score
          = Ok (score + 5)%float).
Proof.
  intros d Habs. split; [|split].
  - intros score. now apply add_size_absent.
  - now apply score_of_empty_record.
  - intros n score Hbig. apply add_size_above_1000 with (n := n); [|assumption].
    rewrite lookup_setitem. reflexivity.
Qed.

Lemma absent_employee_count_scores_nothing_example :
  lookup [("name", VStr "Acme")] "employee_count" = None
  /\ add_size [("name", VStr "Acme")] 6%float = Ok 6%float
  /\ calculate_lead_score [("name", VStr "Acme")] = Ok 6%float.
Proof.
  split; [reflexivity|]. split; [|reflexivity].
  exact (proj1 (absent_employee_count_scores_nothing
                  [("name", VStr "Acme")] eq_refl) 6%float).
Defined.

(** C1, as stated, fails on the empty record: it scores 0, not 5, and
    its size step adds nothing. *)
Lemma empty_record_scores_zero :
  calculate_lead_score [] = Ok 0%float
  /\ calculate_lead_score [] <> Ok 5%float
  /\ add_size [] 0%float = Ok 0%float.
Proof.
  split; [reflexivity | split; [|reflexivity]].
  intros H.
  apply (f_equal (fun r => match r with
                           | Ok x => PrimFloat.eqb x 0%float
                           | Raise _ => false
                           end)) in H.
  vm_compute in H. discriminate H.
Qed.

End ScoreFacts.

(** ** The cache layer *)

Section CacheFacts.
Import Py Sys CacheService.
Variable E : env.


Lemma length_log (ev : event) (w : world) :
  List.length (events (log ev w)) = S (List.length (events w)).
Proof. simpl. rewrite length_app. simpl. lia. Qed.

(** Neither [get] nor [set] lets an exception out. *)
Lemma get_returns (ns id : string) (w : world) :
  exists v w', get E ns id w = (Ok v, w').
Proof.
  unfold get, try_except, bind, redis_get, command, ret, lift.
  destruct (redis_fault E (List.length (events w))); [now eauto|].
  destruct (live (log (EvRedis "GET" (_generate_key ns id)) w)
                 (_generate_key ns id)) as [txt|]; [|now eauto].
  destruct (negb (String.eqb txt "")); [|now eauto].
  destruct (json_loads E txt); now eauto.
Qed.

Lemma set_returns (ns id : string) (data : pyval) (ttl : option Z)
  (w : world) :
  exists b w', set E ns id data ttl w = (Ok b, w').
Proof.
  unfold set, try_except, bind, redis_setex, command, ret, lift.
  destruct (json_dumps E data); [|now eauto].
  destruct (redis_fault E (List.length (events w))); [now eauto|].
  destruct (ttl_or_default E ttl <=? 0); now eauto.
Qed.

(** A live text under the key, with Redis reachable: [get] decodes it. *)
Lemma get_hit (ns id txt : string) (v : pyval) (w : world) :
  redis_fault E (List.length (events w)) = false ->
  live w (_generate_key ns id) = Some txt ->
  txt <> "" ->
  json_loads E txt = Ok v ->
  get E ns id w = (Ok v, log (EvRedis "GET" (_generate_key ns id)) w).
Proof.
  intros Hup Hlive Htxt Hloads.
  unfold get, try_except, bind, redis_get, command, ret, lift.
  rewrite Hup.
  replace (live (log (EvRedis "GET" (_generate_key ns id)) w)
                (_generate_key ns id)) with (Some txt).
  apply String.eqb_neq in Htxt. rewrite Htxt. simpl. now rewrite Hloads.
Qed.

(** A value the codec encodes, a positive expiry, Redis reachable:
    [set] stores the text until the expiry. *)
Lemma set_stores (ns id s : string) (data : pyval) (ttl : option Z)
  (w : world) :
  json_dumps E data = Ok s ->
  redis_fault E (List.length (events w)) = false ->
  0 < ttl_or_default E ttl ->
  exists w',
    set E ns id data ttl w = (Ok true, w')
    /\ events w' = (events w ++ [EvRedis "SETEX" (_generate_key ns id)])%list
    /\ forall d, d < ttl_or_default E ttl ->
                 live (elapse d w') (_generate_key ns id) = Some s.
Proof.
  intros Hdumps Hup Hpos.
  unfold set, try_except, bind, redis_setex, command, ret, lift.
  rewrite Hdumps, Hup.
  replace (ttl_or_default E ttl <=? 0) with false
    by (symmetry; apply Z.leb_gt; lia).
  eexists. split; [reflexivity|]. split; [reflexivity|].
  intros d Hd. unfold live. simpl. rewrite String.eqb_refl.
  replace (now w + d <? now w + ttl_or_default E ttl) with true
    by (symmetry; apply Z.ltb_lt; lia).
  reflexivity.
Qed.


End CacheFacts.

Section CacheClaims.
Import Py Sys CacheService Samples.




End CacheClaims.

Section GetOrSet.
Import Py Sys CacheService Samples.

Lemma is_none_false (v : pyval) : v <> VNone -> is_none v = false.
Proof. destruct v; simpl; congruence. Qed.

(** C7.  [get_or_set] never raises.  A live, decodable, non-null entry
    is returned after the one lookup, with [fetch_func] not called.
    When the lookup finds nothing, [fetch_func] runs: its non-null
    result is handed to [set] (which stores it when the codec encodes
    it, Redis is reachable and the expiry is positive) and returned; a
    null result is returned with nothing stored; and when [fetch_func]
    raises, the call returns [None]. *)
Theorem get_or_set_contract :
  forall (E : env) (ns id : string) (fetch_func : M pyval) (ttl : option Z)
         (w : world),
    (exists v w', get_or_set E ns id fetch_func ttl w = (Ok v, w'))
    /\ (forall txt v,
          redis_fault E (List.length (events w)) = false ->
          live w (_generate_key ns id) = Some txt -> txt <> "" ->
          json_loads E txt = Ok v -> v <> VNone ->
          get_or_set E ns id fetch_func ttl w
          = (Ok v, log (EvRedis "GET" (_generate_key ns id)) w))
    /\ (forall w1,
          get E ns id w = (Ok VNone, w1) ->
          match fetch_func w1 with
          | (Ok VNone, w2) =>
              get_or_set E ns id fetch_func ttl w = (Ok VNone, w2)
          | (Ok data, w2) =>
              get_or_set E ns id fetch_func ttl w
              = (Ok data, snd (set E ns id data ttl w2))
              /\ (forall s,
                    json_dumps E data = Ok s ->
                    redis_fault E (List.length (events w2)) = false ->
                    0 < ttl_or_default E ttl ->
                    live (snd (set E ns id data ttl w2)) (_generate_key ns id)
                    = Some s)
          | (Raise _, w2) =>
              get_or_set E ns id fetch_func ttl w = (Ok VNone, w2)
          end).
Proof.
  intros E ns id fetch_func ttl w. split; [|split].
  - unfold get_or_set, bind, try_except, ret.
    destruct (get_returns E ns id w) as [cached [w1 Hget]]. rewrite Hget.
    destruct (negb (is_none cached)); [now eauto|].
    destruct (fetch_func w1) as [[data|x] w2]; [|now eauto].
    destruct (negb (is_none data)); [|now eauto].
    destruct (set_returns E ns id data ttl w2) as [b [w3 Hset]].
    rewrite Hset. now eauto.
  - intros txt v Hup Hlive Htxt Hloads Hv.
    unfold get_or_set, bind, ret.
    rewrite (get_hit E ns id txt v w Hup Hlive Htxt Hloads).
    now rewrite (is_none_false v Hv).
  - intros w1 Hget. unfold get_or_set, bind, try_except, ret.
    rewrite Hget. simpl.
    destruct (fetch_func w1) as [[data|x] w2]; [|reflexivity].
    assert (Hstored : forall s,
              json_dumps E data = Ok s ->
              redis_fault E (List.length (events w2)) = false ->
              0 < ttl_or_default E ttl ->
              live (snd (set E ns id data ttl w2)) (_generate_key ns id)
              = Some s).
    { intros s Hdumps Hup Hpos.
      destruct (set_stores E ns id s data ttl w2 Hdumps Hup Hpos)
        as [w3 [Hset [_ Hlive]]].
      rewrite Hset. simpl. specialize (Hlive 0 Hpos).
      unfold live in *. simpl in Hlive. now rewrite Z.add_0_r in Hlive. }
    destruct (set_returns E ns id data ttl w2) as [b [w3 Hset]].
    destruct data; simpl; try reflexivity;
      rewrite Hset in *; simpl; (split; [reflexivity | exact Hstored]).
Qed.

(** On an empty cache a fetched value is stored and returned; the next
    call finds it without fetching. *)
Lemma get_or_set_contract_example :
  fst (get_or_set offline "ns" "id" (ret a1) (Some 60) empty_world) = Ok a1
  /\ get_or_set offline "ns" "id" (raise OtherError) (Some 60) empty_world
     = (Ok VNone, log (EvRedis "GET" "cache:ns:id") empty_world)
  /\ (let w1 := snd (get_or_set offline "ns" "id" (ret a1) (Some 60)
                                empty_world) in
      get_or_set offline "ns" "id" (raise OtherError) (Some 60) w1
      = (Ok a1, log (EvRedis "GET" "cache:ns:id") w1)).
Proof.
  split; [reflexivity | split; [reflexivity|]].
  refine (proj1 (proj2 (get_or_set_contract offline "ns" "id"
                          (raise OtherError) (Some 60)
                          (snd (get_or_set offline "ns" "id" (ret a1)
                                           (Some 60) empty_world))))
            a1_text a1 eq_refl eq_refl _ eq_refl _); discriminate.
Defined.

End GetOrSet.

(** ** The email generator *)

Section GeneratorFacts.
Import Py Sys HunterService Samples.
Variable E : env.

(** [set] only adds to the log. *)
Lemma set_extends_log (ns id : string) (data : pyval) (ttl : option Z)
  (w : world) :
  exists evs,
    events (snd (CacheService.set E ns id data ttl w)) = (events w ++ evs)%list.
Proof.
  unfold CacheService.set, try_except, bind, redis_setex, command, ret, lift.
  destruct (json_dumps E data); simpl.
  - destruct (redis_fault E (List.length (events w))); simpl; [now eauto|].
    destruct (CacheService.ttl_or_default E ttl <=? 0); simpl; now eauto.
  - exists []. now rewrite app_nil_r.
Qed.

(** With a key configured, [_make_request] goes to the network. *)
Lemma make_request_logs (endpoint : string) (params : dict) (w : world) :
  str_truthy (hunter_api_key E) = true ->
  exists ev,
    is_http ev = true
    /\ events (snd (_make_request E endpoint params w)) = (events w ++ [ev])%list.
Proof.
  intros Hkey. unfold _make_request, api_key. rewrite Hkey. simpl.
  unfold try_except, bind, http_request, ret, raise, lift.
  eexists. split; [|destruct (http_get E _ _ _) as [| |status json];
                    [reflexivity | reflexivity |];
                    destruct (status =? 200); [destruct json|]; reflexivity].
  reflexivity.
Qed.

Lemma fetch_logs_http (domain cache_key : string) (use_cache : bool)
  (w : world) :
  str_truthy (hunter_api_key E) = true ->
  existsb is_http (events (snd (domain_search_fetch E domain cache_key
                                                    use_cache w))) = true.
Proof.
  intros Hkey.
  destruct (make_request_logs "domain-search" [("domain", VStr domain)] w Hkey)
    as [ev [Hev Hlog]].
  unfold domain_search_fetch, bind, ret, lift.
  destruct (_make_request E "domain-search" [("domain", VStr domain)] w)
    as [[response|x] w1]; simpl in Hlog |- *.
  - assert (Hw1 : existsb is_http (events w1) = true).
    { rewrite Hlog, existsb_app. simpl. rewrite Hev. now rewrite !orb_true_r. }
    destruct (truthy response); [|assumption].
    destruct (in_ "data" response) as [[|]|]; simpl; try assumption.
    destruct (getitem response "data") as [data|]; simpl; [|assumption].
    destruct use_cache; simpl; [|assumption].
    destruct (set_extends_log "hunter" cache_key data (Some (cache_ttl E)) w1)
      as [evs Hevs].
    destruct (CacheService.set E "hunter" cache_key data (Some (cache_ttl E)) w1)
      as [[b|y] w2]; simpl in Hevs |- *;
      rewrite Hevs, existsb_app, Hw1; reflexivity.
  - rewrite Hlog, existsb_app. simpl. rewrite Hev. now rewrite !orb_true_r.
Qed.

(** One step of the split into code points. *)
Lemma code_points_cons (c : ascii) (s : string) :
  code_points (String c s)
  = match s with
    | EmptyString => [String c EmptyString]
    | String c' _ =>
        if is_continuation c' then
          match code_points s with
          | [] => [String c EmptyString]
          | p :: ps => String c p :: ps
          end
        else String c EmptyString :: code_points s
    end.
Proof. destruct s; reflexivity. Qed.

(** The first code point, read off the bytes or off the list of code
    points. *)
Lemma first_char_initial (s : string) :
  first_char s = GeneratorSpec.initial s.
Proof.
  unfold GeneratorSpec.initial. destruct s as [|c s]; [reflexivity|].
  revert c. induction s as [|c' t IH]; intros c; [reflexivity|].
  specialize (IH c'). rewrite code_points_cons.
  cbn [first_char continuation] in *.
  destruct (is_continuation c'); [|reflexivity].
  destruct (code_points (String c' t)) as [|p ps]; [discriminate IH|].
  cbn [hd] in IH |- *. now rewrite IH.
Qed.

(** The four replacements of the code are the substitution of the
    description. *)
Lemma fill_pattern_substituted (pattern first_name last_name : string) :
  fill_pattern E pattern first_name last_name
  = GeneratorSpec.substituted E pattern first_name last_name.
Proof.
  unfold fill_pattern, GeneratorSpec.substituted, GeneratorSpec.fragments.
  cbn [fold_left fst snd]. now rewrite !first_char_initial.
Qed.

End GeneratorFacts.

Section GeneratorClaims.
Import Py Sys HunterService Samples.

(** C8, as the code has it.  [generate_email] first looks the pattern
    up with [get_email_pattern] (the cache, then the network), and
    nothing it does afterwards touches the world.  For a pattern that
    is a non-empty string the result is the substitution of the
    description: the pattern in lower case with [{first}], [{last}],
    [{f}] and [{l}] replaced, in this order, by the names and their
    first letters in lower case; with no pattern the result is [None].
    When a key is configured and the cache gives nothing, the lookup
    is a network request. *)
Theorem generate_email_looks_up_then_fills :
  forall (E : env) (first_name last_name domain : string) (w : world),
    snd (generate_email E first_name last_name domain w)
    = snd (get_email_pattern E domain w)
    /\ (forall p w',
          get_email_pattern E domain w = (Ok (VStr p), w') -> p <> "" ->
          generate_email E first_name last_name domain w
          = (Ok (VStr (GeneratorSpec.substituted E p first_name last_name)),
             w'))
    /\ (forall pattern w',
          get_email_pattern E domain w = (Ok pattern, w') ->
          truthy pattern = false ->
          generate_email E first_name last_name domain w = (Ok VNone, w'))
    /\ (forall cached w1,
          str_truthy (hunter_api_key E) = true ->
          CacheService.get E "hunter" ("hunter_domain:" ++ domain) w
          = (Ok cached, w1) ->
          truthy cached = false ->
          existsb is_http
            (events (snd (generate_email E first_name last_name domain w)))
          = true).
Proof.
  intros E first_name last_name domain w.
  assert (Hworld : snd (generate_email E first_name last_name domain w)
                   = snd (get_email_pattern E domain w)).
  { unfold generate_email, bind, ret, raise.
    destruct (get_email_pattern E domain w) as [[pattern|x] w']; [|reflexivity].
    destruct (negb (truthy pattern)); [reflexivity|].
    now destruct pattern. }
  split; [exact Hworld|]. split; [|split].
  - intros p w' Hpat Hp. unfold generate_email, bind, ret.
    rewrite Hpat. simpl. apply String.eqb_neq in Hp. rewrite Hp. simpl.
    now rewrite fill_pattern_substituted.
  - intros pattern w' Hpat Hfalsy. unfold generate_email, bind, ret.
    rewrite Hpat, Hfalsy. reflexivity.
  - intros cached w1 Hkey Hget Hfalsy. rewrite Hworld.
    unfold get_email_pattern, domain_search, bind, ret, lift.
    rewrite Hget, Hfalsy.
    pose proof (fetch_logs_http E domain ("hunter_domain:" ++ domain) true w1
                  Hkey) as Hhttp.
    destruct (domain_search_fetch E domain ("hunter_domain:" ++ domain) true w1)
      as [[data|x] w2]; simpl in Hhttp |- *; [|assumption].
    destruct (truthy data); [|assumption].
    now destruct (val_get data "pattern").
Qed.

Lemma generate_email_looks_up_then_fills_example :
  GeneratorSpec.substituted online "{f}{last}@Acme.com" "John" "Doe"
  = "jdoe@acme.com"
  /\ GeneratorSpec.substituted online "{first}.{last}@acme.com" "John" "Doe"
     = "john.doe@acme.com"
  /\ generate_email online "John" "Doe" "acme.com" empty_world
     = (Ok (VStr "john.doe@acme.com"),
        snd (get_email_pattern online "acme.com" empty_world)).
Proof.
  split; [reflexivity|]. split; [reflexivity|].
  refine (proj1 (proj2 (generate_email_looks_up_then_fills
                          online "John" "Doe" "acme.com" empty_world))
            "{first}.{last}@acme.com" _ eq_refl _).
  discriminate.
Defined.

(** C8, as stated, fails: with a key configured and nothing cached,
    computing the address sends a request to the provider. *)
Lemma generate_email_calls_the_network :
  fst (generate_email online "John" "Doe" "acme.com" empty_world)
  = Ok (VStr "john.doe@acme.com")
  /\ events (snd (generate_email online "John" "Doe" "acme.com" empty_world))
     = [ EvRedis "GET" "cache:hunter:hunter_domain:acme.com";
         EvHttp "https://api.hunter.io/v2/domain-search"
                [("domain", VStr "acme.com"); ("api_key", VStr "hunter-key")];
         EvRedis "SETEX" "cache:hunter:hunter_domain:acme.com" ]
  /\ existsb is_http
       (events (snd (generate_email online "John" "Doe" "acme.com"
                                    empty_world))) = true.
Proof. repeat split. Qed.

End GeneratorClaims.

(** ** The collector *)

Section CollectorClaims.
Import Py Sys DataCollector Samples.

(** C5.  With neither a company name nor a domain (absent or empty),
    [collect_company_data] raises [ValueError] at once: the world is
    the one it was called in, with no call logged. *)
Theorem no_identity_is_refused :
  forall (E : env) (linkedin : LinkedIn.Scraper)
         (company_name domain : option string) (use_cache : bool) (w : world),
    str_truthy company_name = false ->
    str_truthy domain = false ->
    collect_company_data E linkedin company_name domain use_cache w
    = (Raise (ValueError "Either company_name or domain must be provided"), w).
Proof.
  intros E linkedin company_name domain use_cache w Hname Hdomain.
  unfold collect_company_data. rewrite Hname, Hdomain. reflexivity.
Qed.

Lemma no_identity_is_refused_example :
  collect_company_data online (LinkedIn.mock_linkedin_scraper online)
                       None None true empty_world
  = (Raise (ValueError "Either company_name or domain must be provided"),
     empty_world)
  /\ events empty_world = [].
Proof.
  split; [|reflexivity].
  exact (no_identity_is_refused online (LinkedIn.mock_linkedin_scraper online)
           None None true empty_world eq_refl eq_refl).
Defined.

End CollectorClaims.

(** ** Merging the sources *)

Section MergeFacts.
Import Py Sys DataCollector Fields Samples.
Variable E : env.

Lemma aggregated_set_aggregated (r d : dict) :
  aggregated (set_aggregated r d) = d.
Proof.
  unfold aggregated, set_aggregated. rewrite get_setitem. reflexivity.
Qed.

Lemma get_set_aggregated (r d : dict) :
  get (set_aggregated r d) "aggregated_data" = VDict d.
Proof. unfold set_aggregated. rewrite get_setitem. reflexivity. Qed.

Lemma frame_refl (r : dict) : frame r r.
Proof. unfold frame. auto. Qed.

Lemma frame_hunter_data (r r' : dict) (v : pyval) :
  frame r r' -> frame r (setitem r' "hunter_data" v).
Proof.
  intros [Hl [Hc [Hd Hk]]]. unfold frame, aggregated.
  rewrite !get_setitem. simpl. auto.
Qed.

Lemma frame_own_field (r r' : dict) (k0 : string) (v : pyval) :
  k0 = "email_pattern" \/ k0 = "total_emails_found" ->
  frame r r' ->
  frame r (set_aggregated r' (setitem (aggregated r') k0 v)).
Proof.
  intros Hk0 [Hl [Hc [Hd Hk]]]. unfold frame.
  rewrite aggregated_set_aggregated, get_set_aggregated.
  unfold set_aggregated. rewrite !get_setitem. simpl.
  repeat split; auto.
  intros k Hp Ht. rewrite get_setitem.
  destruct (String.eqb k k0) eqn:Hkk; [|now apply Hk].
  apply String.eqb_eq in Hkk. subst k0. destruct Hk0; congruence.
Qed.

Create HintDb frame.
Hint Resolve frame_refl frame_hunter_data frame_own_field : frame.

(** Closes a branch of the step: the result is there, and framed. *)
Ltac framed := do 2 eexists; split; [reflexivity | eauto 8 with frame].

(** The email-discovery step never raises and keeps to its frame. *)
Lemma collect_hunter_frame (domain : option string) (use_cache : bool)
  (r : dict) (w : world) :
  exists r' w',
    collect_hunter E domain use_cache r w = (Ok r', w') /\ frame r r'.
Proof.
  unfold collect_hunter, try_except, bind, ret, lift.
  destruct domain as [d|]; [|framed].
  destruct (str_truthy (Some d) && HunterService.is_available E)%bool;
    [|framed].
  destruct (HunterService.domain_search E d use_cache w) as [[hd|x] w'];
    [|framed].
  destruct (truthy hd); [|framed].
  destruct (val_get hd "pattern") as [pattern|]; [|framed].
  destruct (val_get_default hd "total" (VInt 0)) as [total|]; framed.
Qed.

Lemma get_default_dict (d : dict) (k : string) (x : dict) (dflt : pyval) :
  get d k = VDict x -> get_default d k dflt = VDict x.
Proof.
  unfold get, get_default. destruct (lookup d k); [auto | discriminate].
Qed.

Lemma get_update (items : dict) (d : dict) (k : string) :
  NoDup (map fst items) ->
  get (update d items) k
  = match lookup items k with
    | Some v => v
    | None => get d k
    end.
Proof.
  intros Hnd. unfold get, get_default. rewrite lookup_update by assumption.
  now destruct (lookup items k).
Qed.

Lemma clearbit_fields_distinct : NoDup clearbit_fields.
Proof.
  unfold clearbit_fields.
  repeat (constructor; [simpl; intuition discriminate|]). constructor.
Qed.

(** The normalized record has the fixed fields, each once. *)
Lemma extract_fields (cd : pyval) (info : dict) :
  truthy cd = true ->
  ClearbitService.extract_company_info cd = Ok info ->
  map fst info = clearbit_fields.
Proof.
  intros Ht Hinfo. unfold ClearbitService.extract_company_info in Hinfo.
  rewrite Ht in Hinfo. simpl in Hinfo.
  repeat match type of Hinfo with
         | rbind ?r _ = Ok _ =>
             destruct r; simpl in Hinfo; [|discriminate Hinfo]
         end.
  injection Hinfo as <-. reflexivity.
Qed.

(** [a or b] on a dictionary and a value that is one. *)
Lemma or_get_dict (merged L : dict) (k : string) :
  or_get merged (VDict L) k = Ok (py_or (get merged k) (get L k)).
Proof.
  unfold or_get, py_or. simpl. now destruct (truthy (get merged k)).
Qed.

(** The merge, when the scraped profile is a dictionary that is not
    empty. *)
Lemma merge_with_profile (r merged L : dict) :
  get r "aggregated_data" = VDict merged ->
  get r "linkedin_data" = VDict L -> L <> [] ->
  exists final,
    _merge_company_data r = Ok final
    /\ (forall k, In k or_merged_fields ->
                  get final k = py_or (get merged k) (get L k))
    /\ get final "linkedin_url" = get L "linkedin_url".
Proof.
  intros Hagg Hlinkedin HL. unfold _merge_company_data.
  rewrite (get_default_dict r "aggregated_data" merged (VDict []) Hagg).
  rewrite Hlinkedin.
  assert (Htruthy : truthy (VDict L) = true) by (destruct L; simpl; congruence).
  rewrite Htruthy, !or_get_dict. simpl.
  eexists. split; [reflexivity|].
  assert (Hnd : NoDup (map fst
            [ ("name", py_or (get merged "name") (get L "name"));
              ("description",
               py_or (get merged "description") (get L "description"));
              ("industry", py_or (get merged "industry") (get L "industry"));
              ("employee_count",
               py_or (get merged "employee_count") (get L "employee_count"));
              ("website", py_or (get merged "website") (get L "website"));
              ("linkedin_url", get L "linkedin_url") ])).
  { simpl. repeat (constructor; [simpl; intuition discriminate|]). constructor. }
  split.
  - intros k Hk. rewrite get_setitem.
    simpl in Hk.
    destruct Hk as [<-|[<-|[<-|[<-|[<-|[]]]]]]; simpl;
      rewrite (get_update _ merged _ Hnd); reflexivity.
  - rewrite get_setitem. simpl. rewrite (get_update _ merged _ Hnd). reflexivity.
Qed.

(** The scraper step, when the scraper answers. *)
Lemma collect_linkedin_found (linkedin : LinkedIn.Scraper) (name : string)
  (use_cache : bool) (r : dict) (w w1 : world) (v : pyval) :
  name <> "" ->
  LinkedIn.search_company linkedin name use_cache w = (Ok v, w1) ->
  collect_linkedin linkedin (Some name) use_cache r w
  = (Ok (setitem r "linkedin_data" v), w1).
Proof.
  intros Hname Hsearch. apply String.eqb_neq in Hname.
  unfold collect_linkedin, str_truthy. rewrite Hname. simpl.
  unfold try_except, bind, ret. now rewrite Hsearch.
Qed.

(** The firmographic step, when the provider answers with a record that
    normalizes. *)
Lemma collect_clearbit_found (domain : string) (use_cache : bool) (r : dict)
  (w1 w2 : world) (cd : pyval) (info : dict) :
  domain <> "" ->
  ClearbitService.is_available E = true ->
  ClearbitService.enrich_company E domain use_cache w1 = (Ok cd, w2) ->
  truthy cd = true ->
  ClearbitService.extract_company_info cd = Ok info ->
  collect_clearbit E (Some domain) use_cache r w1
  = (Ok (set_aggregated (setitem r "clearbit_data" cd)
           (update (aggregated (setitem r "clearbit_data" cd)) info)), w2).
Proof.
  intros Hdomain Havail Henrich Hcd Hinfo. apply String.eqb_neq in Hdomain.
  unfold collect_clearbit, str_truthy. rewrite Hdomain, Havail. simpl.
  unfold try_except, bind, ret, lift. now rewrite Henrich, Hcd, Hinfo.
Qed.

(** The firmographic step, when the provider answers with a record that
    does not normalize: the answer is kept, the merged record is not
    touched. *)
Lemma collect_clearbit_unextracted (domain : string) (use_cache : bool)
  (r : dict) (w1 w2 : world) (cd : pyval) (e : exn) :
  domain <> "" ->
  ClearbitService.is_available E = true ->
  ClearbitService.enrich_company E domain use_cache w1 = (Ok cd, w2) ->
  truthy cd = true ->
  ClearbitService.extract_company_info cd = Raise e ->
  collect_clearbit E (Some domain) use_cache r w1
  = (Ok (setitem r "clearbit_data" cd), w2).
Proof.
  intros Hdomain Havail Henrich Hcd Hinfo. apply String.eqb_neq in Hdomain.
  unfold collect_clearbit, str_truthy. rewrite Hdomain, Havail. simpl.
  unfold try_except, bind, ret, lift. now rewrite Henrich, Hcd, Hinfo.
Qed.

End MergeFacts.

Section MergeClaims.
Import Py Sys DataCollector Fields Samples MoreSamples.

(** C2, as the code has it.  When the scraper returns a profile and the
    firmographic provider an answer, each of the merged [name],
    [description], [industry], [employee_count] and [website] is the
    value [extract_company_info] makes of the answer where this is
    truthy (not null, not empty, not zero), and the scraped value
    otherwise; when the answer does not normalize, that is when
    [extract_company_info] raises on it, all five are the scraped
    values.  The merged [linkedin_url] is the scraped one in either
    case. *)
Theorem merge_prefers_truthy_firmographic :
  forall (E : env) (linkedin : LinkedIn.Scraper) (name domain : string)
         (use_cache : bool) (w w1 w2 : world) (L : dict) (cd : pyval),
    name <> "" -> domain <> "" ->
    ClearbitService.is_available E = true ->
    LinkedIn.search_company linkedin name use_cache w = (Ok (VDict L), w1) ->
    L <> [] ->
    ClearbitService.enrich_company E domain use_cache w1 = (Ok cd, w2) ->
    truthy cd = true ->
    exists result w',
      collect_company_data E linkedin (Some name) (Some domain) use_cache w
      = (Ok result, w')
      /\ (forall info,
            ClearbitService.extract_company_info cd = Ok info ->
            forall k, In k or_merged_fields ->
              get (aggregated result) k = py_or (get info k) (get L k))
      /\ (forall e,
            ClearbitService.extract_company_info cd = Raise e ->
            forall k, In k or_merged_fields ->
              get (aggregated result) k = get L k)
      /\ get (aggregated result) "linkedin_url" = get L "linkedin_url".
Proof.
  intros E linkedin name domain use_cache w w1 w2 L cd
         Hname Hdomain Havail Hsearch HL Henrich Hcd.
  assert (Hident : (negb (str_truthy (Some name))
                    && negb (str_truthy (Some domain)))%bool = false).
  { unfold str_truthy. apply String.eqb_neq in Hname. now rewrite Hname. }
  unfold collect_company_data. rewrite Hident.
  unfold bind at 1. unfold utcnow_isoformat at 1.
  unfold bind at 1.
  rewrite (collect_linkedin_found linkedin name use_cache _ w w1 (VDict L)
             Hname Hsearch).
  unfold bind at 1.
  destruct (ClearbitService.extract_company_info cd) as [info|e] eqn:Hinfo.
  - rewrite (collect_clearbit_found E domain use_cache _ w1 w2 cd info
               Hdomain Havail Henrich Hcd Hinfo).
    unfold bind at 1.
    match goal with
    | |- context [collect_hunter E ?d ?u ?r ?w0] =>
        destruct (collect_hunter_frame E d u r w0)
          as [r3 [w3 [Hhunter [Hl [_ [Hd Hk]]]]]];
        set (r2 := r) in *
    end.
    rewrite Hhunter.
    assert (Hagg2 : aggregated r2 = update [] info).
    { unfold r2. now rewrite aggregated_set_aggregated. }
    assert (Hagg : get r3 "aggregated_data" = VDict (aggregated r3)).
    { apply Hd. unfold r2.
      now rewrite get_set_aggregated, aggregated_set_aggregated. }
    assert (Hprofile : get r3 "linkedin_data" = VDict L).
    { rewrite Hl. unfold r2, set_aggregated. rewrite !get_setitem.
      reflexivity. }
    destruct (merge_with_profile r3 (aggregated r3) L Hagg Hprofile HL)
      as [final [Hmerge [Hfields Hurl]]].
    unfold bind, lift, ret. rewrite Hmerge.
    exists (set_aggregated r3 final), w3. split; [reflexivity|].
    split; [|split; [intros e He; discriminate He|]];
      [|now rewrite aggregated_set_aggregated].
    intros info' Hinfo' k Hin. injection Hinfo' as <-.
    rewrite aggregated_set_aggregated, (Hfields k Hin).
    replace (get (aggregated r3) k) with (get info k); [reflexivity|].
    rewrite Hk, Hagg2.
    + rewrite get_update
        by (rewrite (extract_fields cd info Hcd Hinfo);
            apply clearbit_fields_distinct).
      unfold get, get_default. now destruct (lookup info k).
    + simpl in Hin. intuition (subst; discriminate).
    + simpl in Hin. intuition (subst; discriminate).
  - rewrite (collect_clearbit_unextracted E domain use_cache _ w1 w2 cd e
               Hdomain Havail Henrich Hcd Hinfo).
    unfold bind at 1.
    match goal with
    | |- context [collect_hunter E ?d ?u ?r ?w0] =>
        destruct (collect_hunter_frame E d u r w0)
          as [r3 [w3 [Hhunter [Hl [_ [Hd Hk]]]]]];
        set (r2 := r) in *
    end.
    rewrite Hhunter.
    assert (Hagg : get r3 "aggregated_data" = VDict (aggregated r3)).
    { apply Hd. reflexivity. }
    assert (Hprofile : get r3 "linkedin_data" = VDict L).
    { rewrite Hl. unfold r2. rewrite !get_setitem. reflexivity. }
    destruct (merge_with_profile r3 (aggregated r3) L Hagg Hprofile HL)
      as [final [Hmerge [Hfields Hurl]]].
    unfold bind, lift, ret. rewrite Hmerge.
    exists (set_aggregated r3 final), w3. split; [reflexivity|].
    split; [intros info Hi; discriminate Hi|].
    split; [|now rewrite aggregated_set_aggregated].
    intros e' _ k Hin.
    rewrite aggregated_set_aggregated, (Hfields k Hin).
    replace (get (aggregated r3) k) with VNone; [reflexivity|].
    rewrite Hk.
    + reflexivity.
    + simpl in Hin. intuition (subst; discriminate).
    + simpl in Hin. intuition (subst; discriminate).
Qed.

(** The example of the specification: the firmographic industry is
    Fintech, the scraped one Banking, and the merged one is Fintech.
    With an answer that does not normalize, the merged name and
    industry are the scraped ones. *)
Lemma merge_prefers_truthy_firmographic_example :
  merged_field
    (collect_company_data online banking_scraper (Some "Acme Inc")
                          (Some "acme.com") false empty_world)
    "industry" = VStr "Fintech"
  /\ get acme_info "industry" = VStr "Fintech"
  /\ get banking_profile "industry" = VStr "Banking"
  /\ merged_field
       (collect_company_data null_geo banking_scraper (Some "Acme Inc")
                             (Some "acme.com") false empty_world)
       "name" = VStr "ACME"
  /\ merged_field
       (collect_company_data null_geo banking_scraper (Some "Acme Inc")
                             (Some "acme.com") false empty_world)
       "industry" = VStr "Banking"
  /\ (exists result w',
        collect_company_data online banking_scraper (Some "Acme Inc")
                             (Some "acme.com") false empty_world
        = (Ok result, w')
        /\ (forall info,
              ClearbitService.extract_company_info acme_clearbit = Ok info ->
              forall k, In k or_merged_fields ->
                get (aggregated result) k
                = py_or (get info k) (get banking_profile k))
        /\ (forall e,
              ClearbitService.extract_company_info acme_clearbit = Raise e ->
              forall k, In k or_merged_fields ->
                get (aggregated result) k = get banking_profile k)
        /\ get (aggregated result) "linkedin_url"
           = get banking_profile "linkedin_url").
Proof.
  do 5 (split; [reflexivity|]).
  refine (merge_prefers_truthy_firmographic online banking_scraper
            "Acme Inc" "acme.com" false empty_world empty_world
            (snd (ClearbitService.enrich_company online "acme.com" false
                                                 empty_world))
            banking_profile acme_clearbit
            _ _ eq_refl eq_refl _ eq_refl eq_refl); discriminate.
Defined.

(** C2, as stated, fails on [linkedin_url], which both sources provide:
    the firmographic record carries the handle, and the merged record
    has the scraped address.  A firmographic value that is not null but
    falsy loses too: an employee count of 0 gives way to the scraped
    150. *)
Lemma merge_takes_scraped_linkedin_url :
  get acme_info "linkedin_url" = VStr "company/acme"
  /\ merged_field
       (data_collector_company_data online (Some "Acme") (Some "acme.com")
                                    false empty_world)
       "linkedin_url" = VStr "https://www.linkedin.com/company/acme/"
  /\ get acme_info "employee_count" = VInt 0
  /\ merged_field
       (data_collector_company_data online (Some "Acme") (Some "acme.com")
                                    false empty_world)
       "employee_count" = VInt 150.
Proof. repeat split. Qed.

End MergeClaims.

(* ================================================================== *)
(** * Further properties of the code *)
(* ================================================================== *)

(** ** The cache: expiry, failure, overwriting, keys *)

Section CacheLife.
Import Py Sys CacheService CacheMore Samples.
Variable E : env.

(** The world a successful [set] leaves. *)
Lemma set_world (ns id s : string) (data : pyval) (ttl : option Z)
  (w : world) :
  json_dumps E data = Ok s ->
  redis_fault E (List.length (events w)) = false ->
  0 < ttl_or_default E ttl ->
  set E ns id data ttl w
  = (Ok true,
     set_db ((_generate_key ns id, (s, now w + ttl_or_default E ttl))
             :: db_remove (db w) (_generate_key ns id))
            (log (EvRedis "SETEX" (_generate_key ns id)) w)).
Proof.
  intros Hdumps Hup Hpos.
  unfold set, try_except, bind, redis_setex, command, ret, lift.
  rewrite Hdumps, Hup.
  replace (ttl_or_default E ttl <=? 0) with false
    by (symmetry; apply Z.leb_gt; lia).
  reflexivity.
Qed.

(** What the three readers answer on a key with nothing live. *)
Lemma readers_on_dead_key (ns id : string) (w : world) :
  live w (_generate_key ns id) = None ->
  fst (get E ns id w) = Ok VNone
  /\ fst (exists_ E ns id w) = Ok false
  /\ fst (get_ttl E ns id w) = Ok None.
Proof.
  intros Hdead.
  unfold get, exists_, get_ttl, try_except, bind, redis_get, redis_exists,
    redis_ttl, command, ret, lift.
  destruct (redis_fault E (List.length (events w))); [now auto|].
  unfold count_live.
  replace (live (log (EvRedis "GET" (_generate_key ns id)) w)
                (_generate_key ns id)) with (@None string).
  replace (live (log (EvRedis "EXISTS" (_generate_key ns id)) w)
                (_generate_key ns id)) with (@None string).
  repeat split; try reflexivity.
  unfold live in Hdead. simpl.
  destruct (db_find (db w) (_generate_key ns id)) as [[txt expiry]|];
    [|reflexivity].
  destruct (now w <? expiry); [discriminate | reflexivity].
Qed.

End CacheLife.

Section CacheLifeClaims.
Import Py Sys CacheService CacheMore Samples.

(** X1.  An entry is gone once its expiry has passed: from then on
    [get] returns [None], [exists] false and [get_ttl] [None], whether
    Redis is reachable or not. *)
Theorem cache_entry_expires :
  forall (E : env) (ns id s : string) (value : pyval) (ttl : option Z)
         (w : world) (d : Z),
    json_dumps E value = Ok s ->
    redis_fault E (List.length (events w)) = false ->
    0 < ttl_or_default E ttl ->
    ttl_or_default E ttl <= d ->
    exists w1,
      set E ns id value ttl w = (Ok true, w1)
      /\ fst (get E ns id (elapse d w1)) = Ok VNone
      /\ fst (exists_ E ns id (elapse d w1)) = Ok false
      /\ fst (get_ttl E ns id (elapse d w1)) = Ok None.
Proof.
  intros E ns id s value ttl w d Hdumps Hup Hpos Hlate.
  eexists. split; [apply set_world with (s := s); assumption|].
  apply readers_on_dead_key.
  unfold live. simpl. rewrite String.eqb_refl.
  replace (now w + d <? now w + ttl_or_default E ttl) with false
    by (symmetry; apply Z.ltb_ge; lia).
  reflexivity.
Qed.

Lemma cache_entry_expires_example :
  fst (get offline "ns" "id"
         (elapse 60 (snd (set offline "ns" "id" a1 (Some 60) empty_world))))
  = Ok VNone
  /\ exists w1,
       set offline "ns" "id" a1 (Some 60) empty_world = (Ok true, w1)
       /\ fst (get offline "ns" "id" (elapse 60 w1)) = Ok VNone
       /\ fst (exists_ offline "ns" "id" (elapse 60 w1)) = Ok false
       /\ fst (get_ttl offline "ns" "id" (elapse 60 w1)) = Ok None.
Proof.
  split; [reflexivity|].
  refine (cache_entry_expires offline "ns" "id" a1_text a1 (Some 60)
            empty_world 60 eq_refl eq_refl _ _); simpl; lia.
Defined.

(** X2.  Until then, with Redis reachable, [exists] answers true and
    [get_ttl] counts the seconds left: the expiry less the time
    elapsed. *)
Theorem cache_ttl_counts_down :
  forall (E : env) (ns id s : string) (value : pyval) (ttl : option Z)
         (w : world) (d : Z),
    json_dumps E value = Ok s ->
    redis_fault E (List.length (events w)) = false ->
    redis_fault E (S (List.length (events w))) = false ->
    0 <= d < ttl_or_default E ttl ->
    exists w1,
      set E ns id value ttl w = (Ok true, w1)
      /\ fst (exists_ E ns id (elapse d w1)) = Ok true
      /\ fst (get_ttl E ns id (elapse d w1))
         = Ok (Some (ttl_or_default E ttl - d)).
Proof.
  intros E ns id s value ttl w d Hdumps Hup0 Hup1 Hd.
  eexists. split; [apply set_world with (s := s); [assumption | assumption | lia]|].
  unfold exists_, get_ttl, try_except, bind, redis_exists, redis_ttl, command,
    ret, count_live, live.
  simpl. rewrite length_app. simpl.
  replace (List.length (events w) + 1)%nat with (S (List.length (events w)))
    by lia.
  rewrite Hup1, String.eqb_refl.
  replace (now w + d <? now w + ttl_or_default E ttl) with true
    by (symmetry; apply Z.ltb_lt; lia).
  simpl.
  replace (0 <? now w + ttl_or_default E ttl - (now w + d)) with true
    by (symmetry; apply Z.ltb_lt; lia).
  split; [reflexivity|]. do 2 f_equal. lia.
Qed.

Lemma cache_ttl_counts_down_example :
  exists w1,
    set offline "ns" "id" a1 (Some 60) empty_world = (Ok true, w1)
    /\ fst (exists_ offline "ns" "id" (elapse 45 w1)) = Ok true
    /\ fst (get_ttl offline "ns" "id" (elapse 45 w1)) = Ok (Some (60 - 45)).
Proof.
  refine (cache_ttl_counts_down offline "ns" "id" a1_text a1 (Some 60)
            empty_world 45 eq_refl eq_refl eq_refl _); simpl; lia.
Defined.

(** X3.  An expiry of 0, like none at all, means the configured
    default: the entry is not dropped at once but read back for
    [cache_ttl] seconds. *)
Theorem zero_ttl_means_default :
  forall (E : env) (ns id s : string) (value : pyval) (ttl : option Z)
         (w : world) (d : Z),
    ttl = None \/ ttl = Some 0 ->
    json_dumps E value = Ok s -> s <> "" -> json_loads E s = Ok value ->
    redis_fault E (List.length (events w)) = false ->
    redis_fault E (S (List.length (events w))) = false ->
    0 <= d < cache_ttl E ->
    exists w1,
      set E ns id value ttl w = (Ok true, w1)
      /\ fst (get E ns id (elapse d w1)) = Ok value.
Proof.
  intros E ns id s value ttl w d Httl Hdumps Hs Hloads Hup0 Hup1 Hd.
  assert (Hdef : ttl_or_default E ttl = cache_ttl E)
    by (destruct Httl; subst; reflexivity).
  eexists. split; [apply set_world with (s := s); [assumption | assumption | lia]|].
  rewrite (get_hit E ns id s value); [reflexivity | | | assumption..].
  - simpl. rewrite length_app. simpl.
    now replace (List.length (events w) + 1)%nat
      with (S (List.length (events w))) by lia.
  - unfold live. simpl. rewrite String.eqb_refl, Hdef.
    replace (now w + d <? now w + cache_ttl E) with true
      by (symmetry; apply Z.ltb_lt; lia).
    reflexivity.
Qed.

Lemma zero_ttl_means_default_example :
  exists w1,
    set offline "ns" "id" a1 (Some 0) empty_world = (Ok true, w1)
    /\ fst (get offline "ns" "id" (elapse 604799 w1)) = Ok a1.
Proof.
  refine (zero_ttl_means_default offline "ns" "id" a1_text a1 (Some 0)
            empty_world 604799 (or_intror eq_refl) eq_refl _ eq_refl
            eq_refl eq_refl _).
  - discriminate.
  - simpl. lia.
Defined.

(** X4.  [set] never raises.  It answers true only when the value
    encodes, the command went through and the expiry in force is
    positive, and then the entry holds the encoded text until that
    expiry; when it answers false the stored entries are as they
    were. *)
Theorem set_fails_closed :
  forall (E : env) (ns id : string) (value : pyval) (ttl : option Z)
         (w : world),
    exists b w',
      set E ns id value ttl w = (Ok b, w')
      /\ (b = true ->
          exists s,
            json_dumps E value = Ok s
            /\ redis_fault E (List.length (events w)) = false
            /\ 0 < ttl_or_default E ttl
            /\ db_find (db w') (_generate_key ns id)
               = Some (s, now w + ttl_or_default E ttl))
      /\ (b = false -> db w' = db w /\ now w' = now w).
Proof.
  intros E ns id value ttl w.
  unfold set, try_except, bind, redis_setex, command, ret, lift.
  destruct (json_dumps E value) as [s|x] eqn:Hdumps.
  - destruct (redis_fault E (List.length (events w))) eqn:Hup.
    + do 2 eexists. split; [reflexivity|]. split; [discriminate|now auto].
    + destruct (ttl_or_default E ttl <=? 0) eqn:Httl.
      * do 2 eexists. split; [reflexivity|]. split; [discriminate|now auto].
      * do 2 eexists. split; [reflexivity|]. split; [|discriminate].
        intros _. exists s. apply Z.leb_gt in Httl.
        repeat split; [assumption|].
        simpl. now rewrite String.eqb_refl.
  - do 2 eexists. split; [reflexivity|]. split; [discriminate|now auto].
Qed.

(** X5.  The last write wins: of two values stored under the same
    namespace and identifier, [get] returns the second. *)
Theorem last_write_wins :
  forall (E : env) (ns id s1 s2 : string) (v1 v2 : pyval) (ttl1 ttl2 : Z)
         (w : world) (d : Z),
    json_dumps E v1 = Ok s1 ->
    json_dumps E v2 = Ok s2 -> s2 <> "" -> json_loads E s2 = Ok v2 ->
    0 < ttl1 -> 0 <= d < ttl2 ->
    (forall n, redis_fault E n = false) ->
    exists w1 w2,
      set E ns id v1 (Some ttl1) w = (Ok true, w1)
      /\ set E ns id v2 (Some ttl2) w1 = (Ok true, w2)
      /\ fst (get E ns id (elapse d w2)) = Ok v2.
Proof.
  intros E ns id s1 s2 v1 v2 ttl1 ttl2 w d Hd1 Hd2 Hs2 Hl2 Ht1 Hd Hup.
  assert (Hpos : forall t, 0 < t -> ttl_or_default E (Some t) = t).
  { intros t Ht. simpl. replace (t =? 0) with false; [reflexivity|].
    symmetry. apply Z.eqb_neq. lia. }
  do 2 eexists. split; [|split].
  - apply set_world with (s := s1); [assumption | apply Hup | rewrite Hpos; lia].
  - apply set_world with (s := s2); [assumption | apply Hup | rewrite Hpos; lia].
  - rewrite (get_hit E ns id s2 v2); [reflexivity | apply Hup | | assumption..].
    rewrite (Hpos ttl2) by lia.
    unfold live. simpl. rewrite String.eqb_refl.
    replace (now w + d <? now w + ttl2) with true
      by (symmetry; apply Z.ltb_lt; lia).
    reflexivity.
Qed.

Lemma last_write_wins_example :
  exists w1 w2,
    set offline "ns" "id" VNone (Some 5) empty_world = (Ok true, w1)
    /\ set offline "ns" "id" a1 (Some 60) w1 = (Ok true, w2)
    /\ fst (get offline "ns" "id" (elapse 30 w2)) = Ok a1.
Proof.
  refine (last_write_wins offline "ns" "id" "null" a1_text VNone a1 5 60
            empty_world 30 eq_refl eq_refl _ eq_refl _ _ (fun _ => eq_refl)).
  - discriminate.
  - lia.
  - lia.
Defined.

End CacheLifeClaims.

Section CacheKeys.
Import Py Sys CacheService CacheMore Notions Samples.

Lemma append_assoc (a b c : string) : (a ++ b) ++ c = a ++ (b ++ c).
Proof. induction a as [|x a IH]; simpl; [reflexivity | now rewrite IH]. Qed.

(** A prefix with no colon is cut off at the first colon. *)
Lemma split_at_colon (a a' b b' : string) :
  has_char ":"%char a = false -> has_char ":"%char a' = false ->
  a ++ ":" ++ b = a' ++ ":" ++ b' -> a = a' /\ b = b'.
Proof.
  revert a'. induction a as [|x a IH]; intros [|x' a'] Ha Ha' Heq;
    simpl in *.
  - injection Heq as <-. now split.
  - injection Heq as <- _.
    apply orb_false_elim in Ha'. destruct Ha' as [Hx _].
    now rewrite Ascii.eqb_refl in Hx.
  - injection Heq as -> _.
    apply orb_false_elim in Ha. destruct Ha as [Hx _].
    now rewrite Ascii.eqb_refl in Hx.
  - injection Heq as <- Heq.
    apply orb_false_elim in Ha. apply orb_false_elim in Ha'.
    destruct (IH a') as [<- <-]; tauto.
Qed.

Lemma db_find_remove_other (d : list (string * (string * Z)))
  (k k' : string) :
  k <> k' -> db_find (db_remove d k) k' = db_find d k'.
Proof.
  intros Hne. unfold db_remove.
  induction d as [|[k0 e0] d IH]; simpl; [reflexivity|].
  destruct (String.eqb k k0) eqn:Hk; simpl.
  - apply String.eqb_eq in Hk. subst k0.
    replace (String.eqb k' k) with false; [assumption|].
    symmetry. apply String.eqb_neq. congruence.
  - now rewrite IH.
Qed.

(** X6.  Namespaces without a colon, as the ones the adapters use, keep
    apart: two different pairs of namespace and identifier have
    different keys, and neither [set] nor [delete] on one changes what
    is stored under the other. *)
Theorem namespaces_keep_apart :
  forall (E : env) (ns ns' id id' : string) (value : pyval) (ttl : option Z)
         (w : world),
    has_char ":"%char ns = false -> has_char ":"%char ns' = false ->
    (ns, id) <> (ns', id') ->
    _generate_key ns id <> _generate_key ns' id'
    /\ live (snd (set E ns id value ttl w)) (_generate_key ns' id')
       = live w (_generate_key ns' id')
    /\ live (snd (delete E ns id w)) (_generate_key ns' id')
       = live w (_generate_key ns' id').
Proof.
  intros E ns ns' id id' value ttl w Hns Hns' Hpair.
  assert (Hkeys : _generate_key ns id <> _generate_key ns' id').
  { unfold _generate_key. intros Heq. simpl in Heq.
    injection Heq as Heq.
    destruct (split_at_colon ns ns' id id' Hns Hns' Heq). congruence. }
  split; [assumption|]. split.
  - unfold set, try_except, bind, redis_setex, command, ret, lift.
    destruct (json_dumps E value); [|reflexivity].
    destruct (redis_fault E (List.length (events w))); [reflexivity|].
    destruct (ttl_or_default E ttl <=? 0); [reflexivity|].
    unfold live, set_db, log. cbn [snd db now db_find].
    replace (String.eqb (_generate_key ns' id') (_generate_key ns id))
      with false by (symmetry; apply String.eqb_neq; congruence).
    rewrite db_find_remove_other by exact Hkeys. reflexivity.
  - unfold delete, try_except, bind, redis_delete, command, ret.
    destruct (redis_fault E (List.length (events w))); [reflexivity|].
    unfold live, set_db, log. cbn [snd db now].
    rewrite db_find_remove_other by exact Hkeys. reflexivity.
Qed.

Lemma namespaces_keep_apart_example :
  _generate_key "hunter" "acme.com" <> _generate_key "clearbit" "acme.com"
  /\ live (snd (set offline "hunter" "acme.com" a1 None
                    (snd (set offline "clearbit" "acme.com" VNone None
                              empty_world))))
          (_generate_key "clearbit" "acme.com")
     = Some "null".
Proof.
  pose proof (namespaces_keep_apart offline "hunter" "clearbit" "acme.com"
                "acme.com" a1 None
                (snd (set offline "clearbit" "acme.com" VNone None empty_world))
                eq_refl eq_refl) as H.
  assert (Hpair : ("hunter", "acme.com") <> ("clearbit", "acme.com"))
    by discriminate.
  destruct (H Hpair) as [Hkeys [Hset _]].
  split; [exact Hkeys|]. rewrite Hset. reflexivity.
Defined.

(** X7.  A colon in the namespace breaks this: the namespace [a:b] with
    identifier [c] and the namespace [a] with identifier [b:c] share
    one key, so what is stored under the first is read under the
    second. *)
Theorem colon_in_namespace_collides :
  forall (E : env) (a b c s : string) (value : pyval) (ttl d : Z) (w : world),
    json_dumps E value = Ok s -> s <> "" -> json_loads E s = Ok value ->
    0 < ttl -> 0 <= d < ttl ->
    redis_fault E (List.length (events w)) = false ->
    redis_fault E (S (List.length (events w))) = false ->
    _generate_key (a ++ ":" ++ b) c = _generate_key a (b ++ ":" ++ c)
    /\ exists w1,
         set E (a ++ ":" ++ b) c value (Some ttl) w = (Ok true, w1)
         /\ fst (get E a (b ++ ":" ++ c) (elapse d w1)) = Ok value.
Proof.
  intros E a b c s value ttl d w Hdumps Hs Hloads Httl Hd Hup0 Hup1.
  assert (Hkey : _generate_key (a ++ ":" ++ b) c
                 = _generate_key a (b ++ ":" ++ c)).
  { unfold _generate_key. now rewrite !append_assoc. }
  split; [assumption|].
  assert (Hpos : ttl_or_default E (Some ttl) = ttl).
  { simpl. replace (ttl =? 0) with false; [reflexivity|].
    symmetry. apply Z.eqb_neq. lia. }
  destruct (set_stores E (a ++ ":" ++ b) c s value (Some ttl) w Hdumps Hup0)
    as [w1 [Hset [Hev Hlive]]]; [lia|].
  exists w1. split; [assumption|].
  rewrite (get_hit E a (b ++ ":" ++ c) s value (elapse d w1));
    [reflexivity | | | assumption..].
  - simpl. rewrite Hev, length_app. simpl.
    now replace (List.length (events w) + 1)%nat
      with (S (List.length (events w))) by lia.
  - rewrite <- Hkey. apply Hlive. lia.
Qed.

Lemma colon_in_namespace_collides_example :
  _generate_key "hunter:x" "y" = _generate_key "hunter" "x:y"
  /\ exists w1,
       set offline "hunter:x" "y" a1 (Some 60) empty_world = (Ok true, w1)
       /\ fst (get offline "hunter" "x:y" (elapse 1 w1)) = Ok a1.
Proof.
  refine (colon_in_namespace_collides offline "hunter" "x" "y" a1_text a1
            60 1 empty_world eq_refl _ eq_refl _ _ eq_refl eq_refl).
  - discriminate.
  - lia.
  - lia.
Defined.

(** X8.  [get_or_set] computes once: after a call that missed and
    fetched a non-null value the codec round-trips, a later call before
    the expiry returns that value after the one lookup, without running
    its fetch function. *)
Theorem get_or_set_computes_once :
  forall (E : env) (ns id s : string) (fetch later : M pyval)
         (ttl : option Z) (w w0 w1 : world) (v : pyval) (d : Z),
    get E ns id w = (Ok VNone, w0) ->
    fetch w0 = (Ok v, w1) -> v <> VNone ->
    json_dumps E v = Ok s -> s <> "" -> json_loads E s = Ok v ->
    redis_fault E (List.length (events w1)) = false ->
    redis_fault E (S (List.length (events w1))) = false ->
    0 <= d < ttl_or_default E ttl ->
    exists w2,
      get_or_set E ns id fetch ttl w = (Ok v, w2)
      /\ get_or_set E ns id later ttl (elapse d w2)
         = (Ok v, log (EvRedis "GET" (_generate_key ns id)) (elapse d w2)).
Proof.
  intros E ns id s fetch later ttl w w0 w1 v d
         Hmiss Hfetch Hv Hdumps Hs Hloads Hup1 Hup2 Hd.
  destruct (set_stores E ns id s v ttl w1 Hdumps Hup1)
    as [w2 [Hset [Hev Hlive]]]; [lia|].
  exists w2. split.
  - unfold get_or_set, bind, try_except, ret.
    rewrite Hmiss. simpl. rewrite Hfetch.
    rewrite (is_none_false v Hv). simpl. now rewrite Hset.
  - unfold get_or_set, bind, ret.
    rewrite (get_hit E ns id s v (elapse d w2)); [| | |assumption..].
    + now rewrite (is_none_false v Hv).
    + simpl. rewrite Hev, length_app. simpl.
      now replace (List.length (events w1) + 1)%nat
        with (S (List.length (events w1))) by lia.
    + apply Hlive. lia.
Qed.

Lemma get_or_set_computes_once_example :
  exists w2,
    get_or_set offline "ns" "id" (ret a1) (Some 60) empty_world = (Ok a1, w2)
    /\ get_or_set offline "ns" "id" (raise OtherError) (Some 60) (elapse 59 w2)
       = (Ok a1, log (EvRedis "GET" (_generate_key "ns" "id")) (elapse 59 w2)).
Proof.
  refine (get_or_set_computes_once offline "ns" "id" a1_text (ret a1)
            (raise OtherError) (Some 60) empty_world
            (log (EvRedis "GET" "cache:ns:id") empty_world)
            (log (EvRedis "GET" "cache:ns:id") empty_world)
            a1 59 eq_refl eq_refl _ eq_refl _ eq_refl eq_refl eq_refl _);
    try discriminate.
  simpl. lia.
Defined.

(** X9.  The readers only read: [get], [exists] and [get_ttl] never
    raise, leave the stored entries and the clock as they were, and log
    the one command they send. *)
Theorem readers_only_read :
  forall (E : env) (ns id : string) (w : world),
    (exists v w', get E ns id w = (Ok v, w')
       /\ db w' = db w /\ now w' = now w
       /\ events w' = (events w ++ [EvRedis "GET" (_generate_key ns id)])%list)
    /\ (exists b w', exists_ E ns id w = (Ok b, w')
       /\ db w' = db w /\ now w' = now w
       /\ events w'
          = (events w ++ [EvRedis "EXISTS" (_generate_key ns id)])%list)
    /\ (exists t w', get_ttl E ns id w = (Ok t, w')
       /\ db w' = db w /\ now w' = now w
       /\ events w' = (events w ++ [EvRedis "TTL" (_generate_key ns id)])%list).
Proof.
  intros E ns id w.
  unfold get, exists_, get_ttl, try_except, bind, redis_get, redis_exists,
    redis_ttl, command, ret, lift.
  destruct (redis_fault E (List.length (events w))).
  - repeat split; do 2 eexists; repeat split; reflexivity.
  - split; [|split; do 2 eexists; repeat split; reflexivity].
    destruct (live (log (EvRedis "GET" (_generate_key ns id)) w)
                   (_generate_key ns id)) as [txt|].
    + destruct (negb (String.eqb txt "")).
      * destruct (json_loads E txt);
          do 2 eexists; repeat split; reflexivity.
      * do 2 eexists; repeat split; reflexivity.
    + do 2 eexists; repeat split; reflexivity.
Qed.

End CacheKeys.

(** ** What the adapters send, and what they never send *)

Section Effects.
Import Py Sys Notions.

Lemma adds_ret {A} (P : event -> bool) (a : A) : adds P (ret a).
Proof. intros w. exists []. simpl. now rewrite app_nil_r. Qed.

Lemma adds_raise {A} (P : event -> bool) (e : exn) : adds P (@raise A e).
Proof. intros w. exists []. simpl. now rewrite app_nil_r. Qed.

Lemma adds_lift {A} (P : event -> bool) (r : result A) : adds P (lift r).
Proof. intros w. exists []. simpl. now rewrite app_nil_r. Qed.

Lemma adds_bind {A B} (P : event -> bool) (m : M A) (k : A -> M B) :
  adds P m -> (forall a, adds P (k a)) -> adds P (bind m k).
Proof.
  intros Hm Hk w. unfold bind.
  destruct (Hm w) as [evs [Hevs Hall]].
  destruct (m w) as [[a|e] w1]; simpl in Hevs.
  - destruct (Hk a w1) as [evs' [Hevs' Hall']].
    exists (evs ++ evs')%list. rewrite Hevs', Hevs, app_assoc, forallb_app.
    now rewrite Hall, Hall'.
  - exists evs. now split.
Qed.

Lemma adds_try {A} (P : event -> bool) (m : M A) (h : exn -> M A) :
  adds P m -> (forall e, adds P (h e)) -> adds P (try_except m h).
Proof.
  intros Hm Hh w. unfold try_except.
  destruct (Hm w) as [evs [Hevs Hall]].
  destruct (m w) as [[a|e] w1]; simpl in Hevs.
  - exists evs. now split.
  - destruct (Hh e w1) as [evs' [Hevs' Hall']].
    exists (evs ++ evs')%list. rewrite Hevs', Hevs, app_assoc, forallb_app.
    now rewrite Hall, Hall'.
Qed.

Lemma adds_sleep (P : event -> bool) : P EvSleep = true -> adds P sleep.
Proof. intros HP w. exists [EvSleep]. simpl. now rewrite HP. Qed.

(** A kind that holds of more calls. *)
Lemma adds_weaken {A} (P Q : event -> bool) (m : M A) :
  (forall ev, P ev = true -> Q ev = true) -> adds P m -> adds Q m.
Proof.
  intros HPQ Hm w. destruct (Hm w) as [evs [Hevs Hall]].
  exists evs. split; [assumption|].
  apply forallb_forall. intros ev Hin. apply HPQ.
  now apply (proj1 (forallb_forall P evs) Hall).
Qed.

(** The calls added are the ones past the old log. *)
Lemma added_of_adds {A} (P : event -> bool) (m : M A) (w : world) :
  adds P m -> forallb P (added m w) = true.
Proof.
  intros Hm. unfold added. destruct (Hm w) as [evs [Hevs Hall]].
  rewrite Hevs, skipn_app, skipn_all, Nat.sub_diag. simpl. assumption.
Qed.

Section WithEnv.
Variable E : env.

(** A Redis command adds itself. *)
Lemma adds_command {A} (P : event -> bool) (cmd key : string)
  (act : world -> result A * world) :
  P (EvRedis cmd key) = true ->
  (forall w, events (snd (act w)) = events w) ->
  adds P (command E cmd key act).
Proof.
  intros HP Hact w. unfold command.
  exists [EvRedis cmd key]. simpl. rewrite HP. split; [|reflexivity].
  destruct (redis_fault E (List.length (events w))); [reflexivity|].
  now rewrite Hact.
Qed.

Lemma adds_http (P : event -> bool) (url : string) (params : dict) :
  P (EvHttp url params) = true -> adds P (http_request E url params).
Proof. intros HP w. exists [EvHttp url params]. simpl. now rewrite HP. Qed.

(** The cache layer sends Redis commands and nothing else. *)
Lemma adds_cache_get (P : event -> bool) (ns id : string) :
  (forall cmd key, P (EvRedis cmd key) = true) ->
  adds P (CacheService.get E ns id).
Proof.
  intros HP. unfold CacheService.get.
  apply adds_try; [|intros; apply adds_ret].
  cbv zeta. apply adds_bind.
  - apply adds_command; [apply HP | reflexivity].
  - intros [txt|]; [|apply adds_ret].
    destruct (negb (String.eqb txt "")); [apply adds_lift | apply adds_ret].
Qed.

Lemma adds_cache_set (P : event -> bool) (ns id : string) (data : pyval)
  (ttl : option Z) :
  (forall cmd key, P (EvRedis cmd key) = true) ->
  adds P (CacheService.set E ns id data ttl).
Proof.
  intros HP. unfold CacheService.set.
  apply adds_try; [|intros; apply adds_ret].
  cbv zeta. apply adds_bind; [apply adds_lift|]. intros json_data.
  apply adds_bind; [|intros; apply adds_ret].
  apply adds_command; [apply HP|].
  intros w. now destruct (CacheService.ttl_or_default E ttl <=? 0).
Qed.

End WithEnv.
End Effects.

Section AdapterEffects.
Import Py Sys Notions HunterService HunterMore.
Variable E : env.

(** The lookup by domain is the shared lookup at its endpoint. *)
Lemma domain_search_is_lookup (domain : string) (use_cache : bool) :
  domain_search E domain use_cache
  = cached_lookup E "domain-search" [("domain", VStr domain)]
                  ("hunter_domain:" ++ domain) use_cache.
Proof. reflexivity. Qed.

(** Without a key the request is not sent. *)
Lemma hunter_request_without_key (P : event -> bool) (endpoint : string)
  (params : dict) :
  str_truthy (hunter_api_key E) = false ->
  adds P (_make_request E endpoint params).
Proof.
  intros Hkey. unfold _make_request, api_key. rewrite Hkey. apply adds_ret.
Qed.

(** With one, it adds a request at most. *)
Lemma hunter_request_adds (P : event -> bool) (endpoint : string)
  (params : dict) :
  (forall url ps, P (EvHttp url ps) = true) ->
  adds P (_make_request E endpoint params).
Proof.
  intros HP. unfold _make_request.
  destruct (negb (str_truthy (api_key E))); [apply adds_ret|].
  apply adds_try; [|intros; apply adds_ret]. cbv zeta.
  apply adds_bind; [apply adds_http, HP|].
  intros [| |status json]; try apply adds_raise.
  destruct (status =? 200); [apply adds_lift | apply adds_ret].
Qed.

(** What follows the request adds Redis commands only, and none with
    the cache off. *)
Lemma lookup_fetch_adds (P : event -> bool) (endpoint : string)
  (params : dict) (cache_key : string) (use_cache : bool) :
  adds P (_make_request E endpoint params) ->
  (use_cache = true -> forall cmd key, P (EvRedis cmd key) = true) ->
  adds P (lookup_fetch E endpoint params cache_key use_cache).
Proof.
  intros Hreq Hredis. unfold lookup_fetch.
  apply adds_bind; [assumption|]. intros response.
  destruct (truthy response); [|apply adds_ret].
  apply adds_bind; [apply adds_lift|]. intros [|]; [|apply adds_ret].
  apply adds_bind; [apply adds_lift|]. intros data.
  apply adds_bind; [|intros; apply adds_ret].
  destruct use_cache; [|apply adds_ret].
  apply adds_bind; [|intros; apply adds_ret].
  apply adds_cache_set. now apply Hredis.
Qed.

Lemma cached_lookup_adds (P : event -> bool) (endpoint : string)
  (params : dict) (cache_key : string) (use_cache : bool) :
  adds P (_make_request E endpoint params) ->
  (use_cache = true -> forall cmd key, P (EvRedis cmd key) = true) ->
  adds P (cached_lookup E endpoint params cache_key use_cache).
Proof.
  intros Hreq Hredis. unfold cached_lookup.
  pose proof (lookup_fetch_adds P endpoint params cache_key use_cache
                Hreq Hredis) as Hfetch.
  destruct use_cache; [|assumption].
  apply adds_bind; [apply adds_cache_get; now apply Hredis|].
  intros cached. destruct (truthy cached); [apply adds_ret | assumption].
Qed.

(** The functions built on the lookup by domain add what it adds. *)
Lemma on_domain_search_adds (P : event -> bool) (domain : string) :
  adds P (domain_search E domain true) ->
  forall first_name last_name limit,
    adds P (get_email_pattern E domain)
    /\ adds P (get_contacts E domain limit)
    /\ adds P (generate_email E first_name last_name domain).
Proof.
  intros Hsearch first_name last_name limit.
  assert (Hpattern : adds P (get_email_pattern E domain)).
  { unfold get_email_pattern. apply adds_bind; [assumption|].
    intros data. destruct (truthy data); [apply adds_lift | apply adds_ret]. }
  split; [assumption|]. split.
  - unfold get_contacts. apply adds_bind; [assumption|].
    intros data. destruct (truthy data); [|apply adds_ret].
    apply adds_bind; [apply adds_lift|]. intros [|]; [|apply adds_ret].
    apply adds_bind; [apply adds_lift|]. intros every.
    apply adds_bind; [apply adds_lift|]. intros emails. apply adds_lift.
  - unfold generate_email. apply adds_bind; [assumption|].
    intros pattern. destruct (negb (truthy pattern)); [apply adds_ret|].
    destruct pattern; first [apply adds_ret | apply adds_raise].
Qed.

End AdapterEffects.

Section ClearbitEffects.
Import Py Sys Notions ClearbitService ClearbitMore.
Variable E : env.

Lemma clearbit_request_without_key (P : event -> bool) (endpoint : string)
  (params : dict) :
  str_truthy (clearbit_api_key E) = false ->
  adds P (_make_request E endpoint params).
Proof.
  intros Hkey. unfold _make_request, api_key. rewrite Hkey. apply adds_ret.
Qed.

Lemma clearbit_request_adds (P : event -> bool) (endpoint : string)
  (params : dict) :
  (forall url ps, P (EvHttp url ps) = true) ->
  adds P (_make_request E endpoint params).
Proof.
  intros HP. unfold _make_request.
  destruct (negb (str_truthy (api_key E))); [apply adds_ret|].
  apply adds_try; [|intros; apply adds_ret]. cbv zeta.
  apply adds_bind; [apply adds_http, HP|].
  intros [| |status json]; try apply adds_raise.
  destruct (status =? 200); [apply adds_lift | apply adds_ret].
Qed.

Lemma enrich_company_adds (P : event -> bool) (domain : string)
  (use_cache : bool) :
  adds P (_make_request E "companies/find" [("domain", VStr domain)]) ->
  (use_cache = true -> forall cmd key, P (EvRedis cmd key) = true) ->
  adds P (enrich_company E domain use_cache).
Proof.
  intros Hreq Hredis.
  assert (Hfetch : adds P (enrich_company_fetch E domain use_cache)).
  { unfold enrich_company_fetch. apply adds_bind; [assumption|]. intros data.
    apply adds_bind; [|intros; apply adds_ret].
    destruct (truthy data); simpl; [|apply adds_ret].
    destruct use_cache; [|apply adds_ret].
    apply adds_bind; [|intros; apply adds_ret].
    apply adds_cache_set. now apply Hredis. }
  unfold enrich_company. destruct use_cache; [|assumption].
  apply adds_bind; [apply adds_cache_get; now apply Hredis|].
  intros cached. destruct (truthy cached); [apply adds_ret | assumption].
Qed.

Lemma get_tech_stack_adds (P : event -> bool) (domain : string) :
  adds P (enrich_company E domain true) -> adds P (get_tech_stack E domain).
Proof.
  intros Henrich. unfold get_tech_stack. apply adds_bind; [assumption|].
  intros data. destruct (truthy data); [apply adds_lift | apply adds_ret].
Qed.

End ClearbitEffects.

Section AdapterClaims.
Import Py Sys Notions HunterService HunterMore ClearbitService ClearbitMore.

(** X10.  An adapter with no API key sends no request: whatever the
    cache holds, none of the email-discovery lookups, the functions
    built on them, nor the firmographic ones adds a network call. *)
Theorem adapters_without_key_send_no_request :
  forall (E : env),
    (str_truthy (hunter_api_key E) = false ->
     forall domain first_name last_name email limit use_cache,
       adds no_request (domain_search E domain use_cache)
       /\ adds no_request (email_finder E domain first_name last_name use_cache)
       /\ adds no_request (email_verifier E email use_cache)
       /\ adds no_request (get_email_pattern E domain)
       /\ adds no_request (get_contacts E domain limit)
       /\ adds no_request (generate_email E first_name last_name domain))
    /\ (str_truthy (clearbit_api_key E) = false ->
        forall domain use_cache,
          adds no_request (enrich_company E domain use_cache)
          /\ adds no_request (get_tech_stack E domain)).
Proof.
  intros E. split.
  - intros Hkey domain first_name last_name email limit use_cache.
    assert (Hlookup : forall endpoint params key uc,
              adds no_request (cached_lookup E endpoint params key uc)).
    { intros. apply cached_lookup_adds; [|reflexivity].
      now apply hunter_request_without_key. }
    rewrite domain_search_is_lookup.
    repeat (split; [apply Hlookup|]).
    apply on_domain_search_adds. rewrite domain_search_is_lookup.
    apply Hlookup.
  - intros Hkey domain use_cache.
    assert (Henrich : forall uc, adds no_request (enrich_company E domain uc)).
    { intros. apply enrich_company_adds; [|reflexivity].
      now apply clearbit_request_without_key. }
    split; [apply Henrich | apply get_tech_stack_adds, Henrich].
Qed.

(** X11.  With [use_cache] off the lookups send no Redis command:
    neither the read before the request nor the write after it. *)
Theorem lookups_without_cache_send_no_redis :
  forall (E : env) (domain first_name last_name email : string),
    adds no_redis (domain_search E domain false)
    /\ adds no_redis (email_finder E domain first_name last_name false)
    /\ adds no_redis (email_verifier E email false)
    /\ adds no_redis (enrich_company E domain false).
Proof.
  intros E domain first_name last_name email.
  assert (Hlookup : forall endpoint params key,
            adds no_redis (cached_lookup E endpoint params key false)).
  { intros. apply cached_lookup_adds; [|discriminate].
    now apply hunter_request_adds. }
  rewrite domain_search_is_lookup.
  repeat (split; [apply Hlookup|]).
  apply enrich_company_adds; [|discriminate].
  now apply clearbit_request_adds.
Qed.

End AdapterClaims.

(** ** What raises and what does not *)

Section Robust.
Import Py Sys Notions.

Lemma returns_ret {A} (a : A) : never_raises (ret a).
Proof. intros w. do 2 eexists. reflexivity. Qed.

Lemma returns_bind {A B} (m : M A) (k : A -> M B) :
  never_raises m -> (forall a, never_raises (k a)) -> never_raises (bind m k).
Proof.
  intros Hm Hk w. unfold bind.
  destruct (Hm w) as [a [w1 Hmw]]. rewrite Hmw. apply Hk.
Qed.

(** A handler that returns makes the whole [try] return. *)
Lemma returns_try {A} (m : M A) (h : exn -> M A) :
  (forall e, never_raises (h e)) -> never_raises (try_except m h).
Proof.
  intros Hh w. unfold try_except.
  destruct (m w) as [[a|e] w1]; [do 2 eexists; reflexivity | apply Hh].
Qed.

End Robust.

Section RobustClaims.
Import Py Sys Notions CacheService CacheMore HunterService HunterMore.

(** X12.  The cache layer and the firmographic adapter never raise,
    whatever Redis and the network do: every operation of the cache,
    the request of either adapter and [enrich_company] return in every
    world. *)
Theorem cache_and_enrichment_never_raise :
  forall (E : env) (ns id domain endpoint : string) (data : pyval)
         (ttl : option Z) (params : dict) (use_cache : bool),
    never_raises (get E ns id)
    /\ never_raises (set E ns id data ttl)
    /\ never_raises (delete E ns id)
    /\ never_raises (exists_ E ns id)
    /\ never_raises (get_ttl E ns id)
    /\ never_raises (health_check E)
    /\ never_raises (HunterService._make_request E endpoint params)
    /\ never_raises (ClearbitService._make_request E endpoint params)
    /\ never_raises (ClearbitService.enrich_company E domain use_cache).
Proof.
  intros E ns id domain endpoint data ttl params use_cache.
  assert (Hget : forall ns id, never_raises (get E ns id))
    by (intros; apply returns_try; intros; apply returns_ret).
  assert (Hset : forall ns id data ttl, never_raises (set E ns id data ttl))
    by (intros; apply returns_try; intros; apply returns_ret).
  assert (Hclearbit : never_raises
            (ClearbitService._make_request E "companies/find"
               [("domain", VStr domain)])).
  { unfold ClearbitService._make_request.
    destruct (negb _); [apply returns_ret|].
    apply returns_try; intros; apply returns_ret. }
  repeat split; try (apply returns_try; intros; apply returns_ret);
    try apply Hget; try apply Hset.
  - unfold HunterService._make_request.
    destruct (negb _); [apply returns_ret|].
    apply returns_try; intros; apply returns_ret.
  - unfold ClearbitService._make_request.
    destruct (negb _); [apply returns_ret|].
    apply returns_try; intros; apply returns_ret.
  - assert (Hfetch : forall uc,
              never_raises (ClearbitService.enrich_company_fetch E domain uc)).
    { intros uc. unfold ClearbitService.enrich_company_fetch.
      apply returns_bind; [assumption|]. intros d.
      apply returns_bind; [|intros; apply returns_ret].
      destruct (truthy d && uc)%bool; [|apply returns_ret].
      apply returns_bind; [apply Hset | intros; apply returns_ret]. }
    unfold ClearbitService.enrich_company.
    destruct use_cache; [|apply Hfetch].
    apply returns_bind; [apply Hget|]. intros cached.
    destruct (truthy cached); [apply returns_ret | apply Hfetch].
Qed.

End RobustClaims.

Section HunterLookups.
Import Py Sys Notions CacheService HunterService HunterMore Samples.
Variable E : env.

(** The request a configured adapter sends for a domain. *)
Lemma make_request_reply (key endpoint : string) (params : dict) (w : world) :
  hunter_api_key E = Some key -> key <> "" ->
  _make_request E endpoint params w
  = (match http_get E (List.length (events w))
                    (base_url ++ "/" ++ endpoint)
                    (setitem params "api_key" (VStr key)) with
     | HttpResponse status (Ok body) =>
         if status =? 200 then Ok body else Ok VNone
     | _ => Ok VNone
     end,
     log (EvHttp (base_url ++ "/" ++ endpoint)
                 (setitem params "api_key" (VStr key))) w).
Proof.
  intros Hkey Hne. apply String.eqb_neq in Hne.
  unfold _make_request, api_key, str_truthy. rewrite Hkey, Hne.
  unfold try_except, bind, http_request, ret, raise, lift, val_of_opt.
  change (negb (negb false)) with false. cbv beta iota zeta.
  destruct (http_get E (List.length (events w)) (base_url ++ "/" ++ endpoint)
                     (setitem params "api_key" (VStr key)))
    as [| |status [body|x]]; try reflexivity;
    destruct (status =? 200); reflexivity.
Qed.

(** A lookup that finds nothing live, with Redis reachable. *)
Lemma get_miss (ns id : string) (w : world) :
  redis_fault E (List.length (events w)) = false ->
  live w (_generate_key ns id) = None ->
  get E ns id w = (Ok VNone, log (EvRedis "GET" (_generate_key ns id)) w).
Proof.
  intros Hup Hdead.
  unfold get, try_except, bind, redis_get, command, ret, lift.
  rewrite Hup.
  replace (live (log (EvRedis "GET" (_generate_key ns id)) w)
                (_generate_key ns id)) with (@None string).
  reflexivity.
Qed.

End HunterLookups.

Section HunterLookupClaims.
Import Py Sys Notions CacheService HunterService HunterMore Samples.

(** X13.  With a key and the cache off, [domain_search] makes of the
    provider's answer: the [data] member of a JSON object (or [None]
    when it has none); [None] for a status other than 200, a body that
    does not decode, a timeout or a failed connection; and a
    [TypeError] for a 200 whose body is a JSON string that contains
    [data], which the function lets out. *)
Theorem domain_search_by_answer :
  forall (E : env) (key domain : string) (w : world),
    hunter_api_key E = Some key -> key <> "" ->
    let url := "https://api.hunter.io/v2/domain-search" in
    let params := [("domain", VStr domain); ("api_key", VStr key)] in
    let reply := http_get E (List.length (events w)) url params in
    snd (domain_search E domain false w) = log (EvHttp url params) w
    /\ (forall body, reply = HttpResponse 200 (Ok (VDict body)) ->
          fst (domain_search E domain false w) = Ok (Py.get body "data"))
    /\ (forall text, reply = HttpResponse 200 (Ok (VStr text)) ->
          contains "data" text = true ->
          fst (domain_search E domain false w) = Raise TypeError)
    /\ ((forall body, reply <> HttpResponse 200 (Ok body)) ->
          fst (domain_search E domain false w) = Ok VNone).
Proof.
  intros E key domain w Hkey Hne url params reply.
  unfold domain_search, domain_search_fetch, bind, ret, lift.
  rewrite (make_request_reply E key "domain-search" _ w Hkey Hne).
  change (setitem [("domain", VStr domain)] "api_key" (VStr key))
    with params.
  change (base_url ++ "/" ++ "domain-search") with url.
  fold reply.
  split; [|split; [|split]].
  - destruct reply as [| |status [body|x]]; try reflexivity.
    destruct (status =? 200); [|reflexivity].
    destruct (truthy body); [|reflexivity].
    destruct (in_ "data" body) as [[|]|]; try reflexivity.
    now destruct (getitem body "data").
  - intros body ->. simpl.
    destruct body as [|kv body]; [reflexivity|]. simpl truthy. cbv iota.
    unfold in_, getitem, Py.get, get_default.
    now destruct (lookup (kv :: body) "data").
  - intros text Hreply Hin. rewrite Hreply.
    change (200 =? 200) with true. cbv beta iota.
    assert (Htruthy : truthy (VStr text) = true).
    { destruct text; [discriminate Hin | reflexivity]. }
    rewrite Htruthy. unfold in_. now rewrite Hin.
  - intros Hfail. destruct reply as [| |status [body|x]]; try reflexivity.
    destruct (status =? 200) eqn:Hs; [|reflexivity].
    apply Z.eqb_eq in Hs. subst status. now destruct (Hfail body).
Qed.

Lemma domain_search_by_answer_example :
  fst (domain_search online "acme.com" false empty_world)
  = Ok (Py.get [ ("data",
               VDict [ ("pattern", VStr "{first}.{last}@acme.com");
                       ("total", VInt 2);
                       ("emails",
                        VList [ VDict [ ("value", VStr "ann@acme.com");
                                        ("first_name", VStr "Ann");
                                        ("last_name", VStr "Lee") ];
                                VDict [ ("first_name", VStr "Bob") ] ]) ]) ]
            "data").
Proof.
  refine (proj1 (proj2 (domain_search_by_answer online "hunter-key"
                          "acme.com" empty_world eq_refl _)) _ eq_refl).
  discriminate.
Defined.

End HunterLookupClaims.

Section HunterCaching.
Import Py Sys Notions CacheService HunterService HunterMore Samples
       MoreSamples.

(** X14.  One request per expiry: when [domain_search] misses the
    cache and the provider answers with a truthy [data] the codec
    round-trips, the data is stored, and a second search of the domain
    within [cache_ttl] seconds returns it after the one cache lookup,
    with no request sent. *)
Theorem domain_search_asks_once :
  forall (E : env) (key domain s : string) (body : dict) (data : pyval)
         (w : world) (d : Z),
    hunter_api_key E = Some key -> key <> "" ->
    (forall n, redis_fault E n = false) ->
    live w (_generate_key "hunter" ("hunter_domain:" ++ domain)) = None ->
    http_get E (S (List.length (events w)))
             "https://api.hunter.io/v2/domain-search"
             [("domain", VStr domain); ("api_key", VStr key)]
    = HttpResponse 200 (Ok (VDict body)) ->
    lookup body "data" = Some data -> truthy data = true ->
    json_dumps E data = Ok s -> s <> "" -> json_loads E s = Ok data ->
    0 <= d < cache_ttl E ->
    exists w1,
      domain_search E domain true w = (Ok data, w1)
      /\ domain_search E domain true (elapse d w1)
         = (Ok data,
            log (EvRedis "GET"
                   (_generate_key "hunter" ("hunter_domain:" ++ domain)))
                (elapse d w1)).
Proof.
  intros E key domain s body data w d Hkey Hne Hup Hdead Hreply Hdata
         Htruthy Hdumps Hs Hloads Hd.
  set (ckey := "hunter_domain:" ++ domain) in *.
  assert (Hpos : ttl_or_default E (Some (cache_ttl E)) = cache_ttl E).
  { simpl. replace (cache_ttl E =? 0) with false; [reflexivity|].
    symmetry. apply Z.eqb_neq. lia. }
  assert (Hbody : truthy (VDict body) = true)
    by (destruct body; [discriminate Hdata | reflexivity]).
  set (w0 := log (EvRedis "GET" (_generate_key "hunter" ckey)) w).
  set (w0' := log (EvHttp "https://api.hunter.io/v2/domain-search"
                          [("domain", VStr domain); ("api_key", VStr key)])
                  w0).
  destruct (set_stores E "hunter" ckey s data (Some (cache_ttl E)) w0'
              Hdumps (Hup _)) as [w1 [Hset [Hev Hlive]]]; [lia|].
  assert (Hfirst : domain_search E domain true w = (Ok data, w1)).
  { unfold domain_search. fold ckey. unfold bind at 1.
    rewrite (get_miss E "hunter" ckey w (Hup _) Hdead). fold w0.
    change (truthy VNone) with false. cbv iota.
    unfold domain_search_fetch, bind, ret, lift.
    rewrite (make_request_reply E key "domain-search" _ w0 Hkey Hne).
    change (setitem [("domain", VStr domain)] "api_key" (VStr key))
      with [("domain", VStr domain); ("api_key", VStr key)].
    change (base_url ++ "/" ++ "domain-search")
      with "https://api.hunter.io/v2/domain-search".
    replace (List.length (events w0)) with (S (List.length (events w)))
      by (unfold w0; simpl; rewrite length_app; simpl; lia).
    rewrite Hreply. change (200 =? 200) with true. cbv beta iota.
    rewrite Hbody. unfold in_, getitem. rewrite Hdata.
    fold w0'. now rewrite Hset. }
  exists w1. split; [assumption|].
  unfold domain_search. fold ckey. unfold bind, ret.
  rewrite (get_hit E "hunter" ckey s data (elapse d w1));
    [now rewrite Htruthy | apply Hup | | assumption..].
  apply Hlive. lia.
Qed.

Lemma domain_search_asks_once_example :
  exists w1,
    domain_search caching "acme.com" true later_world = (Ok a1, w1)
    /\ domain_search caching "acme.com" true (elapse 3600 w1)
       = (Ok a1,
          log (EvRedis "GET"
                 (_generate_key "hunter" ("hunter_domain:" ++ "acme.com")))
              (elapse 3600 w1)).
Proof.
  refine (domain_search_asks_once caching "hunter-key" "acme.com" a1_text
            [("data", a1)] a1 later_world 3600
            eq_refl _ (fun _ => eq_refl) eq_refl eq_refl eq_refl eq_refl
            eq_refl _ eq_refl _).
  - discriminate.
  - discriminate.
  - simpl. lia.
Defined.

End HunterCaching.

Section HunterFailures.
Import Py Sys Notions CacheService HunterService HunterMore Samples
       MoreSamples.

(** [get] returns, leaving the entries alone and logging its command. *)
Lemma get_frame (E : env) (ns id : string) (w : world) :
  exists v w',
    get E ns id w = (Ok v, w')
    /\ db w' = db w
    /\ events w' = (events w ++ [EvRedis "GET" (_generate_key ns id)])%list.
Proof.
  unfold get, try_except, bind, redis_get, command, ret, lift.
  destruct (redis_fault E (List.length (events w)));
    [do 2 eexists; repeat split; reflexivity|].
  destruct (live (log (EvRedis "GET" (_generate_key ns id)) w)
                 (_generate_key ns id)) as [txt|];
    [|do 2 eexists; repeat split; reflexivity].
  destruct (negb (String.eqb txt ""));
    [|do 2 eexists; repeat split; reflexivity].
  destruct (json_loads E txt); do 2 eexists; repeat split; reflexivity.
Qed.

(** A request that brings no body back gives [None] and leaves the
    entries alone. *)
Lemma failed_request (E : env) (endpoint : string) (params : dict)
  (w : world) :
  (forall url ps body,
     http_get E (List.length (events w)) url ps
     <> HttpResponse 200 (Ok body)) ->
  exists w',
    _make_request E endpoint params w = (Ok VNone, w') /\ db w' = db w.
Proof.
  intros Hfail. unfold _make_request.
  destruct (negb (str_truthy (api_key E)));
    [eexists; split; reflexivity|].
  unfold try_except, bind, http_request, ret, raise, lift. cbv zeta.
  match goal with
  | |- context [http_get E ?n ?u ?p] =>
      pose proof (Hfail u p) as Hnot; destruct (http_get E n u p)
        as [| |status [body|x]]
  end; try (eexists; split; reflexivity).
  - destruct (status =? 200) eqn:Hs; [|eexists; split; reflexivity].
    apply Z.eqb_eq in Hs. subst status. now destruct (Hnot body).
  - destruct (status =? 200); eexists; split; reflexivity.
Qed.

(** X15.  A failed lookup is not cached: when the request
    [domain_search] would send brings back no 200 with a body, the
    search returns the truthy value the cache held, or [None], and the
    stored entries are as they were. *)
Theorem failed_lookup_is_not_cached :
  forall (E : env) (domain : string) (w : world),
    (forall url ps body,
       http_get E (S (List.length (events w))) url ps
       <> HttpResponse 200 (Ok body)) ->
    exists v w',
      domain_search E domain true w = (Ok v, w')
      /\ db w' = db w
      /\ (v <> VNone ->
          fst (get E "hunter" ("hunter_domain:" ++ domain) w) = Ok v).
Proof.
  intros E domain w Hfail.
  destruct (get_frame E "hunter" ("hunter_domain:" ++ domain) w)
    as [cached [w0 [Hget [Hdb Hev]]]].
  unfold domain_search, bind, ret. rewrite Hget.
  destruct (truthy cached).
  - exists cached, w0. now auto.
  - destruct (failed_request E "domain-search" [("domain", VStr domain)] w0)
      as [w1 [Hreq Hdb1]].
    { rewrite Hev, length_app. simpl.
      now replace (List.length (events w) + 1)%nat
        with (S (List.length (events w))) by lia. }
    unfold domain_search_fetch, bind, ret. rewrite Hreq. simpl.
    exists VNone, w1. split; [reflexivity|]. split; [congruence|].
    intros Hv. now destruct Hv.
Qed.

Lemma failed_lookup_is_not_cached_example :
  exists v w',
    domain_search rate_limited "acme.com" true empty_world = (Ok v, w')
    /\ db w' = db empty_world
    /\ (v <> VNone ->
        fst (get rate_limited "hunter" ("hunter_domain:" ++ "acme.com")
                 empty_world)
        = Ok v).
Proof.
  refine (failed_lookup_is_not_cached rate_limited "acme.com" empty_world _).
  intros url ps body. discriminate.
Defined.

End HunterFailures.

(** ** Contacts of the email-discovery adapter *)

Section ContactShape.
Import Py Sys Notions HunterService Samples.

Lemma map_result_length {A B} (f : A -> result B) :
  forall (l : list A) (r : list B),
    map_result f l = Ok r ->
    List.length r = List.length l
    /\ forall b, In b r -> exists a, In a l /\ f a = Ok b.
Proof.
  induction l as [|a l IH]; intros r Hr; simpl in Hr.
  - injection Hr as <-. split; [reflexivity | intros b []].
  - destruct (f a) as [b0|] eqn:Hfa; simpl in Hr; [|discriminate].
    destruct (map_result f l) as [bs|]; simpl in Hr; [|discriminate].
    injection Hr as <-. destruct (IH bs eq_refl) as [Hlen Hin].
    split; [simpl; now rewrite Hlen|].
    intros b [<-|Hb].
    + exists a. split; [now left | assumption].
    + destruct (Hin b Hb) as [a' [Ha' Hfa']].
      exists a'. split; [now right | assumption].
Qed.

Lemma slice_to_length {A} (l : list A) (n : Z) :
  0 <= n -> (List.length (slice_to l n) <= Z.to_nat n)%nat.
Proof.
  intros Hn. unfold slice_to.
  replace (0 <=? n) with true by (symmetry; apply Z.leb_le; lia).
  apply firstn_le_length.
Qed.

Lemma slice_val_length (v : pyval) (n : Z) (items : list pyval) :
  0 <= n -> slice_val v n = Ok items ->
  (List.length items <= Z.to_nat n)%nat.
Proof.
  intros Hn Hitems. destruct v; try discriminate; simpl in Hitems;
    injection Hitems as <-; rewrite ?length_map; now apply slice_to_length.
Qed.

(** What the adapter's list is made of. *)
Lemma get_contacts_fields :
  forall (E : env) (domain : string) (limit : Z) (w w' : world)
         (contacts : list dict),
    get_contacts E domain limit w = (Ok contacts, w') ->
    (0 <= limit -> (List.length contacts <= Z.to_nat limit)%nat)
    /\ Forall (fun c => map fst c = hunter_contact_fields) contacts.
Proof.
  intros E domain limit w w' contacts Hget.
  unfold get_contacts, bind, ret, lift in Hget.
  destruct (domain_search E domain true w) as [[data|x] w1]; [|discriminate].
  assert (Hnone : contacts = [] ->
            (0 <= limit -> (List.length contacts <= Z.to_nat limit)%nat)
            /\ Forall (fun c => map fst c = hunter_contact_fields) contacts).
  { intros ->. split; [simpl; lia | constructor]. }
  destruct (truthy data); [|injection Hget as <- _; now apply Hnone].
  destruct (in_ "emails" data) as [[|]|];
    [| injection Hget as <- _; now apply Hnone | discriminate].
  destruct (getitem data "emails") as [every|]; [|discriminate].
  destruct (slice_val every limit) as [emails|] eqn:Hslice; [|discriminate].
  destruct (map_result contact_of_email emails) as [cs|] eqn:Hmap;
    [|discriminate].
  injection Hget as <- _.
  destruct (map_result_length contact_of_email emails cs Hmap) as [Hlen Hin].
  split.
  - intros Hlimit. rewrite Hlen. now apply (slice_val_length every).
  - apply Forall_forall. intros c Hc.
    destruct (Hin c Hc) as [email [_ Hcontact]].
    destruct email; try discriminate. simpl in Hcontact.
    injection Hcontact as <-. reflexivity.
Qed.

(** X16.  What [get_contacts] returns is at most [limit] contacts (for
    a limit that is not negative), each with exactly the ten fields of
    the adapter, in their order; a field the provider left out is
    there as [None]. *)
Theorem get_contacts_shape :
  forall (E : env) (domain : string) (limit : Z) (w w' : world)
         (contacts : list dict),
    get_contacts E domain limit w = (Ok contacts, w') ->
    (0 <= limit -> (List.length contacts <= Z.to_nat limit)%nat)
    /\ Forall (fun c => map fst c = hunter_contact_fields) contacts.
Proof.
  intros E domain limit w w' contacts Hget.
  exact (get_contacts_fields E domain limit w w' contacts Hget).
Qed.

Lemma get_contacts_shape_example :
  fst (get_contacts online "acme.com" 1 empty_world)
  = Ok [ [ ("email", VStr "ann@acme.com");
           ("first_name", VStr "Ann");
           ("last_name", VStr "Lee");
           ("position", VNone);
           ("department", VNone);
           ("seniority", VNone);
           ("confidence", VNone);
           ("linkedin", VNone);
           ("twitter", VNone);
           ("phone_number", VNone) ] ]
  /\ (0 <= 1 ->
      (List.length
         [ [ ("email", VStr "ann@acme.com");
             ("first_name", VStr "Ann");
             ("last_name", VStr "Lee");
             ("position", VNone);
             ("department", VNone);
             ("seniority", VNone);
             ("confidence", VNone);
             ("linkedin", VNone);
             ("twitter", VNone);
             ("phone_number", VNone) ] ] <= Z.to_nat 1)%nat).
Proof.
  split; [reflexivity|].
  exact (proj1 (get_contacts_shape online "acme.com" 1 empty_world
                  (snd (get_contacts online "acme.com" 1 empty_world))
                  _ eq_refl)).
Defined.

End ContactShape.

(** ** The substitution of the email generator *)

Section Substitution.
Import Py Sys Notions HunterService.

Lemma lower_ascii_not_upper (c : ascii) :
  negb (Nat.leb 65 (nat_of_ascii (lower_ascii c))
        && Nat.leb (nat_of_ascii (lower_ascii c)) 90) = true.
Proof. destruct c as [[] [] [] [] [] [] [] []]; reflexivity. Qed.

Lemma lower_ascii_brace (c : ascii) :
  Ascii.eqb (lower_ascii c) "{"%char = Ascii.eqb c "{"%char.
Proof. destruct c as [[] [] [] [] [] [] [] []]; reflexivity. Qed.

Lemma no_upper_ascii_lower (s : string) : no_upper (ascii_lower s) = true.
Proof.
  induction s as [|c s IH]; cbn [ascii_lower no_upper]; [reflexivity|].
  now rewrite lower_ascii_not_upper, IH.
Qed.

(** No capital of A to Z is left in a text made lower case, whatever
    the runtime's mapping of the other letters is. *)
Lemma no_upper_lower (E : env) (s : string) : no_upper (lower E s) = true.
Proof.
  unfold lower, lower_by. destruct (is_ascii s); apply no_upper_ascii_lower.
Qed.

(** On ASCII text the case mapping is the table. *)
Lemma lower_ascii_text (E : env) (s : string) :
  is_ascii s = true -> lower E s = ascii_lower s.
Proof. intros Hs. unfold lower, lower_by. now rewrite Hs. Qed.

Lemma is_ascii_app (a b : string) :
  is_ascii (a ++ b) = (is_ascii a && is_ascii b)%bool.
Proof.
  induction a as [|c a IH]; cbn [append is_ascii]; [reflexivity|].
  now rewrite IH, andb_assoc.
Qed.

Lemma is_ascii_continuation (s : string) :
  is_ascii s = true -> is_ascii (continuation s) = true.
Proof.
  induction s as [|c s IH]; cbn [is_ascii continuation]; [reflexivity|].
  intros Hs. apply andb_prop in Hs. destruct Hs as [Hc Hs].
  destruct (is_continuation c); [|reflexivity].
  cbn [is_ascii]. now rewrite Hc, IH.
Qed.

Lemma is_ascii_first_char (s : string) :
  is_ascii s = true -> is_ascii (first_char s) = true.
Proof.
  destruct s as [|c s]; [reflexivity|]. cbn [is_ascii first_char].
  intros Hs. apply andb_prop in Hs. destruct Hs as [Hc Hs].
  now rewrite Hc, is_ascii_continuation.
Qed.

Lemma no_upper_app (a b : string) :
  no_upper (a ++ b) = (no_upper a && no_upper b)%bool.
Proof.
  induction a as [|c a IH]; simpl; [reflexivity|].
  now rewrite IH, andb_assoc.
Qed.

(** A replacement puts in characters of the text and of the new
    fragment only. *)
Lemma no_upper_replace (old new : string) :
  no_upper new = true ->
  forall (s : string) (skip : nat),
    no_upper s = true -> no_upper (replace_from old new skip s) = true.
Proof.
  intros Hnew. induction s as [|c s IH]; intros skip Hs; simpl;
    [reflexivity|].
  simpl in Hs. apply andb_prop in Hs. destruct Hs as [Hc Hs].
  destruct skip as [|k]; [|now apply IH].
  destruct (startswith old (String c s)).
  - rewrite no_upper_app, Hnew. now apply IH.
  - simpl. rewrite Hc. now apply IH.
Qed.

Lemma has_brace_lower (s : string) :
  has_char "{"%char (ascii_lower s) = has_char "{"%char s.
Proof.
  induction s as [|c s IH]; cbn [ascii_lower has_char]; [reflexivity|].
  now rewrite lower_ascii_brace, IH.
Qed.

(** A text without a brace passes through, and what follows it is
    replaced as if it stood alone. *)
Lemma replace_past (o new a b : string) :
  has_char "{"%char a = false ->
  replace (String "{"%char o) new (a ++ b)
  = a ++ replace (String "{"%char o) new b.
Proof.
  unfold replace. induction a as [|c a IH]; intros Ha; [reflexivity|].
  cbn [has_char] in Ha. apply orb_false_elim in Ha. destruct Ha as [Hc Ha].
  cbn [append replace_from startswith].
  rewrite Ascii.eqb_sym, Hc. cbn [andb]. now rewrite IH.
Qed.

Lemma append_nil_r (a : string) : a ++ "" = a.
Proof. induction a as [|c a IH]; simpl; [reflexivity | now rewrite IH]. Qed.

Lemma replace_plain (o new a : string) :
  has_char "{"%char a = false -> replace (String "{"%char o) new a = a.
Proof.
  intros Ha. rewrite <- (append_nil_r a) at 1.
  rewrite replace_past by assumption. unfold replace. simpl.
  now rewrite append_nil_r.
Qed.

Lemma startswith_app (p s : string) : startswith p (p ++ s) = true.
Proof.
  induction p as [|c p IH]; simpl; [reflexivity|].
  now rewrite Ascii.eqb_refl, IH.
Qed.

(** The characters of a match are passed over. *)
Lemma replace_from_skip (old new : string) :
  forall (p s : string),
    replace_from old new (String.length p) (p ++ s) = replace_from old new O s.
Proof. induction p as [|c p IH]; intros s; simpl; [reflexivity | apply IH]. Qed.

(** A match at the head is replaced. *)
Lemma replace_head (c : ascii) (o new s : string) :
  replace (String c o) new (String c o ++ s)
  = new ++ replace (String c o) new s.
Proof.
  unfold replace. cbn [append replace_from].
  change (String c (o ++ s)) with (String c o ++ s).
  rewrite startswith_app. cbn [String.length Nat.pred].
  now rewrite replace_from_skip.
Qed.

(** No match at the head: the character stays. *)
Lemma replace_miss (old new : string) (c : ascii) (s : string) :
  startswith old (String c s) = false ->
  replace old new (String c s) = String c (replace old new s).
Proof. intros Hmiss. unfold replace. cbn [replace_from]. now rewrite Hmiss. Qed.

End Substitution.

Section SubstitutionClaims.
Import Py Sys Notions HunterService Samples.

(** X17.  An address the substitution builds has no upper-case letter
    of the ASCII alphabet, whatever the pattern and the names. *)
Theorem fill_pattern_is_lower_case :
  forall (E : env) (pattern first_name last_name : string),
    no_upper (fill_pattern E pattern first_name last_name) = true.
Proof.
  intros E pattern first_name last_name. unfold fill_pattern, replace.
  repeat (apply no_upper_replace; [apply no_upper_lower|]).
  apply no_upper_lower.
Qed.

(** X18.  For names and a domain in ASCII that hold no opening brace:
    on the pattern of the documentation, [{first}.{last}@] and the
    domain, the substitution gives the first name, a dot, the last
    name, the at sign and the domain, each with its letters A to Z
    made small; and a pattern without a brace comes back with its
    letters made small and otherwise unchanged. *)
Theorem fill_pattern_first_dot_last :
  forall (E : env) (first_name last_name domain : string),
    is_ascii first_name = true ->
    is_ascii last_name = true ->
    is_ascii domain = true ->
    has_char "{"%char first_name = false ->
    has_char "{"%char last_name = false ->
    has_char "{"%char domain = false ->
    fill_pattern E ("{first}.{last}@" ++ domain) first_name last_name
    = ascii_lower first_name ++ "." ++ ascii_lower last_name ++ "@"
      ++ ascii_lower domain
    /\ fill_pattern E domain first_name last_name = ascii_lower domain.
Proof.
  intros E first_name last_name domain Af Al Ad Hf Hl Hd.
  assert (Hlf : has_char "{"%char (ascii_lower first_name) = false)
    by now rewrite has_brace_lower.
  assert (Hll : has_char "{"%char (ascii_lower last_name) = false)
    by now rewrite has_brace_lower.
  assert (Hld : has_char "{"%char (ascii_lower domain) = false)
    by now rewrite has_brace_lower.
  assert (Happ : forall a b, has_char "{"%char a = false ->
                   has_char "{"%char b = false ->
                   has_char "{"%char (a ++ b) = false).
  { induction a as [|c a IH]; intros b Ha Hb; [assumption|].
    cbn [has_char append] in *. apply orb_false_elim in Ha.
    destruct Ha as [Hc Ha]. now rewrite Hc, IH. }
  assert (Hfill : forall pattern, is_ascii pattern = true ->
            fill_pattern E pattern first_name last_name
            = replace "{l}" (ascii_lower (first_char last_name))
                (replace "{f}" (ascii_lower (first_char first_name))
                   (replace "{last}" (ascii_lower last_name)
                      (replace "{first}" (ascii_lower first_name)
                         (ascii_lower pattern))))).
  { intros pattern Ap. unfold fill_pattern. cbv zeta.
    now rewrite !lower_ascii_text
      by (assumption || now apply is_ascii_first_char). }
  split.
  - rewrite Hfill by (rewrite is_ascii_app; now rewrite Ad).
    change (ascii_lower ("{first}.{last}@" ++ domain))
      with ("{first}" ++ (".{last}@" ++ ascii_lower domain)).
    rewrite replace_head.
    assert (Hrest : replace "{first}" (ascii_lower first_name)
                            (".{last}@" ++ ascii_lower domain)
                    = ".{last}@" ++ ascii_lower domain).
    { change (".{last}@" ++ ascii_lower domain)
        with ("." ++ ("{last}@" ++ ascii_lower domain)).
      rewrite replace_past by reflexivity.
      change ("{last}@" ++ ascii_lower domain)
        with (String "{"%char ("last}@" ++ ascii_lower domain)).
      rewrite replace_miss by reflexivity.
      rewrite replace_plain by (apply Happ; [reflexivity | assumption]).
      reflexivity. }
    rewrite Hrest.
    change (ascii_lower first_name ++ ".{last}@" ++ ascii_lower domain)
      with (ascii_lower first_name
            ++ ("." ++ ("{last}" ++ ("@" ++ ascii_lower domain)))).
    rewrite <- append_assoc.
    rewrite replace_past by (apply Happ; [assumption | reflexivity]).
    rewrite replace_head.
    rewrite (replace_plain _ _ ("@" ++ ascii_lower domain))
      by (apply Happ; [reflexivity | assumption]).
    assert (Hplain : has_char "{"%char
                       ((ascii_lower first_name ++ ".")
                        ++ ascii_lower last_name ++ "@"
                        ++ ascii_lower domain) = false).
    { repeat (apply Happ; try assumption; try reflexivity). }
    rewrite (replace_plain _ (ascii_lower (first_char first_name)))
      by exact Hplain.
    rewrite (replace_plain _ (ascii_lower (first_char last_name)))
      by exact Hplain.
    now rewrite append_assoc.
  - rewrite Hfill by assumption.
    rewrite (replace_plain _ (ascii_lower first_name)) by exact Hld.
    rewrite (replace_plain _ (ascii_lower last_name)) by exact Hld.
    rewrite (replace_plain _ (ascii_lower (first_char first_name)))
      by exact Hld.
    now rewrite replace_plain.
Qed.

Lemma fill_pattern_first_dot_last_example :
  fill_pattern offline ("{first}.{last}@" ++ "Acme.com") "John" "Doe"
  = ascii_lower "John" ++ "." ++ ascii_lower "Doe" ++ "@"
    ++ ascii_lower "Acme.com"
  /\ fill_pattern offline "{first}.{last}@Acme.com" "John" "Doe"
     = "john.doe@acme.com".
Proof.
  split; [|reflexivity].
  exact (proj1 (fill_pattern_first_dot_last offline "John" "Doe" "Acme.com"
                  eq_refl eq_refl eq_refl eq_refl eq_refl eq_refl)).
Defined.

End SubstitutionClaims.

(** ** The lead score, continued *)

Section ScoreSteps.
Import Py Sys DataCollector Notions.

(** The points each step can add. *)
Lemma add_completeness_cases (d : dict) (score : float) :
  exists k : nat,
    (k <= 5)%nat
    /\ add_completeness d score
       = (score + float_of_Z (Z.of_nat k) / float_of_Z 5 * 30)%float.
Proof.
  unfold add_completeness.
  exists (List.length (filter (fun field => truthy (get d field))
                              required_fields)).
  split; [apply (filter_length_le _ required_fields) | reflexivity].
Qed.

Lemma add_size_cases (d : dict) (score score' : float) :
  add_size d score = Ok score' ->
  In score' [ score; (score + 20)%float; (score + 15)%float;
              (score + 10)%float; (score + 5)%float ].
Proof.
  unfold add_size. destruct (truthy (get d "employee_count")).
  - destruct (between 50 500 (get d "employee_count")) as [[|]|]; simpl;
      [intros [= <-]; tauto | | discriminate].
    destruct (between 500 1000 (get d "employee_count")) as [[|]|]; simpl;
      [intros [= <-]; tauto | | discriminate].
    destruct (less_than 50 (get d "employee_count")) as [[|]|]; simpl;
      [intros [= <-]; tauto | intros [= <-]; tauto | discriminate].
  - intros [= <-]. simpl. tauto.
Qed.

Lemma add_funding_cases (d : dict) (score score' : float) :
  add_funding d score = Ok score' ->
  In score' [ score; (score + 20)%float; (score + 15)%float ].
Proof.
  unfold add_funding.
  destruct (val_get (get_default d "funding" (VDict [])) "total")
    as [total|]; simpl; [|discriminate].
  destruct (truthy total); [intros [= <-]; tauto|].
  destruct (val_get (get_default d "funding" (VDict [])) "annual_revenue")
    as [revenue|]; simpl; [|discriminate].
  destruct (truthy revenue); intros [= <-]; tauto.
Qed.

Lemma add_tech_cases (d : dict) (score score' : float) :
  add_tech d score = Ok score' ->
  In score' [ score; (score + 3)%float; (score + 6)%float; (score + 9)%float;
              (score + 12)%float; (score + 15)%float ].
Proof.
  unfold add_tech.
  destruct (len (get_default d "tech_stack" (VList []))) as [n|]; simpl;
    [|discriminate].
  destruct (0 <? n) eqn:Hpos; [|intros [= <-]; tauto].
  apply Z.ltb_lt in Hpos. intros [= <-].
  assert (Hn : n = 1 \/ n = 2 \/ n = 3 \/ n = 4 \/ 5 <= n) by lia.
  destruct Hn as [->|[->|[->|[->|Hn]]]]; simpl; try tauto.
  replace (Z.min (n * 3) 15) with 15 by lia. tauto.
Qed.

Lemma add_contacts_cases (d : dict) (score score' : float) :
  add_contacts d score = Ok score' ->
  In score' [ score; (score + 5)%float; (score + 10)%float;
              (score + 10 + 5)%float ].
Proof.
  unfold add_contacts.
  destruct (gt_zero (get_default d "total_emails_found" (VInt 0)))
    as [[|]|]; simpl; [| |discriminate];
    destruct (truthy (get d "email_pattern")); intros [= <-]; tauto.
Qed.

(** What each step needs of the record, and what it raises without. *)
Lemma add_size_returns (d : dict) (score : float) :
  match add_size d score with
  | Ok _ => (negb (truthy (get d "employee_count"))
             || numeric (get d "employee_count"))%bool = true
  | Raise e => (negb (truthy (get d "employee_count"))
                || numeric (get d "employee_count"))%bool = false
               /\ e = TypeError
  end.
Proof.
  unfold add_size.
  destruct (truthy (get d "employee_count")) eqn:Ht; [|reflexivity].
  destruct (get d "employee_count") as [|b|n|x|t|l|m|tu]; simpl;
    try (split; reflexivity).
  - destruct (_ && _)%bool; [reflexivity|].
    destruct (_ && _)%bool; [reflexivity|]. now destruct (Z.b2z b <? 50).
  - destruct (_ && _)%bool; [reflexivity|].
    destruct (_ && _)%bool; [reflexivity|]. now destruct (n <? 50).
  - destruct (_ && _)%bool; [reflexivity|].
    destruct (_ && _)%bool; [reflexivity|]. now destruct (PrimFloat.ltb _ _).
Qed.

Lemma add_funding_returns (d : dict) (score : float) :
  match add_funding d score with
  | Ok _ => is_dict (get_default d "funding" (VDict [])) = true
  | Raise e => is_dict (get_default d "funding" (VDict [])) = false
               /\ e = AttributeError
  end.
Proof.
  unfold add_funding.
  destruct (get_default d "funding" (VDict [])) as [|b|n|x|t|l|m|tu]; simpl;
    try (split; reflexivity).
  destruct (truthy (get m "total")); [reflexivity|].
  now destruct (truthy (get m "annual_revenue")).
Qed.

Lemma add_tech_returns (d : dict) (score : float) :
  match add_tech d score with
  | Ok _ => sized (get_default d "tech_stack" (VList [])) = true
  | Raise e => sized (get_default d "tech_stack" (VList [])) = false
               /\ e = TypeError
  end.
Proof.
  unfold add_tech.
  destruct (get_default d "tech_stack" (VList [])) as [|b|n|x|t|l|m|tu]; simpl;
    try (split; reflexivity);
    now destruct (0 <? _).
Qed.

Lemma add_contacts_returns (d : dict) (score : float) :
  match add_contacts d score with
  | Ok _ => numeric (get_default d "total_emails_found" (VInt 0)) = true
  | Raise e => numeric (get_default d "total_emails_found" (VInt 0)) = false
               /\ e = TypeError
  end.
Proof.
  unfold add_contacts.
  destruct (get_default d "total_emails_found" (VInt 0)) as [|b|n|x|t|l|m|tu];
    simpl; try (split; reflexivity).
  - now destruct b.
  - now destruct (0 <? n).
  - now destruct (PrimFloat.ltb 0 x).
Qed.

(** The score returns on the records it has the operations for, and
    raises one of two exceptions on the others. *)
Lemma lead_score_cases (d : dict) :
  match calculate_lead_score d with
  | Ok _ => scorable d = true
  | Raise e => scorable d = false /\ (e = TypeError \/ e = AttributeError)
  end.
Proof.
  unfold calculate_lead_score, scorable.
  set (s0 := add_completeness d 0%float).
  pose proof (add_size_returns d s0) as H1.
  destruct (add_size d s0) as [s1|e1]; simpl.
  2:{ destruct H1 as [-> ->]. split; [reflexivity | now left]. }
  rewrite H1.
  pose proof (add_funding_returns d s1) as H2.
  destruct (add_funding d s1) as [s2|e2]; simpl.
  2:{ destruct H2 as [-> ->]. split; [reflexivity | now right]. }
  rewrite H2.
  pose proof (add_tech_returns d s2) as H3.
  destruct (add_tech d s2) as [s3|e3]; simpl.
  2:{ destruct H3 as [-> ->]. split; [reflexivity | now left]. }
  rewrite H3.
  pose proof (add_contacts_returns d s3) as H4.
  destruct (add_contacts d s3) as [s4|e4]; simpl.
  2:{ destruct H4 as [-> ->]. split; [reflexivity | now left]. }
  now rewrite H4.
Qed.

End ScoreSteps.

Section ScoreClaims.
Import Py Sys DataCollector Notions Samples.

(** X19.  Whenever the score is returned it is a whole number between
    0 and 100: the points of the five steps add up to 100 at most, so
    the final [min] never lowers it. *)
Theorem lead_score_is_whole_in_range :
  forall (d : dict) (x : float),
    calculate_lead_score d = Ok x ->
    whole_upto 100 x = true
    /\ PrimFloat.leb 0 x = true
    /\ PrimFloat.leb x 100 = true.
Proof.
  intros d x. unfold calculate_lead_score.
  destruct (add_completeness_cases d 0%float) as [k [Hk ->]].
  destruct (add_size d _) as [s1|] eqn:H1; simpl; [|discriminate].
  destruct (add_funding d s1) as [s2|] eqn:H2; simpl; [|discriminate].
  destruct (add_tech d s2) as [s3|] eqn:H3; simpl; [|discriminate].
  destruct (add_contacts d s3) as [s4|] eqn:H4; simpl; [|discriminate].
  intros [= <-].
  apply add_contacts_cases in H4. apply add_tech_cases in H3.
  apply add_funding_cases in H2. apply add_size_cases in H1.
  assert (Hk6 : (k = 0 \/ k = 1 \/ k = 2 \/ k = 3 \/ k = 4 \/ k = 5)%nat)
    by lia.
  clear Hk.
  simpl in H1, H2, H3, H4.
  repeat match goal with
         | H : _ \/ _ |- _ => destruct H as [H|H]
         | H : False |- _ => destruct H
         end;
    subst; vm_compute; repeat split.
Qed.

Lemma lead_score_is_whole_in_range_example :
  calculate_lead_score [("name", VStr "Acme"); ("employee_count", VInt 150)]
  = Ok 32%float
  /\ whole_upto 100 32 = true
  /\ PrimFloat.leb 0 32 = true
  /\ PrimFloat.leb 32 100 = true.
Proof.
  split; [reflexivity|].
  exact (lead_score_is_whole_in_range
           [("name", VStr "Acme"); ("employee_count", VInt 150)] 32%float
           eq_refl).
Defined.

(** X20.  The score is returned exactly on the records it has the
    operations for; on every other record it raises a [TypeError] (a
    truthy [employee_count] that is no number, a [tech_stack] without a
    length, a [total_emails_found] that is no number) or an
    [AttributeError] (a [funding] that is no dictionary). *)
Theorem lead_score_returns_iff_scorable :
  forall (d : dict),
    (scorable d = true <-> exists x, calculate_lead_score d = Ok x)
    /\ (scorable d = false <->
        calculate_lead_score d = Raise TypeError
        \/ calculate_lead_score d = Raise AttributeError).
Proof.
  intros d. pose proof (lead_score_cases d) as H.
  destruct (calculate_lead_score d) as [x|e].
  - rewrite H. split; split.
    + intros _. now exists x.
    + reflexivity.
    + discriminate.
    + intros [Hr|Hr]; discriminate Hr.
  - destruct H as [-> [->| ->]]; split; split;
      try discriminate; try (intros [x Hx]; discriminate Hx);
      try reflexivity; intros _; tauto.
Qed.

End ScoreClaims.

(** ** The firmographic record *)

Section Extraction.
Import Py Sys ClearbitService Fields Notions.

(** A second-level read returns on a dictionary or an absent member,
    and raises on anything else. *)
Lemma nested_cases (d : dict) (outer inner : string) :
  (is_dict (get_default d outer (VDict [])) = true
   /\ exists v, nested (VDict d) outer inner = Ok v)
  \/ (is_dict (get_default d outer (VDict [])) = false
      /\ nested (VDict d) outer inner = Raise AttributeError).
Proof.
  unfold nested. cbn [val_get_default rbind].
  destruct (get_default d outer (VDict [])); cbn [val_get is_dict];
    first [ left; split; [reflexivity | eexists; reflexivity]
          | right; split; reflexivity ].
Qed.

Ltac nested_step d :=
  match goal with
  | |- context [nested (VDict d) ?o ?i] =>
      let Hd := fresh "Hd" in
      let Hv := fresh "Hv" in
      let v := fresh "v" in
      destruct (nested_cases d o i) as [[Hd [v Hv]] | [Hd Hv]];
      rewrite Hv; cbn [rbind];
      [ | try congruence;
          unfold nested_are_dicts; cbn [forallb nested_objects];
          rewrite Hd, ?andb_false_r; reflexivity ]
  end.

Lemma extract_company_info_cases (d : dict) :
  d <> [] ->
  if nested_are_dicts d
  then exists info,
         extract_company_info (VDict d) = Ok info
         /\ map fst info = clearbit_fields
         /\ is_dict (get info "funding") = true
  else extract_company_info (VDict d) = Raise AttributeError.
Proof.
  intros Hne. unfold extract_company_info.
  replace (truthy (VDict d)) with true by (now destruct d).
  cbn [negb val_get val_get_default rbind].
  do 12 nested_step d.
  replace (nested_are_dicts d) with true.
  - eexists. split; [reflexivity|]. split; reflexivity.
  - unfold nested_are_dicts. cbn [forallb nested_objects].
    repeat match goal with H : is_dict _ = true |- _ => rewrite H; clear H end.
    reflexivity.
Qed.

End Extraction.

Section ExtractionClaims.
Import Py Sys ClearbitService Fields Notions Samples.

(** X21.  Of a non-empty answer whose six nested members are absent or
    dictionaries, [extract_company_info] makes a record with exactly
    its 23 fields, in their order, [funding] being a dictionary; when
    one of the six is anything else, a JSON null included, it raises
    an [AttributeError]. *)
Theorem extract_company_info_shape :
  forall (d : dict),
    d <> [] ->
    (nested_are_dicts d = true ->
     exists info,
       extract_company_info (VDict d) = Ok info
       /\ map fst info = clearbit_fields
       /\ is_dict (Py.get info "funding") = true)
    /\ (nested_are_dicts d = false ->
        extract_company_info (VDict d) = Raise AttributeError).
Proof.
  intros d Hne. pose proof (extract_company_info_cases d Hne) as H.
  destruct (nested_are_dicts d); split; try discriminate; intros _; exact H.
Qed.

Lemma extract_company_info_shape_example :
  [("name", VStr "Acme"); ("geo", VNone)] <> []
  /\ nested_are_dicts [("name", VStr "Acme"); ("geo", VNone)] = false
  /\ extract_company_info (VDict [("name", VStr "Acme"); ("geo", VNone)])
     = Raise AttributeError.
Proof.
  assert (Hne : [("name", VStr "Acme"); ("geo", VNone)] <> [])
    by discriminate.
  split; [exact Hne|]. split; [reflexivity|].
  exact (proj2 (extract_company_info_shape _ Hne) eq_refl).
Defined.

End ExtractionClaims.

(** ** The collector *)

Section CollectorSteps.
Import Py Sys DataCollector Fields Notions.
Variable E : env.
Variable scraper : LinkedIn.Scraper.

Lemma collect_linkedin_keeps (company_name : option string)
  (use_cache : bool) (r : dict) (w : world) :
  answers_with_dicts scraper ->
  exists r' w',
    collect_linkedin scraper company_name use_cache r w = (Ok r', w')
    /\ (has_aggregate r -> has_aggregate r')
    /\ (profile_is_dict r -> profile_is_dict r').
Proof.
  intros Hdicts. unfold collect_linkedin.
  destruct company_name as [name|]; [|do 2 eexists; split; [reflexivity|tauto]].
  destruct (str_truthy (Some name));
    [|do 2 eexists; split; [reflexivity|tauto]].
  unfold try_except, bind, ret.
  destruct (LinkedIn.search_company scraper name use_cache w)
    as [[v|e] w1] eqn:Hsearch;
    [|do 2 eexists; split; [reflexivity|tauto]].
  do 2 eexists. split; [reflexivity|]. split.
  - unfold has_aggregate, aggregated. now rewrite !get_setitem.
  - intros _. unfold profile_is_dict. rewrite get_setitem. simpl.
    now apply (Hdicts name use_cache w v w1).
Qed.

Lemma collect_clearbit_keeps (domain : option string) (use_cache : bool)
  (r : dict) (w : world) :
  exists r' w',
    collect_clearbit E domain use_cache r w = (Ok r', w')
    /\ get r' "linkedin_data" = get r "linkedin_data"
    /\ (has_aggregate r -> has_aggregate r').
Proof.
  unfold collect_clearbit, try_except, bind, ret, lift.
  destruct domain as [d|]; [|do 2 eexists; split; [reflexivity|tauto]].
  destruct (str_truthy (Some d) && ClearbitService.is_available E)%bool;
    [|do 2 eexists; split; [reflexivity|tauto]].
  destruct (ClearbitService.enrich_company E d use_cache w) as [[cd|e] w1];
    [|do 2 eexists; split; [reflexivity|tauto]].
  assert (Hraw : get (setitem r "clearbit_data" cd) "linkedin_data"
                 = get r "linkedin_data"
                 /\ (has_aggregate r ->
                     has_aggregate (setitem r "clearbit_data" cd))).
  { unfold has_aggregate, aggregated. now rewrite !get_setitem. }
  destruct (truthy cd); [|do 2 eexists; split; [reflexivity|exact Hraw]].
  destruct (ClearbitService.extract_company_info cd) as [info|e];
    [|do 2 eexists; split; [reflexivity|exact Hraw]].
  do 2 eexists. split; [reflexivity|]. split.
  - unfold set_aggregated. rewrite !get_setitem. reflexivity.
  - intros _. unfold has_aggregate.
    now rewrite get_set_aggregated, aggregated_set_aggregated.
Qed.

(** The merge returns on such a record, and ends with the list of
    sources. *)
Lemma merge_returns (r : dict) :
  has_aggregate r -> profile_is_dict r ->
  exists base,
    _merge_company_data r
    = Ok (setitem base "sources_used" (VList (sources_used r))).
Proof.
  intros Hagg Hprofile. unfold _merge_company_data.
  rewrite (get_default_dict r "aggregated_data" _ (VDict []) Hagg).
  destruct (truthy (get r "linkedin_data")) eqn:Ht;
    [|eexists; reflexivity].
  specialize (Hprofile Ht).
  destruct (get r "linkedin_data") as [| | | | | |L|]; try discriminate Hprofile.
  rewrite !or_get_dict. simpl. eexists. reflexivity.
Qed.

(** Storing the merged record leaves the raw payloads where they
    are. *)
Lemma sources_used_set_aggregated (r d : dict) :
  sources_used (set_aggregated r d) = sources_used r.
Proof. unfold sources_used, set_aggregated. now rewrite !get_setitem. Qed.

End CollectorSteps.

Section CollectorReturns.
Import Py Sys DataCollector Fields Notions Samples.

(** The mock answers with a dictionary. *)
Lemma mock_answers_with_dicts (E : env) :
  answers_with_dicts (LinkedIn.mock_linkedin_scraper E).
Proof.
  intros name use_cache w v w' Hsearch _. simpl in Hsearch.
  unfold LinkedIn.mock_search_company, bind, sleep, LinkedIn.time_now, ret
    in Hsearch.
  now injection Hsearch as <- _.
Qed.

(** Past the guard the collector returns a record with a merged
    dictionary that ends with the list of sources. *)
Lemma collect_company_data_cases (E : env) (scraper : LinkedIn.Scraper)
  (company_name domain : option string) (use_cache : bool) (w : world) :
  answers_with_dicts scraper ->
  (str_truthy company_name || str_truthy domain)%bool = true ->
  exists r w',
    collect_company_data E scraper company_name domain use_cache w
    = (Ok r, w')
    /\ has_aggregate r
    /\ get (aggregated r) "sources_used" = VList (sources_used r).
Proof.
  intros Hdicts Hident.
  unfold collect_company_data.
  replace (negb (str_truthy company_name) && negb (str_truthy domain))%bool
    with false
    by (destruct (str_truthy company_name), (str_truthy domain);
        simpl in *; congruence).
  unfold bind at 1. unfold utcnow_isoformat at 1.
  unfold bind at 1.
  match goal with
  | |- context [collect_linkedin scraper ?c ?u ?r0 ?w0] =>
      destruct (collect_linkedin_keeps scraper c u r0 w0 Hdicts)
        as [r1 [w1 [H1 [Hagg1 Hprof1]]]];
      assert (Hagg0 : has_aggregate r0) by reflexivity;
      assert (Hprof0 : profile_is_dict r0) by (intros Ht; discriminate Ht)
  end.
  rewrite H1. unfold bind at 1.
  destruct (collect_clearbit_keeps E domain use_cache r1 w1)
    as [r2 [w2 [H2 [Hl2 Hagg2]]]].
  rewrite H2. unfold bind at 1.
  destruct (collect_hunter_frame E domain use_cache r2 w2)
    as [r3 [w3 [H3 [Hl3 [_ [Hagg3 _]]]]]].
  rewrite H3.
  assert (Hagg : has_aggregate r3) by (apply Hagg3, Hagg2, Hagg1, Hagg0).
  assert (Hprof : profile_is_dict r3).
  { unfold profile_is_dict. rewrite Hl3, Hl2. now apply Hprof1. }
  destruct (merge_returns r3 Hagg Hprof) as [base Hmerge].
  unfold bind, lift, ret. rewrite Hmerge.
  do 2 eexists. split; [reflexivity|]. split.
  - unfold has_aggregate.
    now rewrite get_set_aggregated, aggregated_set_aggregated.
  - rewrite aggregated_set_aggregated, sources_used_set_aggregated.
    rewrite get_setitem. reflexivity.
Qed.

(** The list the merge builds names the contributing sources. *)
Lemma sources_used_contributing (r : dict) :
  sources_used r = map VStr (contributing r).
Proof.
  unfold sources_used, contributing, source_payloads. simpl.
  destruct (truthy (get r "linkedin_data")),
           (truthy (get r "clearbit_data")),
           (truthy (get r "hunter_data")); reflexivity.
Qed.

(** X22.  Past its guard [collect_company_data] returns in every world:
    given a name or a domain, and a scraper that answers with a
    dictionary or nothing, no failure of a source, of Redis or of the
    network leaves it; and [sources_used] in the merged record is the
    list of the names, among linkedin, clearbit and hunter in this
    order, of the sources whose raw payload in the returned record is
    truthy. *)
Theorem collect_company_data_returns :
  forall (E : env) (scraper : LinkedIn.Scraper)
         (company_name domain : option string) (use_cache : bool) (w : world),
    answers_with_dicts scraper ->
    (str_truthy company_name || str_truthy domain)%bool = true ->
    exists r w',
      collect_company_data E scraper company_name domain use_cache w
      = (Ok r, w')
      /\ get (aggregated r) "sources_used" = VList (map VStr (contributing r)).
Proof.
  intros E scraper company_name domain use_cache w Hdicts Hident.
  destruct (collect_company_data_cases E scraper company_name domain
              use_cache w Hdicts Hident) as [r [w' [Hr [_ Hsources]]]].
  exists r, w'. split; [assumption|].
  now rewrite <- sources_used_contributing.
Qed.

(** With both keys and the network answering, the three payloads are
    truthy and the list names the three sources. *)
Lemma collect_company_data_returns_example :
  answers_with_dicts (LinkedIn.mock_linkedin_scraper online)
  /\ merged_field
       (data_collector_company_data online (Some "Acme") (Some "acme.com")
                                    false empty_world)
       "sources_used"
     = VList [VStr "linkedin"; VStr "clearbit"; VStr "hunter"]
  /\ exists r w',
       data_collector_company_data online (Some "Acme") (Some "acme.com")
                                   false empty_world = (Ok r, w')
       /\ get (aggregated r) "sources_used"
          = VList (map VStr (contributing r)).
Proof.
  split; [apply mock_answers_with_dicts|].
  split; [reflexivity|].
  exact (collect_company_data_returns online _ (Some "Acme")
           (Some "acme.com") false empty_world
           (mock_answers_with_dicts online) eq_refl).
Defined.

End CollectorReturns.

(** ** The profile *)

Section ProfileSteps.
Import Py Sys DataCollector Profile Notions DedupSpec.
Variable E : env.
Hypothesis no_hunter : str_truthy (hunter_api_key E) = false.
Hypothesis no_clearbit : str_truthy (clearbit_api_key E) = false.

(** With no key only the scraper is asked: the record is the one the
    mock's profile gives. *)
Lemma company_data_without_keys (company_name domain : string)
  (use_cache : bool) (w : world) :
  company_name <> "" ->
  exists L,
    LinkedIn.mock_search_company E company_name use_cache w
    = (Ok (VDict L), log EvSleep w)
    /\ data_collector_company_data E (Some company_name) (Some domain)
                                   use_cache w
       = (Ok [ ("collected_at", VStr (utcnow_iso E (now w)));
               ("company_name", VStr company_name);
               ("domain", VStr domain);
               ("linkedin_data", VDict L);
               ("clearbit_data", VNone);
               ("hunter_data", VNone);
               ("aggregated_data",
                VDict [ ("name", VStr company_name);
                        ("description",
                         VStr (company_name
                               ++ " is a leading company in its industry."));
                        ("industry", VStr "Technology");
                        ("employee_count", VInt 150);
                        ("website", get L "website");
                        ("linkedin_url", get L "linkedin_url");
                        ("sources_used", VList [VStr "linkedin"]) ]) ],
          log EvSleep w).
Proof.
  intros Hname.
  eexists. split; [reflexivity|].
  unfold data_collector_company_data, collect_company_data, collect_clearbit,
    collect_hunter, collect_linkedin,
    ClearbitService.is_available, HunterService.is_available,
    ClearbitService.api_key, HunterService.api_key.
  rewrite no_hunter, no_clearbit, !andb_false_r.
  destruct company_name as [|c cn]; [congruence|].
  reflexivity.
Qed.

(** And no contact is collected. *)
Lemma contacts_without_keys (company_name domain : string) (limit : Z)
  (use_cache : bool) (w : world) :
  data_collector_contacts E company_name domain limit use_cache w
  = (Ok [], log EvSleep w).
Proof.
  rewrite mock_contacts_are_dropped.
  unfold email_discovery_contacts, HunterService.is_available,
    HunterService.api_key.
  rewrite no_hunter. unfold bind, ret, lift. simpl.
  unfold slice_to. destruct (0 <=? limit); now rewrite firstn_nil.
Qed.

End ProfileSteps.

Section ProfileClaims.
Import Py Sys DataCollector Profile Agents Notions Samples.

(** X23.  With no API key configured every company gets the same
    profile from the collector the module builds: for any name that is
    not empty, any domain and either flag, [collect_full_profile]
    returns, the lead score is 44 (four of the five required fields
    and the mock's 150 employees), which rates as Fair, there is no
    contact, the one source used is the scraper, nothing is stored and
    the only calls are the mock's pauses. *)
Theorem profile_without_keys :
  forall (E : env) (company_name domain : string)
         (include_contacts use_cache : bool) (w : world),
    str_truthy (hunter_api_key E) = false ->
    str_truthy (clearbit_api_key E) = false ->
    company_name <> "" ->
    exists profile w',
      data_collector_full_profile E company_name domain include_contacts
                                  use_cache w = (Ok profile, w')
      /\ get profile "lead_score" = VFloat 44
      /\ _get_score_rating 44 = "Fair"
      /\ get profile "contacts" = VList []
      /\ val_get (get profile "data") "sources_used"
         = Ok (VList [VStr "linkedin"])
      /\ db w' = db w
      /\ events w'
         = (events w
            ++ EvSleep :: (if include_contacts then [EvSleep] else []))%list.
Proof.
  intros E company_name domain include_contacts use_cache w Hh Hc Hname.
  destruct (company_data_without_keys E Hh Hc company_name domain use_cache w
              Hname) as [L [_ Hdata]].
  unfold data_collector_full_profile, collect_full_profile.
  unfold bind at 1.
  change (collect_company_data E (LinkedIn.mock_linkedin_scraper E))
    with (data_collector_company_data E).
  rewrite Hdata.
  unfold bind at 1.
  assert (Hcontacts :
            (if include_contacts
             then collect_contacts E (LinkedIn.mock_linkedin_scraper E)
                    company_name domain 20 use_cache
             else ret []) (log EvSleep w)
            = (Ok [], if include_contacts then log EvSleep (log EvSleep w)
                      else log EvSleep w)).
  { destruct include_contacts; [|reflexivity].
    apply (contacts_without_keys E Hh). }
  rewrite Hcontacts.
  destruct company_name as [|c cn]; [congruence|].
  do 2 eexists. split; [reflexivity|].
  repeat split.
  - now destruct include_contacts.
  - destruct include_contacts; simpl; [|reflexivity].
    rewrite <- List.app_assoc. reflexivity.
Qed.
Lemma profile_without_keys_example :
  "Acme" <> ""
  /\ exists profile w',
       data_collector_full_profile offline "Acme" "acme.com" true true
                                   empty_world = (Ok profile, w')
       /\ get profile "lead_score" = VFloat 44
       /\ _get_score_rating 44 = "Fair"
       /\ get profile "contacts" = VList []
       /\ val_get (get profile "data") "sources_used"
          = Ok (VList [VStr "linkedin"])
       /\ db w' = db empty_world
       /\ events w' = (events empty_world ++ [EvSleep; EvSleep])%list.
Proof.
  assert (Hname : "Acme" <> "") by discriminate.
  split; [exact Hname|].
  exact (profile_without_keys offline "Acme" "acme.com" true true empty_world
           eq_refl eq_refl Hname).
Defined.

End ProfileClaims.

(** ** The flag [use_cache] and the contacts *)

Section FirstCall.
Import Py Sys CacheService HunterService HunterMore DataCollector DedupSpec
  Notions.

Lemma sends_first_bind {A B} (ev : event) (m : M A) (k : A -> M B) :
  sends_first ev m -> (forall a, adds any_call (k a)) ->
  sends_first ev (bind m k).
Proof.
  intros Hm Hk w. unfold bind. destruct (Hm w) as [rest Hrest].
  destruct (m w) as [[a|e] w1]; simpl in Hrest.
  - destruct (Hk a w1) as [evs [Hevs _]].
    exists (rest ++ evs)%list. rewrite Hevs, Hrest, <- List.app_assoc.
    reflexivity.
  - now exists rest.
Qed.

Lemma sends_first_try {A} (ev : event) (m : M A) (h : exn -> M A) :
  sends_first ev m -> (forall e, adds any_call (h e)) ->
  sends_first ev (try_except m h).
Proof.
  intros Hm Hh w. unfold try_except. destruct (Hm w) as [rest Hrest].
  destruct (m w) as [[a|e] w1]; simpl in Hrest.
  - now exists rest.
  - destruct (Hh e w1) as [evs [Hevs _]].
    exists (rest ++ evs)%list. rewrite Hevs, Hrest, <- List.app_assoc.
    reflexivity.
Qed.

Variable E : env.

(** The lookup in the cache starts with its [GET]. *)
Lemma cache_get_sends_first (ns id : string) :
  sends_first (EvRedis "GET" (_generate_key ns id)) (get E ns id).
Proof.
  apply sends_first_try; [|intros; apply adds_ret].
  cbv zeta. apply sends_first_bind.
  - intros w. exists []. unfold redis_get, command.
    now destruct (redis_fault E (List.length (events w))).
  - intros [txt|]; [|apply adds_ret].
    destruct (negb (String.eqb txt "")); [apply adds_lift | apply adds_ret].
Qed.

(** So does every function built on the lookup by domain that has no
    flag to pass on. *)
Lemma get_contacts_sends_first (domain : string) (limit : Z) :
  sends_first
    (EvRedis "GET" (_generate_key "hunter" ("hunter_domain:" ++ domain)))
    (get_contacts E domain limit).
Proof.
  unfold get_contacts. apply sends_first_bind.
  - rewrite domain_search_is_lookup. unfold cached_lookup.
    apply sends_first_bind; [apply cache_get_sends_first|].
    intros cached. destruct (truthy cached); [apply adds_ret|].
    apply lookup_fetch_adds; [|reflexivity].
    now apply hunter_request_adds.
  - intros data. destruct (truthy data); [|apply adds_ret].
    apply adds_bind; [apply adds_lift|]. intros [|]; [|apply adds_ret].
    apply adds_bind; [apply adds_lift|]. intros every.
    apply adds_bind; [apply adds_lift|]. intros emails. apply adds_lift.
Qed.

End FirstCall.

Section FlagClaims.
Import Py Sys CacheService HunterService DataCollector DedupSpec Notions
  Samples.

(** X24.  The flag [use_cache] does not reach the contacts of the
    email-discovery adapter: [get_contacts] has no such parameter and
    searches with the cache on, so with a key configured
    [collect_contacts] sends a Redis [GET] for the domain right after
    the scraper's pause, also when called with [use_cache] off. *)
Theorem collect_contacts_reads_cache_anyway :
  forall (E : env) (company_name domain : string) (limit : Z)
         (use_cache : bool) (w : world),
    str_truthy (hunter_api_key E) = true ->
    exists rest,
      events (snd (data_collector_contacts E company_name domain limit
                                           use_cache w))
      = (events w
         ++ EvSleep
            :: EvRedis "GET"
                 (_generate_key "hunter" ("hunter_domain:" ++ domain))
            :: rest)%list.
Proof.
  intros E company_name domain limit use_cache w Hkey.
  rewrite mock_contacts_are_dropped.
  assert (Hfirst : sends_first
            (EvRedis "GET"
               (_generate_key "hunter" ("hunter_domain:" ++ domain)))
            (email_discovery_contacts E domain limit)).
  { unfold email_discovery_contacts, is_available, api_key. rewrite Hkey.
    apply sends_first_bind.
    - apply sends_first_try; [apply get_contacts_sends_first|].
      intros; apply adds_ret.
    - intros contacts. apply adds_bind; [apply adds_lift|].
      intros; apply adds_ret. }
  destruct (Hfirst (log EvSleep w)) as [rest Hrest].
  exists rest. rewrite Hrest. simpl. now rewrite <- List.app_assoc.
Qed.

Lemma collect_contacts_reads_cache_anyway_example :
  exists rest,
    events (snd (data_collector_contacts online "Acme" "acme.com" 10 false
                                         empty_world))
    = (events empty_world
       ++ EvSleep :: EvRedis "GET" "cache:hunter:hunter_domain:acme.com"
          :: rest)%list.
Proof.
  exact (collect_contacts_reads_cache_anyway online "Acme" "acme.com" 10
           false empty_world eq_refl).
Defined.

End FlagClaims.

(** ** The contacts the collector returns *)

Section ContactFacts.
Import Py Sys HunterService DataCollector DedupSpec Agents Notions.
Variable E : env.

(** A slice from the start is a prefix. *)
Lemma slice_to_prefix {A} (l : list A) (n : Z) :
  exists k, slice_to l n = firstn k l.
Proof. unfold slice_to. destruct (0 <=? n); eexists; reflexivity. Qed.

Lemma in_firstn {A} (k : nat) (l : list A) (a : A) :
  In a (firstn k l) -> In a l.
Proof.
  intros Hin. rewrite <- (firstn_skipn k l). apply in_or_app. now left.
Qed.

(** The rule keeps contacts of the list it is given. *)
Lemma first_seen_incl :
  forall (cs before : list dict) (c : dict),
    In c (first_seen E before cs) -> In c cs.
Proof.
  induction cs as [|c0 rest IH]; intros before c Hin; simpl in Hin.
  - destruct Hin.
  - apply in_app_or in Hin. destruct Hin as [Hin|Hin].
    + destruct (kept E before c0); [|destruct Hin].
      destruct Hin as [<-|[]]. now left.
    + right. now apply (IH (before ++ [c0])%list).
Qed.

(** What the loop returns: contacts of its input, with distinct
    keys. *)
Lemma dedup_result (cs out : list dict) :
  _deduplicate_contacts E cs = Ok out ->
  (forall c, In c out -> In c cs)
  /\ NoDup (emails_of E out) /\ NoDup (names_of E out).
Proof.
  intros Hout. pose proof (dedup_ok_emails E cs out Hout) as Hok.
  rewrite (dedup_refines E cs Hok) in Hout. injection Hout as <-.
  unfold dedup_spec. split; [|split].
  - intros c. apply first_seen_incl.
  - apply first_seen_emails.
  - apply first_seen_names.
Qed.

(** A prefix keeps the keys distinct. *)
Lemma prefix_keys (k : nat) (out : list dict) :
  NoDup (emails_of E out) -> NoDup (names_of E out) ->
  NoDup (emails_of E (firstn k out)) /\ NoDup (names_of E (firstn k out)).
Proof.
  intros He Hn. rewrite <- (firstn_skipn k out) in He, Hn.
  rewrite emails_of_app in He. rewrite names_of_app in Hn.
  split; eapply NoDup_app_remove_r; eassumption.
Qed.

(** A contact of the adapter has no flag and no title for the filter
    of the decision makers. *)
Lemma hunter_contact_is_no_decision_maker (c : dict) :
  map fst c = hunter_contact_fields -> is_decision_maker E c = false.
Proof.
  intros Hfields.
  assert (Habsent : forall k, ~ In k hunter_contact_fields ->
                              lookup c k = None).
  { intros k Hk. apply lookup_absent. now rewrite Hfields. }
  unfold is_decision_maker, get, get_default.
  rewrite !Habsent by (simpl; intuition discriminate).
  reflexivity.
Qed.

Lemma decision_makers_none (contacts : list dict) :
  Forall (fun c => map fst c = hunter_contact_fields) contacts ->
  decision_makers E contacts = [].
Proof.
  unfold decision_makers. induction 1 as [|c cs Hc _ IH]; [reflexivity|].
  simpl. now rewrite (hunter_contact_is_no_decision_maker c Hc).
Qed.

End ContactFacts.

Section ContactClaims.
Import Py Sys HunterService DataCollector DedupSpec Agents Notions Samples.

(** X25.  Whatever the scraper, the contacts [collect_contacts] returns
    are at most [limit] (for a limit that is not negative); no two of
    them have the same email once in lower case as [str.lower] gives
    it, empty emails apart; and no two of those without an email have
    the same name (first name, a space, last name) once in lower case
    and trimmed of the white space [str.strip] removes. *)
Theorem collect_contacts_bounded_and_distinct :
  forall (E : env) (scraper : LinkedIn.Scraper)
         (company_name domain : string) (limit : Z) (use_cache : bool)
         (w w' : world) (contacts : list dict),
    collect_contacts E scraper company_name domain limit use_cache w
    = (Ok contacts, w') ->
    (0 <= limit -> (List.length contacts <= Z.to_nat limit)%nat)
    /\ NoDup (emails_of E contacts)
    /\ NoDup (names_of E contacts).
Proof.
  intros E scraper company_name domain limit use_cache w w' contacts H.
  unfold collect_contacts in H. unfold bind at 1 in H.
  destruct (try_except _ _ w) as [[c1|e1] w1]; [|discriminate].
  unfold bind at 1 in H.
  match type of H with
  | (let (_, _) := ?m w1 in _) = _ =>
      destruct (m w1) as [[c2|e2] w2]; [|discriminate]
  end.
  unfold bind, lift, ret in H.
  destruct (_deduplicate_contacts E c2) as [out|] eqn:Hout; [|discriminate].
  injection H as <- _.
  destruct (dedup_result E c2 out Hout) as [_ [He Hn]].
  split; [intros Hlimit; now apply slice_to_length|].
  destruct (slice_to_prefix out limit) as [k ->].
  now apply prefix_keys.
Qed.

Lemma collect_contacts_bounded_and_distinct_example :
  exists contacts w',
    data_collector_contacts online "Acme" "acme.com" 1 false empty_world
    = (Ok contacts, w')
    /\ (0 <= 1 -> (List.length contacts <= Z.to_nat 1)%nat)
    /\ NoDup (emails_of online contacts)
    /\ NoDup (names_of online contacts).
Proof.
  do 2 eexists. split; [reflexivity|].
  exact (collect_contacts_bounded_and_distinct online
           (LinkedIn.mock_linkedin_scraper online) "Acme" "acme.com" 1 false
           empty_world _ _ eq_refl).
Defined.

(** X26.  The filter of [find_decision_makers] finds nobody among the
    contacts of the collector the module builds: the mock's employees,
    flagged or not, are dropped for want of an email and a first and
    last name, and what is left comes from the email-discovery
    adapter, whose contacts carry [position] and [seniority] but
    neither [title] nor [is_decision_maker]. *)
Theorem no_decision_maker_is_found :
  forall (E : env) (company_name domain : string) (limit : Z)
         (use_cache : bool) (w w' : world) (contacts : list dict),
    data_collector_contacts E company_name domain limit use_cache w
    = (Ok contacts, w') ->
    Forall (fun c => map fst c = hunter_contact_fields) contacts
    /\ decision_makers E contacts = [].
Proof.
  intros E company_name domain limit use_cache w w' contacts H.
  rewrite mock_contacts_are_dropped in H.
  unfold email_discovery_contacts in H. unfold bind at 1 in H.
  assert (Hfields : forall hs w1,
            (if is_available E
             then try_except (get_contacts E domain limit) (fun _ => ret [])
             else ret []) (log EvSleep w) = (Ok hs, w1) ->
            Forall (fun c => map fst c = hunter_contact_fields) hs).
  { intros hs w1. destruct (is_available E).
    - unfold try_except, ret.
      destruct (get_contacts E domain limit (log EvSleep w))
        as [[cs|e] w2] eqn:Hget.
      + intros [= <- _].
        now apply (get_contacts_fields E domain limit _ _ _ Hget).
      + intros [= <- _]. constructor.
    - intros [= <- _]. constructor. }
  match type of H with
  | (let (_, _) := ?m (log EvSleep w) in _) = _ =>
      destruct (m (log EvSleep w)) as [[hs|e] w1]; [|discriminate]
  end.
  specialize (Hfields hs w1 eq_refl).
  unfold bind, lift, ret in H.
  destruct (_deduplicate_contacts E hs) as [out|] eqn:Hout; [|discriminate].
  injection H as <- _.
  destruct (dedup_result E hs out Hout) as [Hincl _].
  assert (Hall : Forall (fun c => map fst c = hunter_contact_fields)
                        (slice_to out limit)).
  { apply Forall_forall. intros c Hc.
    destruct (slice_to_prefix out limit) as [k Hk]. rewrite Hk in Hc.
    apply in_firstn in Hc. apply Hincl in Hc.
    now apply (proj1 (Forall_forall _ hs) Hfields). }
  split; [assumption | now apply decision_makers_none].
Qed.

Lemma no_decision_maker_is_found_example :
  exists contacts w',
    data_collector_contacts online "Acme" "acme.com" 1 true empty_world
    = (Ok contacts, w')
    /\ List.length contacts = 1%nat
    /\ Forall (fun c => map fst c = hunter_contact_fields) contacts
    /\ decision_makers online contacts = [].
Proof.
  do 2 eexists. split; [reflexivity|]. split; [reflexivity|].
  exact (no_decision_maker_is_found online "Acme" "acme.com" 1 true
           empty_world _ _ eq_refl).
Defined.

End ContactClaims.

(** ** What can leave the profile *)

Section ProfileFailures.
Import Py Sys HunterService DataCollector DedupSpec Profile Notions.
Variable E : env.

Lemma not_all_str (cs : list dict) :
  forallb email_is_str cs = false ->
  Exists (fun c => email_is_str c = false) cs.
Proof.
  induction cs as [|c cs IH]; simpl; [discriminate|].
  destruct (email_is_str c) eqn:Hc; simpl; intros Hrest.
  - right. now apply IH.
  - now left.
Qed.

(** The loop raises nothing but the [AttributeError] of [lower]. *)
Lemma dedup_raises_attribute (cs : list dict) (e : exn) :
  _deduplicate_contacts E cs = Raise e -> e = AttributeError.
Proof.
  intros Hraise. destruct (forallb email_is_str cs) eqn:Hall.
  - rewrite dedup_refines in Hraise; [discriminate|].
    apply Forall_forall. intros c Hc.
    now apply (proj1 (forallb_forall _ cs) Hall).
  - unfold _deduplicate_contacts in Hraise.
    rewrite dedup_loop_raises in Hraise by now apply not_all_str.
    now injection Hraise as <-.
Qed.

(** Neither source of contacts lets an exception out: only the loop
    can. *)
Lemma collect_contacts_raises (scraper : LinkedIn.Scraper)
  (company_name domain : string) (limit : Z) (use_cache : bool)
  (w w' : world) (e : exn) :
  collect_contacts E scraper company_name domain limit use_cache w
  = (Raise e, w') ->
  e = AttributeError.
Proof.
  intros H. unfold collect_contacts in H. unfold bind at 1 in H.
  assert (Htry : forall A (m : M A) (a : A) (w0 : world),
            exists a' w1, try_except m (fun _ => ret a) w0 = (Ok a', w1)).
  { intros A m a w0. unfold try_except, ret.
    destruct (m w0) as [[a'|x] w1]; do 2 eexists; reflexivity. }
  match type of H with
  | (let (_, _) := try_except ?m ?h w in _) = _ =>
      destruct (Htry _ m [] w) as [c1 [w1 H1]]
  end.
  rewrite H1 in H. unfold bind at 1 in H.
  assert (H2 : exists c2 w2,
            (if is_available E
             then try_except
                    (hunter_contacts <- get_contacts E domain limit ;;
                     ret (c1 ++ hunter_contacts)%list)
                    (fun _ => ret c1)
             else ret c1) w1 = (Ok c2, w2)).
  { destruct (is_available E); [apply Htry | do 2 eexists; reflexivity]. }
  destruct H2 as [c2 [w2 H2]]. rewrite H2 in H.
  unfold bind, lift, ret in H.
  destruct (_deduplicate_contacts E c2) as [out|e0] eqn:Hout;
    [discriminate|].
  injection H as <- _. now apply (dedup_raises_attribute c2).
Qed.

End ProfileFailures.

Section ProfileFailureClaims.
Import Py Sys HunterService DataCollector DedupSpec Profile Notions Samples.

(** X27.  Three kinds of exception can leave [collect_full_profile],
    and no other: the [ValueError] of the guard, when name and domain
    are both empty; an [AttributeError], as the one of a contact whose
    email is no string; and a [TypeError], as the one of a score over
    a field of the wrong kind.  A failure of Redis, of the network or
    of the scraper is never among them. *)
Theorem full_profile_failures :
  forall (E : env) (scraper : LinkedIn.Scraper)
         (company_name domain : string) (include_contacts use_cache : bool)
         (w w' : world) (e : exn),
    answers_with_dicts scraper ->
    collect_full_profile E scraper company_name domain include_contacts
                         use_cache w = (Raise e, w') ->
    (e = ValueError "Either company_name or domain must be provided"
     /\ company_name = "" /\ domain = "")
    \/ e = AttributeError
    \/ e = TypeError.
Proof.
  intros E scraper company_name domain include_contacts use_cache w w' e
         Hdicts H.
  unfold collect_full_profile in H. unfold bind at 1 in H.
  destruct (str_truthy (Some company_name) || str_truthy (Some domain))%bool
    eqn:Hident.
  - destruct (collect_company_data_cases E scraper (Some company_name)
                (Some domain) use_cache w Hdicts Hident)
      as [r [w1 [Hr [Hagg _]]]].
    rewrite Hr in H. unfold bind at 1 in H.
    assert (Hcontacts : forall cs e1 w2,
              (if include_contacts
               then collect_contacts E scraper company_name domain 20
                      use_cache
               else ret cs) w1 = (Raise e1, w2) -> e1 = AttributeError).
    { intros cs e1 w2. destruct include_contacts; [|discriminate].
      apply collect_contacts_raises. }
    match type of H with
    | (let (_, _) := ?m w1 in _) = _ =>
        destruct (m w1) as [[cs|e1] w2] eqn:Hcs
    end.
    2:{ injection H as <- _. right. left. now apply (Hcontacts [] e1 w2). }
    rewrite (get_default_dict r "aggregated_data" _ (VDict []) Hagg) in H.
    unfold bind, lift, ret in H.
    pose proof (lead_score_cases (aggregated r)) as Hscore.
    destruct (calculate_lead_score (aggregated r)) as [x|e2];
      [discriminate|].
    injection H as <- _. destruct Hscore as [_ [->| ->]]; tauto.
  - apply orb_false_elim in Hident. destruct Hident as [Hn Hd].
    unfold collect_company_data in H. rewrite Hn, Hd in H.
    simpl in H. injection H as <- _. left.
    unfold str_truthy in Hn, Hd.
    apply negb_false_iff, String.eqb_eq in Hn.
    apply negb_false_iff, String.eqb_eq in Hd. now subst.
Qed.

Lemma full_profile_failures_example :
  answers_with_dicts (LinkedIn.mock_linkedin_scraper online)
  /\ (exists w',
        data_collector_full_profile online "Acme" "acme.com" true false
                                    empty_world
        = (Raise AttributeError, w'))
  /\ ((AttributeError
       = ValueError "Either company_name or domain must be provided"
       /\ "Acme" = "" /\ "acme.com" = "")
      \/ AttributeError = AttributeError
      \/ AttributeError = TypeError).
Proof.
  split; [apply mock_answers_with_dicts|].
  split; [eexists; reflexivity|].
  exact (full_profile_failures online (LinkedIn.mock_linkedin_scraper online)
           "Acme" "acme.com" true false empty_world _ AttributeError
           (mock_answers_with_dicts online) eq_refl).
Defined.

End ProfileFailureClaims.

(** ** A firmographic answer that does not normalize *)

Section SwallowedExtraction.
Import Py Sys ClearbitService DataCollector Fields Notions Samples
  MoreSamples.



End SwallowedExtraction.

(** ** The firmographic lookup and the cache *)

Section ClearbitCaching.
Import Py Sys Notions CacheService ClearbitService Samples MoreSamples.

(** The request a configured adapter sends. *)
Lemma clearbit_request_reply (E : env) (key endpoint : string)
  (params : dict) (w : world) :
  clearbit_api_key E = Some key -> key <> "" ->
  _make_request E endpoint params w
  = (match http_get E (List.length (events w))
                    (base_url ++ "/" ++ endpoint) params with
     | HttpResponse status (Ok body) =>
         if status =? 200 then Ok body else Ok VNone
     | _ => Ok VNone
     end,
     log (EvHttp (base_url ++ "/" ++ endpoint) params) w).
Proof.
  intros Hkey Hne. apply String.eqb_neq in Hne.
  unfold _make_request, api_key, str_truthy. rewrite Hkey, Hne.
  unfold try_except, bind, http_request, ret, raise, lift.
  change (negb (negb false)) with false. cbv beta iota zeta.
  destruct (http_get E (List.length (events w)) (base_url ++ "/" ++ endpoint)
                     params)
    as [| |status [body|x]]; try reflexivity;
    destruct (status =? 200); reflexivity.
Qed.

(** X29.  One request per expiry for the firmographic lookup too: when
    [enrich_company] misses the cache and the provider answers 200
    with a truthy record the codec round-trips, the record is stored
    under the domain, and a second lookup of the domain within
    [cache_ttl] seconds returns it after the one cache lookup, with no
    request sent. *)
Theorem enrich_company_asks_once :
  forall (E : env) (key domain s : string) (cd : pyval) (w : world) (d : Z),
    clearbit_api_key E = Some key -> key <> "" ->
    (forall n, redis_fault E n = false) ->
    live w (_generate_key "clearbit" domain) = None ->
    http_get E (S (List.length (events w)))
             "https://company.clearbit.com/v2/companies/find"
             [("domain", VStr domain)]
    = HttpResponse 200 (Ok cd) ->
    truthy cd = true ->
    json_dumps E cd = Ok s -> s <> "" -> json_loads E s = Ok cd ->
    0 <= d < cache_ttl E ->
    exists w1,
      enrich_company E domain true w = (Ok cd, w1)
      /\ enrich_company E domain true (elapse d w1)
         = (Ok cd,
            log (EvRedis "GET" (_generate_key "clearbit" domain))
                (elapse d w1)).
Proof.
  intros E key domain s cd w d Hkey Hne Hup Hdead Hreply Htruthy Hdumps Hs
         Hloads Hd.
  assert (Hpos : ttl_or_default E (Some (cache_ttl E)) = cache_ttl E).
  { simpl. replace (cache_ttl E =? 0) with false; [reflexivity|].
    symmetry. apply Z.eqb_neq. lia. }
  set (w0 := log (EvRedis "GET" (_generate_key "clearbit" domain)) w).
  set (w0' := log (EvHttp "https://company.clearbit.com/v2/companies/find"
                          [("domain", VStr domain)]) w0).
  destruct (set_stores E "clearbit" domain s cd (Some (cache_ttl E)) w0'
              Hdumps (Hup _)) as [w1 [Hset [Hev Hlive]]]; [lia|].
  assert (Hfirst : enrich_company E domain true w = (Ok cd, w1)).
  { unfold enrich_company. unfold bind at 1.
    rewrite (get_miss E "clearbit" domain w (Hup _) Hdead). fold w0.
    change (truthy VNone) with false. cbv iota.
    unfold enrich_company_fetch, bind, ret.
    rewrite (clearbit_request_reply E key "companies/find" _ w0 Hkey Hne).
    change (base_url ++ "/" ++ "companies/find")
      with "https://company.clearbit.com/v2/companies/find".
    replace (List.length (events w0)) with (S (List.length (events w)))
      by (unfold w0; simpl; rewrite length_app; simpl; lia).
    rewrite Hreply. change (200 =? 200) with true. cbv beta iota.
    rewrite Htruthy. change (true && true)%bool with true.
    cbv beta iota. fold w0'. now rewrite Hset. }
  exists w1. split; [assumption|].
  unfold enrich_company. unfold bind, ret.
  rewrite (get_hit E "clearbit" domain s cd (elapse d w1));
    [now rewrite Htruthy | apply Hup | | assumption..].
  apply Hlive. lia.
Qed.

Lemma enrich_company_asks_once_example :
  exists w1,
    enrich_company firmographic "acme.com" true later_world = (Ok a1, w1)
    /\ enrich_company firmographic "acme.com" true (elapse 3600 w1)
       = (Ok a1,
          log (EvRedis "GET" (_generate_key "clearbit" "acme.com"))
              (elapse 3600 w1)).
Proof.
  refine (enrich_company_asks_once firmographic "clearbit-key" "acme.com"
            a1_text a1 later_world 3600
            eq_refl _ (fun _ => eq_refl) eq_refl eq_refl eq_refl eq_refl
            _ eq_refl _).
  - discriminate.
  - discriminate.
  - simpl. lia.
Defined.

End ClearbitCaching.

(** ** The mock scraper *)

Section MockEmployees.
Import Py Sys LinkedIn Notions.

(** X30.  The mock scraper returns [min(limit, 10)] employees, none
    for a limit that is not positive, after one pause and nothing
    else; each names the company asked for, and the first
    [min(limit, 5)] carry the flag of a decision maker. *)
Theorem mock_employees_count :
  forall (E : env) (company_name : string) (limit : Z) (use_cache : bool)
         (w : world),
    exists emps,
      mock_scrape_company_employees E company_name limit use_cache w
      = (Ok emps, log EvSleep w)
      /\ List.length emps = Z.to_nat (Z.min limit 10)
      /\ Forall (fun c => get c "company" = VStr company_name) emps
      /\ List.length (filter (fun c => truthy (get c "is_decision_maker"))
                             emps)
         = Z.to_nat (Z.min limit 5).
Proof.
  intros E company_name limit use_cache w.
  unfold mock_scrape_company_employees, range.
  change (Z.of_nat (List.length titles)) with 10.
  assert (Hn : (Z.to_nat (Z.min limit 10) <= 10)%nat) by lia.
  assert (Hflag : Z.to_nat (Z.min limit 5)
                  = Nat.min (Z.to_nat (Z.min limit 10)) 5) by lia.
  rewrite Hflag. clear Hflag.
  destruct (Z.to_nat (Z.min limit 10))
    as [|[|[|[|[|[|[|[|[|[|[|n]]]]]]]]]]];
    try (exfalso; lia);
    (eexists; split; [reflexivity|];
     split; [reflexivity|]; split; [repeat constructor | reflexivity]).
Qed.

End MockEmployees.
